(** * The solver of arvention/VGGNet (src/solver.py)

    A shallow embedding of [Solver]: the checkpoint store ([save_model],
    [load_pretrained_model]), the training loop ([train], [model_step]),
    the evaluator ([eval]) with its two callers, and the console lines.

    Python integers are [Z]; Python exceptions are the constructors of
    [exn] and a method that may raise returns a [result].  The deep
    learning framework (tensors, the network, autograd, the optimizer) is
    not part of the repository: it enters through the class [Framework],
    so every theorem holds for any network and any loss. *)

From Stdlib Require Import ZArith QArith.QArith_base Ascii String List Lia.
From stdpp Require Import base list strings pretty gmap.

Local Open Scope Z_scope.
Local Open Scope string_scope.

(** ** Exceptions and results *)

Inductive exn : Type :=
| ValueError            (* int() on a string that is not a number *)
| ZeroDivisionError     (* x / 0 and x % 0 *)
| UnboundLocalError     (* a local read before any assignment *)
| AttributeError        (* int has no attribute item *)
| IndexError            (* tensor index out of range *)
| FileNotFoundError     (* torch.load on a missing file *)
| MaxEmptyDim           (* torch.max over a dimension of size 0 *)
| BroadcastError        (* torch.eq on sizes that do not broadcast *)
| TopkOutOfRange.       (* torch.topk with k above the dimension size *)

Inductive result (A : Type) : Type :=
| Ok (a : A)
| Raise (e : exn).
Arguments Ok {A} a.
Arguments Raise {A} e.

Definition rbind {A B : Type} (m : result A) (k : A -> result B) : result B :=
  match m with
  | Ok a => k a
  | Raise e => Raise e
  end.

Notation "'let*' x := m 'in' k" := (rbind m (fun x => k))
  (at level 10, x pattern, m at level 100, k at level 200).

Definition is_ok {A : Type} (m : result A) : bool :=
  match m with Ok _ => true | Raise _ => false end.

(** A loop whose body may raise: the first exception ends it. *)
Fixpoint for_each {A S : Type} (body : S -> A -> result S) (s : S) (l : list A)
  : result S :=
  match l with
  | [] => Ok s
  | x :: l' => let* s' := body s x in for_each body s' l'
  end.

(** ** Python built-ins used by the solver *)

Module Py.

(** [range(a, b)]: a, a+1, ..., b-1; empty when [b <= a]. *)
Definition range (a b : Z) : list Z :=
  map (fun k : nat => a + Z.of_nat k) (seq 0 (Z.to_nat (b - a))).

(** [x % y] on integers; Python's remainder has the sign of the divisor,
    as [Z.modulo] has. *)
Definition mod_ (x y : Z) : result Z :=
  if (y =? 0)%Z then Raise ZeroDivisionError else Ok (x mod y).

(** [x / y] on integers: true division, here an exact fraction. *)
Definition truediv (x y : Z) : result Q :=
  if (y =? 0)%Z then Raise ZeroDivisionError
  else Ok (Qmake (Z.sgn y * x) (Z.to_pos (Z.abs y))).

(** [s.split(sep)] for a one-character separator: never an empty list. *)
Fixpoint split (sep : ascii) (s : string) : list string :=
  match s with
  | EmptyString => [EmptyString]
  | String c s' =>
      if Ascii.eqb c sep then EmptyString :: split sep s'
      else match split sep s' with
           | [] => [String c EmptyString]
           | t :: ts => String c t :: ts
           end
  end.

(** [s.split(sep)[0]] *)
Definition first_token (sep : ascii) (s : string) : string :=
  match split sep s with
  | [] => EmptyString
  | t :: _ => t
  end.

Definition is_space (c : ascii) : bool :=
  let n := nat_of_ascii c in
  ((9 <=? n)%nat && (n <=? 13)%nat) || ((28 <=? n)%nat && (n <=? 32)%nat).

Definition is_digit (c : ascii) : bool :=
  let n := nat_of_ascii c in (48 <=? n)%nat && (n <=? 57)%nat.

Definition digit_value (c : ascii) : Z := Z.of_nat (nat_of_ascii c) - 48.

Fixpoint lstrip (l : list ascii) : list ascii :=
  match l with
  | c :: l' => if is_space c then lstrip l' else l
  | [] => []
  end.

Definition strip (l : list ascii) : list ascii :=
  rev (lstrip (rev (lstrip l))).

(** Decimal digits, most significant first, onto an accumulator. *)
Fixpoint digits (acc : Z) (l : list ascii) : option Z :=
  match l with
  | [] => Some acc
  | c :: l' => if is_digit c then digits (10 * acc + digit_value c) l' else None
  end.

Definition unsigned (l : list ascii) : result Z :=
  match l with
  | [] => Raise ValueError
  | _ => match digits 0 l with
         | Some n => Ok n
         | None => Raise ValueError
         end
  end.

(** [int(s)] for a string of ASCII characters: surrounding white space,
    an optional sign, then one or more decimal digits.  (The digit
    separator of Python literals is an underscore and cannot occur in a
    token cut at underscores.) *)
Definition int (s : string) : result Z :=
  match strip (list_ascii_of_string s) with
  | "+"%char :: l => unsigned l
  | "-"%char :: l => let* n := unsigned l in Ok (- n)
  | l => unsigned l
  end.

(** [str(n)] for an integer. *)
Definition str (n : Z) : string := pretty n.

(** Truthiness of a configuration value that is a string or [None]. *)
Definition truthy (o : option string) : bool :=
  match o with
  | Some (String _ _) => true
  | _ => false
  end.

(** [os.path.join(a, b)] on POSIX: an absolute [b] discards [a]. *)
Definition starts_with_slash (s : string) : bool :=
  match s with
  | String "/"%char _ => true
  | _ => false
  end.

Fixpoint ends_with_slash (s : string) : bool :=
  match s with
  | EmptyString => false
  | String c EmptyString => Ascii.eqb c "/"%char
  | String _ s' => ends_with_slash s'
  end.

Definition path_join (a b : string) : string :=
  if starts_with_slash b then b
  else match a with
       | EmptyString => b
       | _ => if ends_with_slash a then a ++ b else a ++ "/" ++ b
       end.

End Py.

(** ** Tensors of scores and the three torch reductions of [eval] *)

(** [output.data]: a tensor of shape (rows, ncols), one row of class
    scores per example.  Scores are compared only; they are integers here
    (a total order without NaN).  Entry j of a row is [nth j row 0]. *)
Record scores : Type := { ncols : nat; rows : list (list Z) }.

Module Torch.

Definition entry (row : list Z) (j : nat) : Z := nth j row 0.

(** The first maximal entry among [best :: cands], scanning left to right:
    a later column wins only when strictly greater. *)
Fixpoint argmax_from (row : list Z) (best : nat) (cands : list nat) : nat :=
  match cands with
  | [] => best
  | j :: cs =>
      if (entry row best <? entry row j)%Z then argmax_from row j cs
      else argmax_from row best cs
  end.

(** [torch.max(t, dim=1)[1]]: per row, the index of the first maximal
    value; a reduction over a dimension of size 0 raises. *)
Definition max_dim1 (t : scores) : result (list nat) :=
  match seq 0 (ncols t) with
  | [] => Raise MaxEmptyDim
  | c :: cs => Ok (map (fun row => argmax_from row c cs) (rows t))
  end.

(** The indices of the [k] largest entries among [cands], largest first:
    selection of the first maximum, [k] times.  torch leaves the order
    among equal scores open; equal scores are taken left to right here, as
    [torch.max] takes them. *)
Fixpoint select (row : list Z) (k : nat) (cands : list nat) : list nat :=
  match k with
  | O => []
  | S k' =>
      match cands with
      | [] => []
      | c :: cs =>
          let b := argmax_from row c cs in
          b :: select row k' (remove Nat.eq_dec b cands)
      end
  end.

(** [torch.topk(t, k, dim=1)[1]]: raises when [k] exceeds the size of the
    dimension, whatever the number of rows. *)
Definition topk_dim1 (t : scores) (k : nat) : result (list (list nat)) :=
  if (ncols t <? k)%nat then Raise TopkOutOfRange
  else Ok (map (fun row => select row k (seq 0 (ncols t))) (rows t)).

Definition same_class (label : Z) (j : nat) : bool := (label =? Z.of_nat j)%Z.

(** [torch.sum(torch.eq(labels.squeeze(), top_1))]: [squeeze] turns a
    single label into a scalar, which broadcasts over every row; a single
    row broadcasts over every label; other sizes must agree. *)
Fixpoint count_true (l : list bool) : Z :=
  match l with
  | [] => 0
  | b :: l' => (if b then 1 else 0) + count_true l'
  end.

Definition sum_eq (labels : list Z) (top_1 : list nat) : result Z :=
  if (length labels =? length top_1)%nat then
    Ok (count_true (zip_with same_class labels top_1))
  else match labels, top_1 with
       | [label], _ => Ok (count_true (map (same_class label) top_1))
       | _, [j] => Ok (count_true (map (fun label => same_class label j) labels))
       | _, _ => Raise BroadcastError
       end.

(** [label in top_5_output[i]] *)
Definition contains (row : list nat) (label : Z) : bool :=
  existsb (same_class label) row.

End Torch.

(** [for i, label in enumerate(labels): if label in top_5_output[i]:
    top_5_correct += 1], from index [i] on. *)
Fixpoint top_5_loop (top_5 : list (list nat)) (i : nat) (labels : list Z)
    (top_5_correct : Z) : result Z :=
  match labels with
  | [] => Ok top_5_correct
  | label :: ls =>
      match top_5 !! i with
      | None => Raise IndexError
      | Some row =>
          top_5_loop top_5 (S i) ls
            (if Torch.contains row label then top_5_correct + 1 else top_5_correct)
      end
  end.

(** [top_1_correct] starts as the Python integer 0 and becomes a tensor at
    the first [+=]; only a tensor has [.item()]. *)
Inductive counter : Type :=
| PyInt (n : Z)
| Tensor0 (n : Z).

Definition counter_add (c : counter) (n : Z) : counter :=
  match c with
  | PyInt m => Tensor0 (m + n)
  | Tensor0 m => Tensor0 (m + n)
  end.

Definition item (c : counter) : result Z :=
  match c with
  | PyInt _ => Raise AttributeError
  | Tensor0 n => Ok n
  end.

(** The three locals of [eval]. *)
Record tally : Type := {
  top_1_correct : counter;
  top_5_correct : Z;
  total : Z
}.

(** The body of the loop of [eval] once the batch went through the model:
    [out] is [output.data] and [labels] the class ids of the label
    tensor. *)
Definition eval_batch (t : tally) (out : scores) (labels : list Z)
  : result tally :=
  let total' := total t + Z.of_nat (length labels) in
  let* top_1 := Torch.max_dim1 out in
  let* hits := Torch.sum_eq labels top_1 in
  let top_1' := counter_add (top_1_correct t) hits in
  let* top_5 := Torch.topk_dim1 out 5 in
  let* top_5' := top_5_loop top_5 0 labels (top_5_correct t) in
  Ok {| top_1_correct := top_1'; top_5_correct := top_5'; total := total' |}.

Definition eval_loop (t : tally) (batches : list (scores * list Z))
  : result tally :=
  for_each (fun t b => eval_batch t (fst b) (snd b)) t batches.

(** [eval] on the outputs of the model: the loop, then the return. *)
Definition eval_outputs (batches : list (scores * list Z)) : result (Z * Z * Z) :=
  let* t := eval_loop {| top_1_correct := PyInt 0; top_5_correct := 0; total := 0 |}
                      batches in
  let* n := item (top_1_correct t) in
  Ok (n, top_5_correct t, total t).

(** ** The framework

    What lies outside the repository: torch and the network of model.py
    ([forward]), [to_var] of utils.py, the clock, and the rendering of
    floating-point numbers.  The operations of an optimization step are
    functions: a run in which the network, the loss or the optimizer
    itself raises is not described.  The three reductions of [eval] are
    the ones of [Torch] above, with their exceptions. *)
Class Framework : Type := {
  tensor : Type;                 (* what the data loader hands out *)
  params : Type;                 (* [model.state_dict()] *)
  grads : Type;                  (* the [.grad] buffers of the parameters *)
  optim : Type;                  (* the momentum buffers of SGD *)
  output : Type;                 (* a model output, with its autograd graph *)
  loss : Type;                   (* a loss, with its autograd graph *)
  to_var : tensor -> bool -> tensor;
  forward : bool -> params -> tensor -> output;  (* the flag: training mode *)
  data : output -> scores;                       (* [output.data] *)
  class_ids : tensor -> list Z;  (* the entries of a label tensor (n) or (n, 1) *)
  squeeze : tensor -> tensor;
  criterion : output -> tensor -> loss;
  zero_grad : grads -> grads;
  backward : loss -> grads -> grads;
  sgd_step : grads -> params * optim -> params * optim;
  clock : nat -> Q;              (* the successive readings of [time.time()] *)
  str_timedelta : Q -> string;
  str_float : Q -> string;
  fixed4 : Q -> string;          (* [{:.4f}] on a float *)
  str_loss : loss -> string;
  fixed4_loss : loss -> string   (* [{:.4f}] on a loss *)
}.

Section Solver.

Context `{F : Framework}.

(** ** [str.format] for the templates of the solver *)

Inductive value : Type :=
| VStr (s : string)
| VInt (n : Z)
| VFloat (q : Q)
| VLoss (l : loss).

(** A template is literal characters and replacement fields; the solver
    uses the fields [{}] and [{:.4f}]. *)
Inductive piece : Type :=
| Lit (c : ascii)
| Field (spec : string).

(** [cur] is the text of the field being read, if any. *)
Fixpoint pieces (cur : option string) (template : string) : list piece :=
  match template with
  | EmptyString => []
  | String c t =>
      match cur with
      | None =>
          if Ascii.eqb c "{"%char then pieces (Some EmptyString) t
          else Lit c :: pieces None t
      | Some spec =>
          if Ascii.eqb c "}"%char then Field spec :: pieces None t
          else pieces (Some (spec ++ String c EmptyString)) t
      end
  end.

Definition render (spec : string) (v : value) : result string :=
  if String.eqb spec "" then
    Ok match v with
       | VStr s => s
       | VInt n => Py.str n
       | VFloat q => str_float q
       | VLoss l => str_loss l
       end
  else if String.eqb spec ":.4f" then
    match v with
    | VStr _ => Raise ValueError
    | VInt n => Ok (fixed4 (inject_Z n))
    | VFloat q => Ok (fixed4 q)
    | VLoss l => Ok (fixed4_loss l)
    end
  else Raise ValueError.

Fixpoint fill (ps : list piece) (args : list value) : result string :=
  match ps with
  | [] => Ok EmptyString
  | Lit c :: ps' => let* rest := fill ps' args in Ok (String c rest)
  | Field spec :: ps' =>
      match args with
      | [] => Raise IndexError
      | v :: args' =>
          let* here := render spec v in
          let* rest := fill ps' args' in
          Ok (here ++ rest)
      end
  end.

Definition format (template : string) (args : list value) : result string :=
  fill (pieces None template) args.

(** ** The solver: attributes and state *)

(** The attributes that stay fixed after [__init__]. *)
Record config : Type := {
  version : string;
  data_loader : list (tensor * tensor);   (* (images, labels), batch by batch *)
  num_epochs : Z;
  use_gpu : bool;
  pretrained_model : option string;
  model_save_path : string;
  loss_log_step : Z;
  model_save_step : Z;
  train_eval_step : Z
}.

(** The calls made by a run of [train], in order. *)
Inductive call : Type :=
| ModelStep (e i : Z) (l : loss)        (* returned [l] on batch [i] of epoch [e] *)
| PrintLossLog (e i : Z) (l : loss)
| SaveModel (e i : Z)
| TrainEvaluate (e : Z).

(** What the solver changes: the model and the optimizer, its three
    metric lists, the checkpoint files and the console; [calls] is the
    record of what [train] did. *)
Record solver : Type := {
  weights : params;
  gradients : grads;
  momentum : optim;
  training : bool;
  losses : list (Z * loss);
  top_1_acc : list (Z * Q);
  top_5_acc : list (Z * Q);
  files : gmap string params;
  stdout : list string;
  clock_reads : nat;
  calls : list call
}.

Definition print (line : string) (s : solver) : solver :=
  {| weights := weights s; gradients := gradients s; momentum := momentum s;
     training := training s; losses := losses s; top_1_acc := top_1_acc s;
     top_5_acc := top_5_acc s; files := files s;
     stdout := (stdout s ++ [line])%list;
     clock_reads := clock_reads s; calls := calls s |}.

Definition record (c : call) (s : solver) : solver :=
  {| weights := weights s; gradients := gradients s; momentum := momentum s;
     training := training s; losses := losses s; top_1_acc := top_1_acc s;
     top_5_acc := top_5_acc s; files := files s; stdout := stdout s;
     clock_reads := clock_reads s; calls := (calls s ++ [c])%list |}.

Definition set_mode (b : bool) (s : solver) : solver :=
  {| weights := weights s; gradients := gradients s; momentum := momentum s;
     training := b; losses := losses s; top_1_acc := top_1_acc s;
     top_5_acc := top_5_acc s; files := files s; stdout := stdout s;
     clock_reads := clock_reads s; calls := calls s |}.

Definition set_model (w : params) (g : grads) (m : optim) (s : solver) : solver :=
  {| weights := w; gradients := g; momentum := m;
     training := training s; losses := losses s; top_1_acc := top_1_acc s;
     top_5_acc := top_5_acc s; files := files s; stdout := stdout s;
     clock_reads := clock_reads s; calls := calls s |}.

Definition set_files (fs : gmap string params) (s : solver) : solver :=
  {| weights := weights s; gradients := gradients s; momentum := momentum s;
     training := training s; losses := losses s; top_1_acc := top_1_acc s;
     top_5_acc := top_5_acc s; files := fs; stdout := stdout s;
     clock_reads := clock_reads s; calls := calls s |}.

Definition no_calls (s : solver) : solver :=
  {| weights := weights s; gradients := gradients s; momentum := momentum s;
     training := training s; losses := losses s; top_1_acc := top_1_acc s;
     top_5_acc := top_5_acc s; files := files s; stdout := stdout s;
     clock_reads := clock_reads s; calls := [] |}.

Definition set_metrics (ls : list (Z * loss)) (a1 a5 : list (Z * Q)) (s : solver)
  : solver :=
  {| weights := weights s; gradients := gradients s; momentum := momentum s;
     training := training s; losses := ls; top_1_acc := a1;
     top_5_acc := a5; files := files s; stdout := stdout s;
     clock_reads := clock_reads s; calls := calls s |}.

(** [time.time()] *)
Definition time (s : solver) : Q * solver :=
  (clock (clock_reads s),
   {| weights := weights s; gradients := gradients s; momentum := momentum s;
      training := training s; losses := losses s; top_1_acc := top_1_acc s;
      top_5_acc := top_5_acc s; files := files s; stdout := stdout s;
      clock_reads := S (clock_reads s); calls := calls s |}).

(** ** Checkpoint store *)

(** The path written by [save_model(e, i)]. *)
Definition checkpoint_name (c : config) (e i : Z) : string :=
  match format "{}_{}_{}.pth" [VStr (version c); VInt (e + 1); VInt (i + 1)] with
  | Ok name => name
  | Raise _ => EmptyString
  end.

Definition save_path (c : config) (e i : Z) : string :=
  Py.path_join (model_save_path c) (checkpoint_name c e i).

(** [torch.save(self.model.state_dict(), path)] *)
Definition save_model (c : config) (e i : Z) (s : solver) : solver :=
  set_files (<[save_path c e i := weights s]> (files s)) s.

(** The path read for the identifier [name]. *)
Definition load_path (c : config) (name : string) : string :=
  Py.path_join (model_save_path c)
    match format "{}.pth" [VStr name] with
    | Ok file => file
    | Raise _ => EmptyString
    end.

(** [self.model.load_state_dict(torch.load(path))], then the message. *)
Definition load_pretrained_model (c : config) (name : string) (s : solver)
  : result solver :=
  match files s !! load_path c name with
  | None => Raise FileNotFoundError
  | Some w =>
      let s' := set_model w (gradients s) (momentum s) s in
      let* line := format "loaded trained model ver {}" [VStr name] in
      Ok (print line s')
  end.

(** The end of [__init__]: start from a pre-trained model when one is
    named. *)
Definition init (c : config) (s : solver) : result solver :=
  match pretrained_model c with
  | Some name => if Py.truthy (Some name) then load_pretrained_model c name s
                 else Ok s
  | None => Ok s
  end.

(** ** Console lines *)

Definition loss_log_template : string :=
  "Elapsed {}/{} -- {}, Epoch [{}/{}] Iter [{}/{}]," ++ "loss: {:.4f}".

(** [print_loss_log] up to its [print]: [now] is its reading of the
    clock.  The two estimates divide a float by [cur_iter + 1]. *)
Definition loss_log_line (c : config) (now start_time : Q)
    (iters_per_epoch e i : Z) (l : loss) : result string :=
  let total_iter := num_epochs c * iters_per_epoch in
  let cur_iter := e * iters_per_epoch + i in
  let elapsed := Qminus now start_time in
  if (cur_iter + 1 =? 0)%Z then Raise ZeroDivisionError
  else
    let total_time :=
      Qdiv (Qmult (inject_Z (total_iter - cur_iter)) elapsed) (inject_Z (cur_iter + 1)) in
    let epoch_time :=
      Qdiv (Qmult (inject_Z (iters_per_epoch - i)) elapsed) (inject_Z (cur_iter + 1)) in
    format loss_log_template
      [VStr (str_timedelta elapsed); VStr (str_timedelta epoch_time);
       VStr (str_timedelta total_time);
       VInt (e + 1); VInt (num_epochs c); VInt (i + 1); VInt iters_per_epoch;
       VLoss l].

Definition print_loss_log (c : config) (start_time : Q)
    (iters_per_epoch e i : Z) (l : loss) (s : solver) : result solver :=
  let '(now, s) := time s in
  let* line := loss_log_line c now start_time iters_per_epoch e i l in
  Ok (print line s).

Definition train_evaluate_template : string :=
  "Epoch [{}/{}]--top_1_acc: {:.4f}--top_5_acc: {:.4f}".

Definition test_template : string := "top_1_acc: {:.4f}--top_5_acc: {:.4f}".

(** ** The optimization step *)

Definition model_step (images labels : tensor) (s : solver) : loss * solver :=
  let s := set_mode true s in
  let s := set_model (weights s) (zero_grad (gradients s)) (momentum s) s in
  let out := forward (training s) (weights s) images in
  let l := criterion out (squeeze labels) in
  let s := set_model (weights s) (backward l (gradients s)) (momentum s) s in
  let '(w, m) := sgd_step (gradients s) (weights s, momentum s) in
  (l, set_model w (gradients s) m s).

(** ** The evaluator and its callers *)

(** What the loop of [eval] sees of a batch: the output of the model in
    inference mode and the class ids of the labels. *)
Definition seen (c : config) (w : params) (b : tensor * tensor) : scores * list Z :=
  let images := to_var (fst b) (use_gpu c) in
  let labels := to_var (snd b) (use_gpu c) in
  (data (forward false w images), class_ids labels).

Definition eval (c : config) (loader : list (tensor * tensor)) (s : solver)
  : result (Z * Z * Z * solver) :=
  let s := set_mode false s in
  let* r := eval_outputs (map (seen c (weights s)) loader) in
  Ok (r, s).

Definition train_evaluate (c : config) (e : Z) (s : solver)
  : result (Q * Q * solver) :=
  let* (top_1, top_5, n, s) := eval c (data_loader c) s in
  let* acc_1 := Py.truediv top_1 n in
  let* acc_5 := Py.truediv top_5 n in
  let* line := format train_evaluate_template
                 [VInt (e + 1); VInt (num_epochs c); VFloat acc_1; VFloat acc_5] in
  let s := print line s in
  Ok (acc_1, acc_5, s).

Definition test (c : config) (s : solver) : result solver :=
  let* (top_1, top_5, n, s) := eval c (data_loader c) s in
  let* acc_1 := Py.truediv top_1 n in
  let* acc_5 := Py.truediv top_5 n in
  let* line := format test_template [VFloat acc_1; VFloat acc_5] in
  Ok (print line s).

(** ** The training loop *)

(** The locals [i] and [loss] of [train]: unbound until the first batch. *)
Definition locals : Type := option (Z * loss).

Definition bound (v : locals) : result (Z * loss) :=
  match v with
  | Some il => Ok il
  | None => Raise UnboundLocalError
  end.

(** One pass of the inner loop: the labels handed to [model_step] are
    [to_var(images, ...)], the batch's own labels are not read. *)
Definition train_batch (c : config) (e : Z) (st : solver * locals)
    (ib : nat * (tensor * tensor)) : solver * locals :=
  let '(i, (images, _)) := ib in
  let images := to_var images (use_gpu c) in
  let labels := to_var images (use_gpu c) in
  let '(l, s) := model_step images labels (fst st) in
  (record (ModelStep e (Z.of_nat i) l) s, Some (Z.of_nat i, l)).

Definition enumerate {A : Type} (l : list A) : list (nat * A) :=
  combine (seq 0 (length l)) l.

Definition train_batches (c : config) (e : Z) (st : solver * locals)
  : solver * locals :=
  fold_left (train_batch c e) (enumerate (data_loader c)) st.

(** The three periodic blocks that end an epoch. *)

(** [# print out loss log] *)
Definition log_loss (c : config) (start_time : Q) (iters_per_epoch e : Z)
    (v : locals) (s : solver) : result solver :=
  let* r := Py.mod_ (e + 1) (loss_log_step c) in
  if (r =? 0)%Z then
    let* (i, l) := bound v in
    let* s := print_loss_log c start_time iters_per_epoch e i l s in
    let s := record (PrintLossLog e i l) s in
    Ok (set_metrics (losses s ++ [(e, l)])%list (top_1_acc s) (top_5_acc s) s)
  else Ok s.

(** [# save model] *)
Definition checkpoint (c : config) (e : Z) (v : locals) (s : solver)
  : result solver :=
  let* r := Py.mod_ (e + 1) (model_save_step c) in
  if (r =? 0)%Z then
    let* (i, _) := bound v in
    Ok (record (SaveModel e i) (save_model c e i s))
  else Ok s.

(** [# evaluate on train dataset] *)
Definition evaluate_on_train (c : config) (e : Z) (s : solver) : result solver :=
  let* r := Py.mod_ (e + 1) (train_eval_step c) in
  if (r =? 0)%Z then
    let* (acc_1, acc_5, s) := train_evaluate c e s in
    let s := record (TrainEvaluate e) s in
    Ok (set_metrics (losses s) (top_1_acc s ++ [(e, acc_1)])%list
                    (top_5_acc s ++ [(e, acc_5)])%list s)
  else Ok s.

(** The body of the loop over epochs. *)
Definition train_epoch (c : config) (start_time : Q) (iters_per_epoch : Z)
    (st : solver * locals) (e : Z) : result (solver * locals) :=
  let '(s, v) := train_batches c e st in
  let* s := log_loss c start_time iters_per_epoch e v s in
  let* s := checkpoint c e v s in
  let* s := evaluate_on_train c e s in
  Ok (s, v).

(** [int(self.pretrained_model.split('_')[0])], or 0. *)
Definition start_epoch (c : config) : result Z :=
  match pretrained_model c with
  | Some name =>
      if Py.truthy (Some name) then Py.int (Py.first_token "_" name) else Ok 0
  | None => Ok 0
  end.

Definition train (c : config) (s : solver) : result solver :=
  let s := no_calls (set_metrics [] [] [] s) in
  let iters_per_epoch := Z.of_nat (length (data_loader c)) in
  let* start := start_epoch c in
  let '(start_time, s) := time s in
  let* (s, _) :=
    for_each (train_epoch c start_time iters_per_epoch) (s, None)
             (Py.range start (num_epochs c)) in
  Ok s.

End Solver.

(** ** A small framework to run the solver on *)

Module Toy.

Definition sum (l : list Z) : Z := fold_right Z.add 0 l.

Definition show (q : Q) : string :=
  Py.str (Qnum q) ++ ":" ++ Py.str (Z.pos (Qden q)).

(** Tensors are lists of rows; the network has [k] classes and adds its
    one weight to every entry of a batch; the loss is the distance between
    the sum of the output and the sum of the target. *)
Definition framework_of (k : nat) : Framework := {|
  tensor := list (list Z);
  params := Z;
  grads := Z;
  optim := Z;
  output := scores;
  loss := Z;
  to_var t _ := t;
  forward _ w images := {| ncols := k; rows := map (map (Z.add w)) images |};
  data out := out;
  class_ids t := map (hd 0) t;
  squeeze t := t;
  criterion out target := Z.abs (sum (concat (rows out)) - sum (concat target));
  zero_grad _ := 0;
  backward l g := g + l;
  sgd_step g wm := (fst wm - g, g);
  clock k := inject_Z (Z.of_nat k);
  str_timedelta := show;
  str_float := show;
  fixed4 := show;
  str_loss := Py.str;
  fixed4_loss := Py.str
|}.

(** Six classes, unless said otherwise. *)
#[export] Instance framework : Framework := framework_of 6.

Definition fresh (w : Z) : solver :=
  {| weights := w; gradients := 0; momentum := 0; training := false;
     losses := []; top_1_acc := []; top_5_acc := []; files := ∅;
     stdout := []; clock_reads := 0; calls := [] |}.

(** Two batches of two examples over six classes. *)
Definition loader : list (tensor * tensor) :=
  [ ([[1; 9; 3; 4; 5; 6]; [7; 7; 1; 1; 1; 1]], [[1]; [0]]);
    ([[0; 1; 2; 3; 4; 5]; [5; 4; 3; 2; 1; 0]], [[5]; [3]]) ].

Definition setup (epochs log save ev : Z) (pre : option string) : config :=
  {| version := "vgg"; data_loader := loader; num_epochs := epochs;
     use_gpu := false; pretrained_model := pre; model_save_path := "models";
     loss_log_step := log; model_save_step := save; train_eval_step := ev |}.

(** The same over a network of three classes. *)
Definition small_fresh : @solver (framework_of 3) :=
  Build_solver (F := framework_of 3) 0 0 0 false [] [] [] ∅ [] 0%nat [].

Definition small_batch : list (list Z) * list (list Z) :=
  ([[1; 9; 3]; [7; 7; 1]], [[1]; [0]]).

Definition small_setup : @config (framework_of 3) :=
  Build_config (F := framework_of 3) "vgg" [small_batch] 1 false None "models" 1 1 1.

(** The same attributes over a loader that yields nothing. *)
Definition unloaded (epochs log save ev : Z) : config :=
  {| version := "vgg"; data_loader := []; num_epochs := epochs;
     use_gpu := false; pretrained_model := None; model_save_path := "models";
     loss_log_step := log; model_save_step := save; train_eval_step := ev |}.

(** One batch of one example, labelled with class 1. *)
Definition one_batch : list (list Z) * list (list Z) :=
  ([[1; 9; 3; 4; 5; 6]], [[1]]).

(** A run named [v] that saves under [dir]. *)
Definition named (v dir : string) : config :=
  {| version := v; data_loader := loader; num_epochs := 1;
     use_gpu := false; pretrained_model := None; model_save_path := dir;
     loss_log_step := 1; model_save_step := 1; train_eval_step := 1 |}.

End Toy.

(** ** What the evaluator is meant to count *)

(** The best class of a row and its five best classes. *)
Definition top_1_index (out : scores) (row : list Z) : nat :=
  Torch.argmax_from row 0%nat (seq 1 (ncols out - 1)).

Definition top_5_indices (out : scores) (row : list Z) : list nat :=
  Torch.select row 5 (seq 0 (ncols out)).

(** Examples of a batch whose label is the best class, and those whose
    label is among the five best. *)
Definition hits_1 (out : scores) (labels : list Z) : Z :=
  Torch.count_true
    (zip_with (fun label row => Torch.same_class label (top_1_index out row))
       labels (rows out)).

Definition hits_5 (out : scores) (labels : list Z) : Z :=
  Torch.count_true
    (zip_with (fun label row => Torch.contains (top_5_indices out row) label)
       labels (rows out)).

Definition sum_over {A : Type} (f : A -> Z) (l : list A) : Z :=
  fold_right (fun a acc => f a + acc) 0 l.

Definition counter_value (c : counter) : Z :=
  match c with
  | PyInt n => n
  | Tensor0 n => n
  end.

(** [top_1_correct] after the batches, one [+=] each. *)
Definition add_all (c : counter) (batches : list (scores * list Z)) : counter :=
  fold_left (fun c b => counter_add c (hits_1 (fst b) (snd b))) batches c.


(** A batch as a data source yields it: one label per output row. *)
Definition paired (b : scores * list Z) : Prop :=
  length (snd b) = length (rows (fst b)).

(** A batch that [eval] can go through: at least five classes, too. *)
Definition good (b : scores * list Z) : Prop :=
  (5 <= ncols (fst b))%nat /\ paired b.

(** ** The documented forms the code is compared with *)

Section Documented.

Context `{F : Framework}.


(** The checkpoint name as documented: version, epoch and iteration
    counted from 1, separated by underscores. *)
Definition documented_name (c : config) (e i : Z) : string :=
  version c ++ "_" ++ Py.str (e + 1) ++ "_" ++ Py.str (i + 1) ++ ".pth".

(** The identifier under which [load_pretrained_model] finds the file
    written by [save_model(e, i)]: its name without the extension. *)
Definition checkpoint_id (c : config) (e i : Z) : string :=
  version c ++ "_" ++ Py.str (e + 1) ++ "_" ++ Py.str (i + 1).

(** The loss line as documented, with a space after the last comma. *)
Definition documented_loss_line (elapsed epoch_time total_time : string)
    (e num_epochs i iters_per_epoch : Z) (l : loss) : string :=
  "Elapsed " ++ elapsed ++ "/" ++ epoch_time ++ " -- " ++ total_time
  ++ ", Epoch [" ++ Py.str e ++ "/" ++ Py.str num_epochs
  ++ "] Iter [" ++ Py.str i ++ "/" ++ Py.str iters_per_epoch
  ++ "], loss: " ++ fixed4_loss l.

(** The loss line as the source's literal has it. *)
Definition printed_loss_line (elapsed epoch_time total_time : string)
    (e num_epochs i iters_per_epoch : Z) (l : loss) : string :=
  "Elapsed " ++ elapsed ++ "/" ++ epoch_time ++ " -- " ++ total_time
  ++ ", Epoch [" ++ Py.str e ++ "/" ++ Py.str num_epochs
  ++ "] Iter [" ++ Py.str i ++ "/" ++ Py.str iters_per_epoch
  ++ "],loss: " ++ fixed4_loss l.

(** The evaluation line as documented. *)
Definition documented_eval_line (acc_1 acc_5 : Q) : string :=
  "top_1_acc: " ++ fixed4 acc_1 ++ "--top_5_acc: " ++ fixed4 acc_5.

(** The optimization step on a batch as documented: the loss is taken
    against the label batch. *)
Definition documented_train_batch (c : config) (e : Z) (st : solver * locals)
    (ib : nat * (tensor * tensor)) : solver * locals :=
  let '(i, (images, labels)) := ib in
  let images := to_var images (use_gpu c) in
  let labels := to_var labels (use_gpu c) in
  let '(l, s) := model_step images labels (fst st) in
  (record (ModelStep e (Z.of_nat i) l) s, Some (Z.of_nat i, l)).

(** What a method leaves alone: the metric lists, the files and the
    record of calls. *)
Definition same_books (s s' : solver) : Prop :=
  calls s' = calls s /\ losses s' = losses s /\ files s' = files s.

(** A logged entry (e, i, l) carries the loss of the final batch of its
    epoch: [i] is the last batch index and [model_step] returned [l] there. *)
Definition final_batch_loss (c : config) (cs : list call) (x : Z * Z * loss) : Prop :=
  data_loader c <> []
  /\ snd (fst x) = Z.of_nat (length (data_loader c) - 1)
  /\ In (ModelStep (fst (fst x)) (snd (fst x)) (snd x)) cs.

(** The steps of a run over the epochs [es]: every batch of every epoch,
    in order. *)
Definition all_steps (c : config) (es : list Z) : list (Z * Z) :=
  flat_map (fun e => map (fun i => (e, Z.of_nat i)) (seq 0 (length (data_loader c)))) es.

(** The epochs of [es] at which the loss block runs. *)
Definition log_epochs (c : config) (es : list Z) : list Z :=
  List.filter (fun e => ((e + 1) mod loss_log_step c =? 0)%Z) es.

(** Every batch of the loader can be evaluated, whatever the parameters,
    and some batch has a label. *)
Definition evaluable (c : config) : Prop :=
  (forall w, Forall good (map (seen c w) (data_loader c)))
  /\ Exists (fun b => class_ids (to_var (snd b) (use_gpu c)) <> []) (data_loader c).

(** Nothing stops a run early. *)
Definition runs_clean (c : config) : Prop :=
  loss_log_step c <> 0 /\ model_save_step c <> 0 /\ train_eval_step c <> 0
  /\ evaluable c.

(** Projections of the record of calls. *)
Definition steps_of (cs : list call) : list (Z * Z) :=
  flat_map (fun c => match c with ModelStep e i _ => [(e, i)] | _ => [] end) cs.

Definition logged (cs : list call) : list (Z * Z * loss) :=
  flat_map (fun c => match c with PrintLossLog e i l => [(e, i, l)] | _ => [] end) cs.

End Documented.

(** The characters of a numeral: digits, and a sign in front. *)
Definition numeric (ch : ascii) : Prop := Py.is_digit ch = true \/ ch = "-"%char.

Fixpoint all_chars (P : ascii -> Prop) (s : string) : Prop :=
  match s with
  | EmptyString => True
  | String ch s' => P ch /\ all_chars P s'
  end.

(** ** The rest of the solver *)

Section Rest.

Context `{F : Framework}.

(** One pass of the loop of [print_network] over a parameter tensor of
    [numel] entries: the three prints are inside the loop. *)
Definition print_parameter (model_repr name : string) (st : Z * solver) (numel : Z)
  : result (Z * solver) :=
  let num_params := fst st + numel in
  let s := print name (snd st) in
  let s := print model_repr s in
  let* line := format "The number of parameters: {}" [VInt num_params] in
  Ok (num_params, print line s).

(** [print_network(model, name)]: [numels] are the sizes of
    [model.parameters()], in order, and [model_repr] is [str(model)]. *)
Definition print_network (numels : list Z) (model_repr name : string) (s : solver)
  : result solver :=
  let* r := for_each (print_parameter model_repr name) (0, s) numels in
  Ok (snd r).

(** The counts that [print_network] shows: the sizes added up so far. *)
Fixpoint running (total : Z) (numels : list Z) : list Z :=
  match numels with
  | [] => []
  | p :: rest => (total + p) :: running (total + p) rest
  end.

(** The attributes of a later solver that names the checkpoint written by
    [save_model(e, i)] as its pre-trained model. *)
Definition resuming (c : config) (e i : Z) : config :=
  {| version := version c; data_loader := data_loader c;
     num_epochs := num_epochs c; use_gpu := use_gpu c;
     pretrained_model := Some (checkpoint_id c e i);
     model_save_path := model_save_path c;
     loss_log_step := loss_log_step c; model_save_step := model_save_step c;
     train_eval_step := train_eval_step c |}.

(** The epochs of [es] at which a checkpoint is written, and those at
    which the training set is evaluated. *)
Definition save_epochs (c : config) (es : list Z) : list Z :=
  List.filter (fun e => ((e + 1) mod model_save_step c =? 0)%Z) es.

Definition eval_epochs (c : config) (es : list Z) : list Z :=
  List.filter (fun e => ((e + 1) mod train_eval_step c =? 0)%Z) es.

(** The model and its optimizer, as an optimization step sees them. *)
Definition model_of (s : solver) : params * grads * optim :=
  (weights s, gradients s, momentum s).

(** The step of [model_step] on the model alone. *)
Definition step_model (images labels : tensor) (m : params * grads * optim)
  : params * grads * optim :=
  let '(w, g, o) := m in
  let l := criterion (forward true w images) (squeeze labels) in
  let g' := backward l (zero_grad g) in
  let '(w', o') := sgd_step g' (w, o) in
  (w', g', o').

(** One pass over the loader, and nothing else: the steps of an epoch as
    [train] runs them. *)
Definition pure_epoch (c : config) (m : params * grads * optim)
  : params * grads * optim :=
  fold_left
    (fun m b =>
       let images := to_var (fst b) (use_gpu c) in
       step_model images (to_var images (use_gpu c)) m)
    (data_loader c) m.

(** More projections of the record of calls. *)
Definition saved (cs : list call) : list (Z * Z) :=
  flat_map (fun c => match c with SaveModel e i => [(e, i)] | _ => [] end) cs.

Definition evaluated (cs : list call) : list Z :=
  flat_map (fun c => match c with TrainEvaluate e => [e] | _ => [] end) cs.

End Rest.

(** ** The evaluator over any [torch.topk]

    torch documents [topk] as returning the [k] largest entries of each
    row with their indices; which of several equal scores it keeps, and in
    what order, is left open.  [Torch.topk_dim1] is one such function.  The
    definitions below are the loop of [eval] and its callers with that
    function as a parameter; at [Torch.topk_dim1] they are the definitions
    above. *)

Definition topk_function : Type := scores -> nat -> result (list (list nat)).

Definition eval_batch_with (topk : topk_function) (t : tally) (out : scores)
    (labels : list Z) : result tally :=
  let total' := total t + Z.of_nat (length labels) in
  let* top_1 := Torch.max_dim1 out in
  let* hits := Torch.sum_eq labels top_1 in
  let top_1' := counter_add (top_1_correct t) hits in
  let* top_5 := topk out 5%nat in
  let* top_5' := top_5_loop top_5 0 labels (top_5_correct t) in
  Ok {| top_1_correct := top_1'; top_5_correct := top_5'; total := total' |}.

Definition eval_loop_with (topk : topk_function) (t : tally)
    (batches : list (scores * list Z)) : result tally :=
  for_each (fun t b => eval_batch_with topk t (fst b) (snd b)) t batches.

Definition eval_outputs_with (topk : topk_function)
    (batches : list (scores * list Z)) : result (Z * Z * Z) :=
  let* t := eval_loop_with topk
              {| top_1_correct := PyInt 0; top_5_correct := 0; total := 0 |}
              batches in
  let* n := item (top_1_correct t) in
  Ok (n, top_5_correct t, total t).

(** What the documentation promises of the indices returned for one row:
    [k] distinct columns, none of which scores less than a column that was
    left out. *)
Definition is_topk (out : scores) (k : nat) (row : list Z) (idx : list nat) : Prop :=
  length idx = k
  /\ List.NoDup idx
  /\ (forall j, In j idx -> (j < ncols out)%nat)
  /\ (forall j j', In j idx -> (j' < ncols out)%nat -> ~ In j' idx ->
        Torch.entry row j' <= Torch.entry row j).

Definition topk_contract (topk : topk_function) : Prop :=
  forall out k idxs, topk out k = Ok idxs -> Forall2 (is_topk out k) (rows out) idxs.

(** Another function within the documentation: equal scores are taken
    right to left. *)
Definition topk_rightmost : topk_function :=
  fun t k =>
    if (ncols t <? k)%nat then Raise TopkOutOfRange
    else Ok (map (fun row => Torch.select row k (rev (seq 0 (ncols t)))) (rows t)).

(** The columns of a row that hold its maximum. *)
Definition maximal_columns (out : scores) (row : list Z) : list nat :=
  List.filter
    (fun j => (Torch.entry row j =? Torch.entry row (top_1_index out row))%Z)
    (seq 0 (ncols out)).

(** A batch in which no row has more than five scores equal to its
    maximum. *)
Definition few_ties (b : scores * list Z) : Prop :=
  Forall (fun row => (length (maximal_columns (fst b) row) <= 5)%nat) (rows (fst b)).

(** [line] starts with [p]. *)
Fixpoint starts_with (p line : string) : bool :=
  match p with
  | EmptyString => true
  | String a p' =>
      match line with
      | EmptyString => false
      | String b line' => Ascii.eqb a b && starts_with p' line'
      end
  end.

(** The lines of the console that are loss lines: those that start like
    the template of [print_loss_log]. *)
Definition is_loss_line (line : string) : bool := starts_with "Elapsed " line.

Definition loss_lines (out : list string) : list string :=
  List.filter is_loss_line out.

Section AnyTopk.

Context `{F : Framework}.

Definition eval_with (topk : topk_function) (c : config)
    (loader : list (tensor * tensor)) (s : solver) : result (Z * Z * Z * solver) :=
  let s := set_mode false s in
  let* r := eval_outputs_with topk (map (seen c (weights s)) loader) in
  Ok (r, s).

Definition train_evaluate_with (topk : topk_function) (c : config) (e : Z)
    (s : solver) : result (Q * Q * solver) :=
  let* (top_1, top_5, n, s) := eval_with topk c (data_loader c) s in
  let* acc_1 := Py.truediv top_1 n in
  let* acc_5 := Py.truediv top_5 n in
  let* line := format train_evaluate_template
                 [VInt (e + 1); VInt (num_epochs c); VFloat acc_1; VFloat acc_5] in
  let s := print line s in
  Ok (acc_1, acc_5, s).

(** [line] is the loss line of the logged entry (e, i, l), with some
    three durations: epoch and iteration are shown counted from 1. *)
Definition loss_line_of (c : config) (x : Z * Z * loss) (line : string) : Prop :=
  exists elapsed epoch_time total_time,
    line = printed_loss_line elapsed epoch_time total_time
             (fst (fst x) + 1) (num_epochs c) (snd (fst x) + 1)
             (Z.of_nat (length (data_loader c))) (snd x).

(** From [s] to [s'] the record of calls gained the logged [entries] and
    the console gained their loss lines, one for one and in order, and no
    other loss line. *)
Definition loss_log_grows (c : config) (s s' : solver) : Prop :=
  exists entries lines,
    logged (calls s') = (logged (calls s) ++ entries)%list
    /\ loss_lines (stdout s') = (loss_lines (stdout s) ++ lines)%list
    /\ Forall2 (loss_line_of c) entries lines.

End AnyTopk.

(** * Properties *)

Example range_3_6 : Py.range 3 6 = [3; 4; 5].
Proof. reflexivity. Qed.

Example int_first_token : Py.int (Py.first_token "_" "5_120_40.pth") = Ok 5.
Proof. reflexivity. Qed.

Example int_of_a_name : Py.int (Py.first_token "_" "vgg16_3_10") = Raise ValueError.
Proof. reflexivity. Qed.

Example join_absolute : Py.path_join "models" "/v_1_1.pth" = "/v_1_1.pth".
Proof. reflexivity. Qed.

Example eval_one_batch :
  eval_outputs
    [({| ncols := 6; rows := [[1;9;3;4;5;6]; [7;7;1;1;1;1]; [0;1;2;3;4;5]] |},
      [1; 0; 0])] = Ok (2, 2, 3).
Proof. reflexivity. Qed.

Section Checkpoints.

Context `{F : Framework}.

Lemma checkpoint_name_eq (c : config) (e i : Z) :
  checkpoint_name c e i = documented_name c e i.
Proof. reflexivity. Qed.

Lemma load_path_eq (c : config) (name : string) :
  load_path c name = Py.path_join (model_save_path c) (name ++ ".pth").
Proof. reflexivity. Qed.


End Checkpoints.

Section CheckpointStore.

Context `{F : Framework}.

Lemma append_assoc (a b c : string) : (a ++ b) ++ c = a ++ b ++ c.
Proof.
  induction a as [|ch a IH]; [reflexivity|].
  change (String ch ((a ++ b) ++ c) = String ch (a ++ b ++ c)).
  f_equal. exact IH.
Qed.


Lemma load_path_of_saved (c : config) (e i : Z) :
  load_path c (checkpoint_id c e i) = save_path c e i.
Proof.
  rewrite load_path_eq. unfold save_path. rewrite checkpoint_name_eq.
  unfold checkpoint_id, documented_name.
  now rewrite !append_assoc.
Qed.

(** Loading reads whatever the named file holds, and replaces the
    parameters of the model whatever they were. *)
Lemma load_reads_file (c : config) (name : string) (s : solver) (w : params) :
  files s !! load_path c name = Some w ->
  exists s', load_pretrained_model c name s = Ok s'
             /\ weights s' = w
             /\ gradients s' = gradients s /\ momentum s' = momentum s
             /\ files s' = files s.
Proof.
  intros H. unfold load_pretrained_model. rewrite H.
  eexists. split; [reflexivity|]. repeat split.
Qed.

Lemma load_missing_file (c : config) (name : string) (s : solver) :
  files s !! load_path c name = None ->
  load_pretrained_model c name s = Raise FileNotFoundError.
Proof. intros H. unfold load_pretrained_model. now rewrite H. Qed.


(** C4: saving at (version, e, i) and then loading the identifier of that
    file gives back exactly the parameters that were saved, and touches
    neither the gradients nor the optimizer. *)
Theorem save_then_load (c : config) (e i : Z) (s : solver) :
  exists s',
    load_pretrained_model c (checkpoint_id c e i) (save_model c e i s) = Ok s'
    /\ weights s' = weights s
    /\ gradients s' = gradients s
    /\ momentum s' = momentum s.
Proof.
  destruct (load_reads_file c (checkpoint_id c e i) (save_model c e i s) (weights s))
    as (s' & Hload & Hw & Hg & Hm & _).
  - rewrite load_path_of_saved. unfold save_model. simpl. apply lookup_insert_eq.
  - exists s'. repeat split; assumption.
Qed.

End CheckpointStore.



Section ConsoleLines.

Context `{F : Framework}.

Lemma append_empty_r (a : string) : a ++ "" = a.
Proof.
  induction a as [|ch a IH]; [reflexivity|].
  change (String ch (a ++ "") = String ch a). f_equal. exact IH.
Qed.

(** The two adjacent literals of the source make one template, with no
    space at the seam. *)
Lemma loss_log_template_eq :
  loss_log_template
  = "Elapsed {}/{} -- {}, Epoch [{}/{}] Iter [{}/{}],loss: {:.4f}".
Proof. reflexivity. Qed.

(** A template is a literal: cutting it into pieces and filling them
    computes, the arguments staying symbolic. *)
Ltac run_format :=
  unfold format; rewrite ?loss_log_template_eq;
  unfold test_template, train_evaluate_template;
  cbv [pieces String.append Ascii.eqb Bool.eqb andb];
  cbv [fill render rbind String.eqb Ascii.eqb Bool.eqb andb];
  rewrite ?append_empty_r; reflexivity.

Lemma format_loss_log (a b d : string) (e n i k : Z) (l : loss) :
  format loss_log_template
    [VStr a; VStr b; VStr d; VInt e; VInt n; VInt i; VInt k; VLoss l]
  = Ok (printed_loss_line a b d e n i k l).
Proof. run_format. Qed.

Lemma format_test (acc_1 acc_5 : Q) :
  format test_template [VFloat acc_1; VFloat acc_5]
  = Ok (documented_eval_line acc_1 acc_5).
Proof. run_format. Qed.

Lemma format_train_evaluate (e n : Z) (acc_1 acc_5 : Q) :
  format train_evaluate_template [VInt e; VInt n; VFloat acc_1; VFloat acc_5]
  = Ok ("Epoch [" ++ Py.str e ++ "/" ++ Py.str n ++ "]--"
        ++ documented_eval_line acc_1 acc_5).
Proof. run_format. Qed.

(** C9, as the code has it.  The loss line is the documented one without
    the space between the last comma and "loss:" (the source joins the
    literals "...Iter [{}/{}]," and "loss: {:.4f}"), and it is printed
    unless [cur_iter + 1] is zero.  The line printed by [test] has the
    documented form top_1_acc: ...--top_5_acc: ...; the one printed by
    [train_evaluate] has it after the prefix Epoch [e+1/num_epochs]--. *)
Theorem console_lines (c : config) (now start_time : Q) (iters e i : Z)
    (l : loss) (s : solver) :
  match loss_log_line c now start_time iters e i l with
  | Ok line =>
      let elapsed := Qminus now start_time in
      let left k := Qdiv (Qmult (inject_Z k) elapsed) (inject_Z (e * iters + i + 1)) in
      line = printed_loss_line
               (str_timedelta elapsed)
               (str_timedelta (left (iters - i)))
               (str_timedelta (left (num_epochs c * iters - (e * iters + i))))
               (e + 1) (num_epochs c) (i + 1) iters l
  | Raise err => err = ZeroDivisionError /\ e * iters + i + 1 = 0
  end
  /\ match test c s with
     | Ok s' => exists acc_1 acc_5,
         stdout s' = (stdout s ++ [documented_eval_line acc_1 acc_5])%list
     | Raise _ => True
     end
  /\ match train_evaluate c e s with
     | Ok (acc_1, acc_5, s') =>
         stdout s' =
         (stdout s ++ [("Epoch [" ++ Py.str (e + 1) ++ "/" ++ Py.str (num_epochs c)
                        ++ "]--" ++ documented_eval_line acc_1 acc_5)%string])%list
     | Raise _ => True
     end.
Proof.
  split; [|split].
  - unfold loss_log_line.
    destruct (Z.eqb_spec (e * iters + i + 1) 0) as [H0|H0].
    + split; [reflexivity | exact H0].
    + rewrite format_loss_log. reflexivity.
  - unfold test, eval.
    destruct (eval_outputs _) as [[[t1 t5] n]|]; [|exact I]. cbn [rbind].
    destruct (Py.truediv t1 n) as [a1|]; [|exact I]. cbn [rbind].
    destruct (Py.truediv t5 n) as [a5|]; [|exact I]. cbn [rbind].
    rewrite format_test. cbn [rbind]. exists a1, a5. reflexivity.
  - unfold train_evaluate, eval.
    destruct (eval_outputs _) as [[[t1 t5] n]|]; [|exact I]. cbn [rbind].
    destruct (Py.truediv t1 n) as [a1|]; [|exact I]. cbn [rbind].
    destruct (Py.truediv t5 n) as [a5|]; [|exact I]. cbn [rbind].
    rewrite format_train_evaluate. cbn [rbind]. reflexivity.
Qed.

End ConsoleLines.

(** C9 as stated fails on the loss line: the code prints no space between
    the comma and "loss:". *)
Lemma loss_line_has_no_space :
  loss_log_line (Toy.named "vgg" "models") (inject_Z 3) (inject_Z 1) 2 0 1 7
  = Ok "Elapsed 2:1/2:2 -- 2:2, Epoch [1/1] Iter [2/2],loss: 7"
  /\ loss_log_line (Toy.named "vgg" "models") (inject_Z 3) (inject_Z 1) 2 0 1 7
     <> Ok (documented_loss_line "2:1" "2:2" "2:2" 1 1 2 2 (7 : @loss Toy.framework)).
Proof. split; [vm_compute; reflexivity | vm_compute; discriminate]. Qed.

(** ** The evaluator on the outputs of the model *)

Section Evaluator.

Lemma max_dim1_ok (out : scores) :
  (0 < ncols out)%nat ->
  Torch.max_dim1 out = Ok (map (top_1_index out) (rows out)).
Proof.
  intros H. unfold Torch.max_dim1, top_1_index.
  destruct (ncols out) as [|n]; [lia|].
  simpl. now rewrite Nat.sub_0_r.
Qed.

Lemma max_dim1_empty (out : scores) :
  ncols out = 0%nat -> Torch.max_dim1 out = Raise MaxEmptyDim.
Proof. intros H. unfold Torch.max_dim1. now rewrite H. Qed.

Lemma topk_dim1_ok (out : scores) (k : nat) :
  (k <= ncols out)%nat ->
  Torch.topk_dim1 out k
  = Ok (map (fun row => Torch.select row k (seq 0 (ncols out))) (rows out)).
Proof.
  intros H. unfold Torch.topk_dim1.
  destruct (Nat.ltb_spec (ncols out) k); [lia | reflexivity].
Qed.

Lemma topk_dim1_short (out : scores) (k : nat) :
  (ncols out < k)%nat -> Torch.topk_dim1 out k = Raise TopkOutOfRange.
Proof.
  intros H. unfold Torch.topk_dim1.
  destruct (Nat.ltb_spec (ncols out) k); [reflexivity | lia].
Qed.

Lemma sum_eq_paired (labels : list Z) (out : scores) :
  length labels = length (rows out) ->
  Torch.sum_eq labels (map (top_1_index out) (rows out)) = Ok (hits_1 out labels).
Proof.
  intros H. unfold Torch.sum_eq, hits_1.
  rewrite length_map, H, Nat.eqb_refl.
  now rewrite zip_with_fmap_r.
Qed.

(** The loop over the labels, started at row [length done], reads the
    rows that follow and counts the labels found in theirs. *)
Lemma top_5_loop_exact (labels : list Z) :
  forall (done todo : list (list nat)) (acc : Z),
    (length labels <= length todo)%nat ->
    top_5_loop (done ++ todo) (length done) labels acc
    = Ok (acc + Torch.count_true
                  (zip_with (fun label row => Torch.contains row label) labels todo)).
Proof.
  induction labels as [|label labels IH]; intros done todo acc Hlen.
  - simpl. f_equal. lia.
  - destruct todo as [|row todo]; [simpl in Hlen; lia|].
    simpl top_5_loop.
    rewrite (list_lookup_middle done todo row (length done) eq_refl).
    replace (done ++ row :: todo)%list with ((done ++ [row]) ++ todo)%list
      by now rewrite <- app_assoc.
    replace (S (length done)) with (length (done ++ [row])%list)
      by (rewrite length_app; simpl; lia).
    rewrite IH by (simpl in Hlen; lia).
    f_equal. simpl. destruct (Torch.contains row label); lia.
Qed.

Lemma top_5_loop_paired (out : scores) (labels : list Z) (acc : Z) :
  length labels = length (rows out) ->
  top_5_loop (map (top_5_indices out) (rows out)) 0 labels acc
  = Ok (acc + hits_5 out labels).
Proof.
  intros H.
  pose proof (top_5_loop_exact labels [] (map (top_5_indices out) (rows out)) acc) as E.
  rewrite zip_with_fmap_r in E.
  apply E. rewrite length_map. lia.
Qed.

(** A fitting batch with at least five classes goes through, and adds its
    hits to the three counts. *)
Lemma eval_batch_ok (t : tally) (out : scores) (labels : list Z) :
  (5 <= ncols out)%nat -> length labels = length (rows out) ->
  eval_batch t out labels
  = Ok {| top_1_correct := counter_add (top_1_correct t) (hits_1 out labels);
          top_5_correct := top_5_correct t + hits_5 out labels;
          total := total t + Z.of_nat (length labels) |}.
Proof.
  intros Hc Hl. unfold eval_batch.
  rewrite max_dim1_ok by lia. cbn [rbind].
  rewrite sum_eq_paired by exact Hl. cbn [rbind].
  rewrite topk_dim1_ok by exact Hc. cbn [rbind].
  fold (top_5_indices out).
  rewrite top_5_loop_paired by exact Hl. reflexivity.
Qed.

(** With fewer than five classes no batch goes through. *)
Lemma eval_batch_few_classes (t : tally) (out : scores) (labels : list Z) :
  (ncols out < 5)%nat ->
  exists e, eval_batch t out labels = Raise e
            /\ (e = MaxEmptyDim \/ e = BroadcastError \/ e = TopkOutOfRange).
Proof.
  intros Hc. unfold eval_batch.
  destruct (Torch.max_dim1 out) as [top_1|e] eqn:Hmax.
  - cbn [rbind].
    destruct (Torch.sum_eq labels top_1) as [hits|e] eqn:Heq.
    + cbn [rbind]. rewrite topk_dim1_short by exact Hc. cbn [rbind]. eauto.
    + cbn [rbind]. exists e. split; [reflexivity|].
      unfold Torch.sum_eq in Heq.
      destruct (length labels =? length top_1)%nat; [discriminate|].
      destruct labels as [|? [|? ?]], top_1 as [|? [|? ?]];
        (discriminate || (injection Heq as <-; auto)).
  - cbn [rbind]. exists e. split; [reflexivity|].
    unfold Torch.max_dim1 in Hmax.
    destruct (seq 0 (ncols out)); [injection Hmax as <-; auto | discriminate].
Qed.

Lemma eval_batch_classes (t t' : tally) (out : scores) (labels : list Z) :
  eval_batch t out labels = Ok t' -> (5 <= ncols out)%nat.
Proof.
  intros H. destruct (Nat.le_gt_cases 5 (ncols out)) as [Hc|Hc]; [exact Hc|].
  destruct (eval_batch_few_classes t out labels Hc) as (e & He & _).
  congruence.
Qed.

End Evaluator.

Section EvaluatorLoop.

Lemma for_each_cons {A S : Type} (body : S -> A -> result S) (s : S) (x : A)
    (l : list A) :
  for_each body s (x :: l) = rbind (body s x) (fun s' => for_each body s' l).
Proof. reflexivity. Qed.

Lemma rbind_ok {A B : Type} (m : result A) (k : A -> result B) (b : B) :
  rbind m k = Ok b -> exists a, m = Ok a /\ k a = Ok b.
Proof. destruct m as [a|e]; simpl; [eauto | discriminate]. Qed.

Lemma counter_value_add_all (batches : list (scores * list Z)) :
  forall c : counter,
    counter_value (add_all c batches)
    = counter_value c + sum_over (fun b => hits_1 (fst b) (snd b)) batches.
Proof.
  induction batches as [|b bs IH]; intros c; [simpl; lia|].
  change (add_all c (b :: bs))
    with (add_all (counter_add c (hits_1 (fst b) (snd b))) bs).
  rewrite IH. destruct c; simpl; lia.
Qed.

Lemma item_add_all (c : counter) (b : scores * list Z)
    (batches : list (scores * list Z)) :
  item (add_all c (b :: batches)) = Ok (counter_value (add_all c (b :: batches))).
Proof.
  simpl. generalize (hits_1 (fst b) (snd b)). intros h.
  assert (H : forall c', (exists n, c' = Tensor0 n) ->
                         exists n, add_all c' batches = Tensor0 n).
  { induction batches as [|b' bs IH]; intros c' [n ->]; simpl; eauto. }
  destruct (H (counter_add c h)) as [n Hn].
  - destruct c; simpl; eauto.
  - fold (add_all (counter_add c h) batches). rewrite Hn. reflexivity.
Qed.

Lemma tally_eq (c : counter) (a b a' b' : Z) :
  a = a' -> b = b' ->
  {| top_1_correct := c; top_5_correct := a; total := b |}
  = {| top_1_correct := c; top_5_correct := a'; total := b' |}.
Proof. now intros -> ->. Qed.

(** The loop over fitting batches of at least five classes. *)
Lemma eval_loop_ok (batches : list (scores * list Z)) :
  forall t : tally,
    Forall good batches ->
    eval_loop t batches
    = Ok {| top_1_correct := add_all (top_1_correct t) batches;
            top_5_correct :=
              top_5_correct t + sum_over (fun b => hits_5 (fst b) (snd b)) batches;
            total := total t + sum_over (fun b => Z.of_nat (length (snd b))) batches |}.
Proof.
  induction batches as [|b bs IH]; intros t Hgood.
  - destruct t. unfold eval_loop. simpl. f_equal. apply tally_eq; lia.
  - inversion Hgood as [|? ? [Hc Hp] Hbs]; subst.
    unfold eval_loop in *. rewrite for_each_cons.
    rewrite eval_batch_ok by assumption. cbn [rbind].
    rewrite IH by assumption. simpl. f_equal. apply tally_eq; lia.
Qed.

(** What [eval] returns on such batches: the three counts. *)
Lemma eval_outputs_counts (b : scores * list Z) (batches : list (scores * list Z)) :
  Forall good (b :: batches) ->
  eval_outputs (b :: batches)
  = Ok (sum_over (fun b => hits_1 (fst b) (snd b)) (b :: batches),
        sum_over (fun b => hits_5 (fst b) (snd b)) (b :: batches),
        sum_over (fun b => Z.of_nat (length (snd b))) (b :: batches)).
Proof.
  intros Hgood. unfold eval_outputs.
  rewrite eval_loop_ok by exact Hgood. cbn [rbind top_1_correct top_5_correct total].
  rewrite item_add_all. cbn [rbind].
  rewrite counter_value_add_all. reflexivity.
Qed.

(** A loop that went through saw at least five classes in every batch. *)
Lemma eval_loop_classes (batches : list (scores * list Z)) :
  forall t t' : tally,
    eval_loop t batches = Ok t' ->
    Forall (fun b => (5 <= ncols (fst b))%nat) batches.
Proof.
  induction batches as [|b bs IH]; intros t t' H; [constructor|].
  unfold eval_loop in *. rewrite for_each_cons in H.
  apply rbind_ok in H as (t1 & H1 & H2).
  constructor; [eapply eval_batch_classes; eassumption | eapply IH; eassumption].
Qed.






Lemma eval_outputs_empty : eval_outputs [] = Raise AttributeError.
Proof. reflexivity. Qed.

End EvaluatorLoop.

Section Eval.

Context `{F : Framework}.

Lemma eval_unfold (c : config) (loader : list (tensor * tensor)) (s : solver) :
  eval c loader s
  = rbind (eval_outputs (map (seen c (weights s)) loader))
          (fun r => Ok (r, set_mode false s)).
Proof. reflexivity. Qed.

(** What [eval] returns on fitting batches of at least five classes: the
    number of examples whose label is the best class, the number of those
    whose label is among the five best, and the number of examples. *)
Lemma eval_counts (c : config) (b : tensor * tensor)
    (loader : list (tensor * tensor)) (s : solver) :
  Forall good (map (seen c (weights s)) (b :: loader)) ->
  eval c (b :: loader) s
  = Ok (sum_over (fun b => hits_1 (fst b) (snd b)) (map (seen c (weights s)) (b :: loader)),
        sum_over (fun b => hits_5 (fst b) (snd b)) (map (seen c (weights s)) (b :: loader)),
        sum_over (fun b => Z.of_nat (length (snd b))) (map (seen c (weights s)) (b :: loader)),
        set_mode false s).
Proof.
  intros Hgood. rewrite eval_unfold.
  change (map (seen c (weights s)) (b :: loader))
    with (seen c (weights s) b :: map (seen c (weights s)) loader) in *.
  rewrite eval_outputs_counts by exact Hgood. reflexivity.
Qed.


Lemma eval_batch_topk (t : tally) (out : scores) (labels : list Z) :
  (0 < ncols out < 5)%nat -> length labels = length (rows out) ->
  eval_batch t out labels = Raise TopkOutOfRange.
Proof.
  intros Hc Hl. unfold eval_batch.
  rewrite max_dim1_ok by lia. cbn [rbind].
  rewrite sum_eq_paired by exact Hl. cbn [rbind].
  rewrite topk_dim1_short by lia. reflexivity.
Qed.

(** C10: [eval] asks for the five best classes of every batch; when the
    model has fewer than five classes it raises on every non-empty data
    source, at [torch.topk] when the first batch is otherwise fit (some
    class, one label per row). *)
Theorem eval_needs_five_classes (c : config) (b : tensor * tensor)
    (loader : list (tensor * tensor)) (s : solver) :
  (forall images, (ncols (data (forward false (weights s) images)) < 5)%nat) ->
  exists err,
    eval c (b :: loader) s = Raise err
    /\ (err = MaxEmptyDim \/ err = BroadcastError \/ err = TopkOutOfRange)
    /\ ((0 < ncols (fst (seen c (weights s) b)))%nat ->
        paired (seen c (weights s) b) -> err = TopkOutOfRange).
Proof.
  intros Hfew. rewrite eval_unfold. unfold eval_outputs, eval_loop.
  change (map (seen c (weights s)) (b :: loader))
    with (seen c (weights s) b :: map (seen c (weights s)) loader).
  rewrite for_each_cons.
  set (t0 := {| top_1_correct := PyInt 0; top_5_correct := 0; total := 0 |}).
  assert (Hc : (ncols (fst (seen c (weights s) b)) < 5)%nat) by apply Hfew.
  destruct (eval_batch_few_classes t0 _ (snd (seen c (weights s) b)) Hc)
    as (err & Herr & Hkind).
  exists err. rewrite Herr. cbn [rbind]. split; [reflexivity|]. split; [exact Hkind|].
  intros Hpos Hp. rewrite eval_batch_topk in Herr by (unfold paired in Hp; auto with lia).
  now injection Herr.
Qed.

(** The other direction: with at least five classes and one label per row,
    [eval] returns on every non-empty data source. *)
Lemma eval_total (c : config) (b : tensor * tensor)
    (loader : list (tensor * tensor)) (s : solver) :
  Forall good (map (seen c (weights s)) (b :: loader)) ->
  is_ok (eval c (b :: loader) s) = true.
Proof. intros H. now rewrite eval_counts. Qed.

End Eval.

(** A single label is a scalar after [squeeze] and [torch.eq] compares it
    with every row, while the top-5 loop runs over the labels. *)
Example one_label_three_rows :
  eval_outputs
    [({| ncols := 6; rows := [[1;9;3;4;5;6]; [0;7;1;1;1;1]; [0;8;2;3;4;5]] |}, [1])]
  = Ok (3, 1, 1).
Proof. reflexivity. Qed.

(** C10 on a network of three classes. *)
Lemma eval_needs_five_classes_witness :
  (forall images,
      (ncols (data (forward (Framework := Toy.framework_of 3) false
                      (weights Toy.small_fresh) images)) < 5)%nat)
  /\ eval Toy.small_setup [Toy.small_batch] Toy.small_fresh = Raise TopkOutOfRange.
Proof.
  assert (Hfew : forall images,
             (ncols (data (forward (Framework := Toy.framework_of 3) false
                             (weights Toy.small_fresh) images)) < 5)%nat)
    by (intros images; simpl; lia).
  split; [exact Hfew|].
  destruct (eval_needs_five_classes Toy.small_setup Toy.small_batch [] Toy.small_fresh Hfew)
    as (err & Herr & _ & Htopk).
  assert (Hk : err = TopkOutOfRange) by (apply Htopk; [simpl; lia | reflexivity]).
  rewrite Hk in Herr. exact Herr.
Defined.

(** ** The training loop *)

Section Training.

Context `{F : Framework}.

Lemma model_step_eq (images labels : tensor) (s : solver) :
  model_step images labels s
  = (criterion (forward true (weights s) images) (squeeze labels),
     snd (model_step images labels s)).
Proof. unfold model_step. simpl. now destruct (sgd_step _ _). Qed.

Lemma model_step_books (images labels : tensor) (s : solver) :
  same_books s (snd (model_step images labels s)).
Proof. unfold model_step. simpl. destruct (sgd_step _ _). now repeat split. Qed.

(** The parameters after a step: gradients zeroed, the loss of the forward
    pass propagated back, one step of the optimizer. *)
Lemma model_step_weights (images labels : tensor) (s : solver) :
  let l := criterion (forward true (weights s) images) (squeeze labels) in
  let g := backward l (zero_grad (gradients s)) in
  (weights (snd (model_step images labels s)),
   momentum (snd (model_step images labels s)))
  = sgd_step g (weights s, momentum s)
  /\ gradients (snd (model_step images labels s)) = g.
Proof. unfold model_step. simpl. now destruct (sgd_step _ _). Qed.

Lemma train_batch_eq (c : config) (e : Z) (st : solver * locals) (i : nat)
    (images labels : tensor) :
  let x := to_var images (use_gpu c) in
  let r := model_step x (to_var x (use_gpu c)) (fst st) in
  train_batch c e st (i, (images, labels))
  = (record (ModelStep e (Z.of_nat i) (fst r)) (snd r), Some (Z.of_nat i, fst r)).
Proof. unfold train_batch. simpl. now destruct (model_step _ _ _). Qed.

(** The inner loop from batch number [k] on. *)
Lemma train_batches_from (c : config) (e : Z) (l : list (tensor * tensor)) :
  forall (k : nat) (s : solver) (v : locals),
    let r := fold_left (train_batch c e) (combine (seq k (length l)) l) (s, v) in
    exists new,
      calls (fst r) = (calls s ++ new)%list
      /\ steps_of new = map (fun i => (e, Z.of_nat i)) (seq k (length l))
      /\ logged new = []
      /\ losses (fst r) = losses s
      /\ files (fst r) = files s
      /\ match l with
         | [] => snd r = v
         | _ => exists lo,
             snd r = Some (Z.of_nat (k + length l - 1), lo)
             /\ In (ModelStep e (Z.of_nat (k + length l - 1)) lo) new
         end.
Proof.
  induction l as [|[images labels] l IH]; intros k s v r.
  - exists []. subst r. simpl. rewrite app_nil_r. repeat split.
  - subst r. cbn [length seq combine fold_left].
    rewrite train_batch_eq. cbv zeta. change (fst (s, v)) with s.
    set (x := to_var images (use_gpu c)).
    set (m := model_step x (to_var x (use_gpu c)) s).
    destruct (model_step_books x (to_var x (use_gpu c)) s) as (Hc & Hl & Hf).
    fold m in Hc, Hl, Hf |- *.
    destruct (IH (S k) (record (ModelStep e (Z.of_nat k) (fst m)) (snd m))
                (Some (Z.of_nat k, fst m)))
      as (new & Hcalls & Hsteps & Hlog & Hlosses & Hfiles & Hlast).
    exists (ModelStep e (Z.of_nat k) (fst m) :: new).
    split; [|split; [|split; [|split; [|split]]]].
    + etransitivity; [exact Hcalls|]. simpl. rewrite Hc. now rewrite <- app_assoc.
    + simpl. now rewrite Hsteps.
    + simpl. exact Hlog.
    + etransitivity; [exact Hlosses | exact Hl].
    + etransitivity; [exact Hfiles | exact Hf].
    + destruct l as [|b l'].
      * exists (fst m). simpl length.
        replace (k + 1 - 1)%nat with k by lia. split; [exact Hlast | now left].
      * destruct Hlast as (lo & Hv & Hin). exists lo.
        replace (k + length (b :: l') + 1 - 1)%nat
          with (S k + length (b :: l') - 1)%nat by lia.
        replace (k + S (length (b :: l')) - 1)%nat
          with (S k + length (b :: l') - 1)%nat by lia.
        split; [exact Hv | now right].
Qed.

Lemma train_batches_effects (c : config) (e : Z) (s : solver) (v : locals) :
  let r := train_batches c e (s, v) in
  exists new,
    calls (fst r) = (calls s ++ new)%list
    /\ steps_of new
       = map (fun i => (e, Z.of_nat i)) (seq 0 (length (data_loader c)))
    /\ logged new = []
    /\ losses (fst r) = losses s
    /\ files (fst r) = files s
    /\ match data_loader c with
       | [] => snd r = v
       | _ => exists lo,
           snd r = Some (Z.of_nat (length (data_loader c) - 1), lo)
           /\ In (ModelStep e (Z.of_nat (length (data_loader c) - 1)) lo) new
       end.
Proof. exact (train_batches_from c e (data_loader c) 0 s v). Qed.

Lemma mod_ok (x y r : Z) : Py.mod_ x y = Ok r -> y <> 0 /\ r = x mod y.
Proof.
  unfold Py.mod_. destruct (Z.eqb_spec y 0); [discriminate|].
  intros H. injection H as <-. now split.
Qed.

Lemma mod_nonzero (x y : Z) : y <> 0 -> Py.mod_ x y = Ok (x mod y).
Proof. intros H. unfold Py.mod_. now destruct (Z.eqb_spec y 0). Qed.

Lemma print_loss_log_books (c : config) (t0 : Q) (n e i : Z) (l : loss)
    (s s' : solver) :
  print_loss_log c t0 n e i l s = Ok s' -> same_books s s'.
Proof.
  unfold print_loss_log, time. intros H.
  apply rbind_ok in H as (line & _ & H). injection H as <-. now repeat split.
Qed.

Lemma train_evaluate_books (c : config) (e : Z) (s s' : solver) (a1 a5 : Q) :
  train_evaluate c e s = Ok (a1, a5, s') -> same_books s s'.
Proof.
  unfold train_evaluate. intros H.
  apply rbind_ok in H as ([[[t1 t5] n] s1] & He & H).
  apply rbind_ok in H as (x1 & _ & H). apply rbind_ok in H as (x5 & _ & H).
  apply rbind_ok in H as (line & _ & H). injection H as _ _ <-.
  rewrite eval_unfold in He. apply rbind_ok in He as (r & _ & He).
  injection He as _ <-. now repeat split.
Qed.

(** The loss block: when the epoch number is a multiple of the step it
    prints once and appends the pair of the epoch and the current loss. *)
Lemma log_loss_effects (c : config) (t0 : Q) (n e : Z) (v : locals)
    (s s' : solver) :
  log_loss c t0 n e v s = Ok s' ->
  loss_log_step c <> 0
  /\ files s' = files s
  /\ if ((e + 1) mod loss_log_step c =? 0)%Z
     then exists i l,
         v = Some (i, l)
         /\ calls s' = (calls s ++ [PrintLossLog e i l])%list
         /\ losses s' = (losses s ++ [(e, l)])%list
     else calls s' = calls s /\ losses s' = losses s.
Proof.
  unfold log_loss. intros H.
  apply rbind_ok in H as (r & Hr & H). apply mod_ok in Hr as [Hstep ->].
  split; [exact Hstep|].
  destruct ((e + 1) mod loss_log_step c =? 0)%Z.
  - apply rbind_ok in H as ([i l] & Hv & H).
    apply rbind_ok in H as (s1 & Hp & H). injection H as <-.
    destruct (print_loss_log_books _ _ _ _ _ _ _ _ Hp) as (Hc & Hl & Hf).
    split; [exact Hf|]. exists i, l.
    destruct v as [[i' l']|]; [|discriminate]. injection Hv as -> ->.
    simpl. rewrite Hc, Hl. now repeat split.
  - injection H as <-. now repeat split.
Qed.

Lemma checkpoint_effects (c : config) (e : Z) (v : locals) (s s' : solver) :
  checkpoint c e v s = Ok s' ->
  losses s' = losses s
  /\ exists tail, calls s' = (calls s ++ tail)%list
                  /\ steps_of tail = [] /\ logged tail = [].
Proof.
  unfold checkpoint. intros H.
  apply rbind_ok in H as (r & _ & H).
  destruct (r =? 0)%Z.
  - apply rbind_ok in H as ([i l] & _ & H). injection H as <-.
    split; [reflexivity|]. exists [SaveModel e i]. now repeat split.
  - injection H as <-. split; [reflexivity|]. exists [].
    rewrite app_nil_r. now repeat split.
Qed.

Lemma evaluate_on_train_effects (c : config) (e : Z) (s s' : solver) :
  evaluate_on_train c e s = Ok s' ->
  losses s' = losses s
  /\ exists tail, calls s' = (calls s ++ tail)%list
                  /\ steps_of tail = [] /\ logged tail = [].
Proof.
  unfold evaluate_on_train. intros H.
  apply rbind_ok in H as (r & _ & H).
  destruct (r =? 0)%Z.
  - apply rbind_ok in H as ([[a1 a5] s1] & He & H). injection H as <-.
    destruct (train_evaluate_books _ _ _ _ _ _ He) as (Hc & Hl & _).
    split; [exact Hl|]. exists [TrainEvaluate e]. simpl. rewrite Hc.
    now repeat split.
  - injection H as <-. split; [reflexivity|]. exists [].
    rewrite app_nil_r. now repeat split.
Qed.

Lemma steps_of_app (a b : list call) :
  steps_of (a ++ b)%list = (steps_of a ++ steps_of b)%list.
Proof. unfold steps_of. now rewrite flat_map_app. Qed.

Lemma logged_app (a b : list call) :
  logged (a ++ b)%list = (logged a ++ logged b)%list.
Proof. unfold logged. now rewrite flat_map_app. Qed.

(** One epoch that went through: every batch was stepped on once, in
    order; the loss block ran or not by the epoch number; and what was
    logged is the loss of the last step. *)
Lemma train_epoch_effects (c : config) (t0 : Q) (n e : Z) (s s' : solver)
    (v v' : locals) :
  train_epoch c t0 n (s, v) e = Ok (s', v') ->
  v' = snd (train_batches c e (s, v))
  /\ loss_log_step c <> 0
  /\ exists new,
      calls s' = (calls s ++ new)%list
      /\ steps_of new
         = map (fun i => (e, Z.of_nat i)) (seq 0 (length (data_loader c)))
      /\ (data_loader c <> [] ->
          exists lo, v' = Some (Z.of_nat (length (data_loader c) - 1), lo)
                     /\ In (ModelStep e (Z.of_nat (length (data_loader c) - 1)) lo) new)
      /\ if ((e + 1) mod loss_log_step c =? 0)%Z
         then exists i l,
             v' = Some (i, l) /\ logged new = [(e, i, l)]
             /\ losses s' = (losses s ++ [(e, l)])%list
         else logged new = [] /\ losses s' = losses s.
Proof.
  unfold train_epoch. intros H.
  destruct (train_batches_effects c e s v)
    as (steps & Hc0 & Hsteps & Hlog0 & Hl0 & _ & Hlast).
  destruct (train_batches c e (s, v)) as [s0 v0]. simpl in Hc0, Hl0, Hlast.
  apply rbind_ok in H as (s1 & H1 & H). apply rbind_ok in H as (s2 & H2 & H).
  apply rbind_ok in H as (s3 & H3 & H). injection H as <- <-.
  apply log_loss_effects in H1 as (Hstep & _ & H1).
  apply checkpoint_effects in H2 as (Hl2 & t2 & Hc2 & Hs2 & Hg2).
  apply evaluate_on_train_effects in H3 as (Hl3 & t3 & Hc3 & Hs3 & Hg3).
  split; [reflexivity|]. split; [exact Hstep|].
  destruct ((e + 1) mod loss_log_step c =? 0)%Z.
  - destruct H1 as (i & l & Hv & Hc1 & Hl1).
    exists (steps ++ [PrintLossLog e i l] ++ t2 ++ t3)%list.
    split; [|split; [|split]].
    + rewrite Hc3, Hc2, Hc1, Hc0. now rewrite <- !app_assoc.
    + rewrite !steps_of_app, Hsteps, Hs2, Hs3. simpl. now rewrite app_nil_r.
    + intros Hne. destruct (data_loader c); [congruence|].
      destruct Hlast as (lo & Hv0 & Hin). exists lo. split; [exact Hv0|].
      apply in_or_app. now left.
    + exists i, l. split; [exact Hv|]. split.
      * rewrite !logged_app, Hlog0, Hg2, Hg3. reflexivity.
      * now rewrite Hl3, Hl2, Hl1, Hl0.
  - destruct H1 as (Hc1 & Hl1).
    exists (steps ++ t2 ++ t3)%list.
    split; [|split; [|split]].
    + rewrite Hc3, Hc2, Hc1, Hc0. now rewrite <- !app_assoc.
    + rewrite !steps_of_app, Hsteps, Hs2, Hs3. now rewrite !app_nil_r.
    + intros Hne. destruct (data_loader c); [congruence|].
      destruct Hlast as (lo & Hv0 & Hin). exists lo. split; [exact Hv0|].
      apply in_or_app. now left.
    + split.
      * rewrite !logged_app, Hlog0, Hg2, Hg3. reflexivity.
      * now rewrite Hl3, Hl2, Hl1, Hl0.
Qed.

(** The loop over the epochs [es], from a state where the locals are
    unbound or the loader has a batch. *)
Lemma train_epochs_effects (c : config) (t0 : Q) (n : Z) (es : list Z) :
  forall (s s' : solver) (v v' : locals),
    for_each (train_epoch c t0 n) (s, v) es = Ok (s', v') ->
    v = None \/ data_loader c <> [] ->
    exists new,
      calls s' = (calls s ++ new)%list
      /\ steps_of new = all_steps c es
      /\ map (fun x => fst (fst x)) (logged new) = log_epochs c es
      /\ losses s' = (losses s ++ map (fun x => (fst (fst x), snd x)) (logged new))%list
      /\ Forall (final_batch_loss c new) (logged new).
Proof.
  induction es as [|e es IH]; intros s s' v v' H Hv.
  - injection H as <- <-. exists []. rewrite !app_nil_r. now repeat split.
  - rewrite for_each_cons in H. apply rbind_ok in H as ([s1 v1] & H1 & H).
    apply train_epoch_effects in H1
      as (Hv1 & Hstep & new1 & Hc1 & Hs1 & Hlast & Hlog).
    assert (Hv1' : v1 = None \/ data_loader c <> []).
    { destruct Hv as [-> | Hne]; [|now right].
      destruct (train_batches_effects c e s None) as (? & _ & _ & _ & _ & _ & Hl).
      rewrite <- Hv1 in Hl.
      destruct (data_loader c); [now left | now right]. }
    destruct (IH _ _ _ _ H Hv1') as (new2 & Hc2 & Hs2 & Hg2 & Hl2 & Hf2).
    exists (new1 ++ new2)%list.
    assert (Hmono : forall x, final_batch_loss c new2 x ->
                              final_batch_loss c (new1 ++ new2)%list x).
    { intros x (Hne & Hi & Hin). repeat split; try assumption.
      apply in_or_app. now right. }
    split; [|split; [|split; [|split]]].
    + rewrite Hc2, Hc1. now rewrite <- app_assoc.
    + rewrite steps_of_app, Hs1, Hs2. reflexivity.
    + rewrite logged_app, map_app, Hg2. unfold log_epochs. simpl List.filter.
      destruct ((e + 1) mod loss_log_step c =? 0)%Z.
      * destruct Hlog as (i & l & _ & -> & _). reflexivity.
      * destruct Hlog as (-> & _). reflexivity.
    + rewrite Hl2, logged_app, map_app.
      destruct ((e + 1) mod loss_log_step c =? 0)%Z.
      * destruct Hlog as (i & l & _ & -> & ->). simpl. now rewrite <- app_assoc.
      * destruct Hlog as (-> & ->). reflexivity.
    + rewrite logged_app. apply Forall_app. split.
      * destruct ((e + 1) mod loss_log_step c =? 0)%Z.
        -- destruct Hlog as (i & l & Hvil & -> & _).
           assert (Hne : data_loader c <> []).
           { destruct Hv as [-> | Hne]; [|exact Hne].
             destruct (train_batches_effects c e s None)
               as (? & _ & _ & _ & _ & _ & Hl).
             rewrite <- Hv1 in Hl.
             destruct (data_loader c); [congruence | discriminate]. }
           destruct (Hlast Hne) as (lo & Hvlo & Hin).
           rewrite Hvil in Hvlo. injection Hvlo as -> ->.
           constructor; [|constructor].
           repeat split; [exact Hne | apply in_or_app; now left].
        -- destruct Hlog as (-> & _). constructor.
      * eapply Forall_impl; [exact Hf2 | exact Hmono].
Qed.

Lemma range_empty (a b : Z) : b <= a -> Py.range a b = [].
Proof. intros H. unfold Py.range. now replace (Z.to_nat (b - a)) with 0%nat by lia. Qed.

Lemma train_unfold (c : config) (s : solver) :
  train c s
  = rbind (start_epoch c) (fun start =>
      let s0 := no_calls (set_metrics [] [] [] s) in
      rbind (for_each (train_epoch c (fst (time s0))
                         (Z.of_nat (length (data_loader c))))
               (snd (time s0), None) (Py.range start (num_epochs c)))
            (fun r => Ok (fst r))).
Proof.
  unfold train. destruct (start_epoch c) as [start|]; [|reflexivity].
  cbn [rbind]. unfold time. cbn [fst snd].
  destruct (for_each _ _ _) as [[s1 v1]|]; reflexivity.
Qed.

(** A run that went through, from its first epoch [start]. *)
Lemma train_effects (c : config) (s s' : solver) (start : Z) :
  start_epoch c = Ok start ->
  train c s = Ok s' ->
  steps_of (calls s') = all_steps c (Py.range start (num_epochs c))
  /\ map (fun x => fst (fst x)) (logged (calls s'))
     = log_epochs c (Py.range start (num_epochs c))
  /\ losses s' = map (fun x => (fst (fst x), snd x)) (logged (calls s'))
  /\ Forall (final_batch_loss c (calls s')) (logged (calls s')).
Proof.
  intros Hstart H. rewrite train_unfold, Hstart in H. cbn [rbind] in H.
  apply rbind_ok in H as ([s1 v1] & H & Hret). injection Hret as <-.
  apply train_epochs_effects in H as (new & Hc & Hs & Hg & Hl & Hf); [|now left].
  simpl in Hc, Hl. subst new. now repeat split.
Qed.

End Training.

(** ** Runs that go through *)

Section Totality.

Context `{F : Framework}.

Lemma sum_over_nonneg {A : Type} (f : A -> Z) (l : list A) :
  (forall a, 0 <= f a) -> 0 <= sum_over f l.
Proof. intros H. induction l as [|a l IH]; simpl; [lia | specialize (H a); lia]. Qed.

Lemma labels_counted (c : config) (w : params) (loader : list (tensor * tensor)) :
  Exists (fun b => class_ids (to_var (snd b) (use_gpu c)) <> []) loader ->
  0 < sum_over (fun b => Z.of_nat (length (snd b))) (map (seen c w) loader).
Proof.
  induction 1 as [b l Hb | b l _ IH]; simpl.
  - assert (0 <= sum_over (fun b => Z.of_nat (length (snd b))) (map (seen c w) l))
      by (apply sum_over_nonneg; intros; lia).
    destruct (class_ids (to_var (snd b) (use_gpu c))); [congruence | simpl; lia].
  - lia.
Qed.

Lemma train_evaluate_total (c : config) (e : Z) (s : solver) :
  evaluable c -> exists r, train_evaluate c e s = Ok r.
Proof.
  intros [Hgood Hex]. unfold train_evaluate.
  pose proof (labels_counted c (weights s) _ Hex) as Hpos.
  specialize (Hgood (weights s)).
  destruct (data_loader c) as [|b loader]; [inversion Hex|].
  rewrite eval_counts by exact Hgood. cbn [rbind].
  unfold Py.truediv.
  destruct (Z.eqb_spec
              (sum_over (fun b => Z.of_nat (length (snd b)))
                 (map (seen c (weights s)) (b :: loader))) 0) as [H0|_]; [lia|].
  cbn [rbind]. rewrite format_train_evaluate. cbn [rbind]. eauto.
Qed.

Lemma log_loss_total (c : config) (t0 : Q) (n e i : Z) (l : loss) (s : solver) :
  loss_log_step c <> 0 -> e * n + i + 1 <> 0 ->
  exists s', log_loss c t0 n e (Some (i, l)) s = Ok s'.
Proof.
  intros Hstep Hcur. unfold log_loss. rewrite mod_nonzero by exact Hstep.
  cbn [rbind]. destruct (_ =? 0)%Z; [|eauto].
  cbn [bound rbind]. unfold print_loss_log, time, loss_log_line.
  destruct (Z.eqb_spec (e * n + i + 1) 0) as [H0|_]; [contradiction|].
  rewrite format_loss_log. cbn [rbind]. eauto.
Qed.

Lemma checkpoint_total (c : config) (e i : Z) (l : loss) (s : solver) :
  model_save_step c <> 0 -> exists s', checkpoint c e (Some (i, l)) s = Ok s'.
Proof.
  intros Hstep. unfold checkpoint. rewrite mod_nonzero by exact Hstep.
  cbn [rbind]. destruct (_ =? 0)%Z; cbn [bound rbind]; eauto.
Qed.

Lemma evaluate_on_train_total (c : config) (e : Z) (s : solver) :
  train_eval_step c <> 0 -> evaluable c ->
  exists s', evaluate_on_train c e s = Ok s'.
Proof.
  intros Hstep Hev. unfold evaluate_on_train. rewrite mod_nonzero by exact Hstep.
  cbn [rbind]. destruct (_ =? 0)%Z; [|eauto].
  destruct (train_evaluate_total c e s Hev) as ([[a1 a5] s1] & ->).
  cbn [rbind]. eauto.
Qed.

Lemma train_epoch_total (c : config) (t0 : Q) (e : Z) (s : solver) (v : locals) :
  runs_clean c -> 0 <= e ->
  exists r, train_epoch c t0 (Z.of_nat (length (data_loader c))) (s, v) e = Ok r.
Proof.
  intros (Hlog & Hsave & Heval & Hev) He. unfold train_epoch.
  destruct (train_batches_effects c e s v) as (new & _ & _ & _ & _ & _ & Hlast).
  destruct (train_batches c e (s, v)) as [s0 v0]. simpl in Hlast.
  assert (Hv : exists lo, v0 = Some (Z.of_nat (length (data_loader c) - 1), lo)
                          /\ (0 < length (data_loader c))%nat).
  { destruct Hev as [_ Hex]. destruct (data_loader c); [inversion Hex|].
    destruct Hlast as (lo & -> & _). exists lo. split; [reflexivity | simpl; lia]. }
  destruct Hv as (lo & -> & Hpos).
  destruct (log_loss_total c t0 (Z.of_nat (length (data_loader c))) e
              (Z.of_nat (length (data_loader c) - 1)) lo s0 Hlog) as (s1 & ->);
    [nia|].
  cbn [rbind].
  destruct (checkpoint_total c e (Z.of_nat (length (data_loader c) - 1)) lo s1 Hsave)
    as (s2 & ->).
  cbn [rbind].
  destruct (evaluate_on_train_total c e s2 Heval Hev) as (s3 & ->).
  cbn [rbind]. eauto.
Qed.

Lemma train_epochs_total (c : config) (t0 : Q) (es : list Z) :
  runs_clean c -> Forall (fun e => 0 <= e) es ->
  forall st, exists r,
    for_each (train_epoch c t0 (Z.of_nat (length (data_loader c)))) st es = Ok r.
Proof.
  intros Hclean Hes. induction Hes as [|e es He _ IH]; intros [s v].
  - simpl. eauto.
  - rewrite for_each_cons.
    destruct (train_epoch_total c t0 e s v Hclean He) as (r & ->).
    cbn [rbind]. apply IH.
Qed.

Lemma range_from_nonneg (a b : Z) : 0 <= a -> Forall (fun e => 0 <= e) (Py.range a b).
Proof.
  intros Ha. apply List.Forall_forall. intros x Hin.
  unfold Py.range in Hin. apply in_map_iff in Hin as (k & <- & _). lia.
Qed.

(** A clean run from a first epoch that is not negative returns. *)
Lemma train_total (c : config) (s : solver) (start : Z) :
  runs_clean c -> start_epoch c = Ok start -> 0 <= start ->
  exists s', train c s = Ok s'.
Proof.
  intros Hclean Hstart Hpos. rewrite train_unfold, Hstart. cbn [rbind].
  cbv zeta.
  destruct (train_epochs_total c
              (fst (time (no_calls (set_metrics [] [] [] s))))
              (Py.range start (num_epochs c)) Hclean
              (range_from_nonneg _ _ Hpos)
              (snd (time (no_calls (set_metrics [] [] [] s))), None)) as (r & ->).
  cbn [rbind]. eauto.
Qed.

End Totality.

(** ** The claims about the training loop *)

Section TrainingLoop.

Context `{F : Framework}.

Lemma range_spec (a b e : Z) : In e (Py.range a b) <-> a <= e < b.
Proof.
  unfold Py.range. rewrite in_map_iff. split.
  - intros (k & <- & Hk). apply in_seq in Hk. lia.
  - intros H. exists (Z.to_nat (e - a)). split; [lia|]. apply in_seq. lia.
Qed.


Lemma start_epoch_fresh (c : config) :
  pretrained_model c = None -> start_epoch c = Ok 0.
Proof. intros Hp. unfold start_epoch. now rewrite Hp. Qed.


(** C5: when the first epoch is [num_epochs] the loop body never runs:
    [train] returns, having made no call (no optimization step, nothing
    printed, saved or evaluated), with the parameters, the gradients and
    the optimizer as they were. *)
Theorem no_epochs_no_steps (c : config) (s : solver) (n : Z) :
  start_epoch c = Ok n -> n = num_epochs c ->
  exists s',
    train c s = Ok s'
    /\ calls s' = []
    /\ weights s' = weights s /\ gradients s' = gradients s
    /\ momentum s' = momentum s
    /\ files s' = files s /\ stdout s' = stdout s.
Proof.
  intros Hstart ->. rewrite train_unfold, Hstart. cbn [rbind]. cbv zeta.
  rewrite range_empty by lia. simpl.
  eexists. split; [reflexivity|]. now repeat split.
Qed.

Lemma map_succ_epochs {A B : Type} (l : list (Z * A * B)) (es : list Z) :
  map (fun x => fst (fst x)) l = es ->
  map (fun x => fst (fst x) + 1) l = map (fun e => e + 1) es.
Proof. intros <-. now rewrite map_map. Qed.

(** C1, what the code does: the labels of the batch are not read.  The
    step run on a batch is the documented step run on the batch whose
    labels are its own images. *)
Lemma train_batch_takes_images (c : config) (e : Z) (st : solver * locals)
    (i : nat) (images labels : tensor) :
  train_batch c e st (i, (images, labels))
  = documented_train_batch c e st (i, (images, to_var images (use_gpu c))).
Proof. reflexivity. Qed.

Lemma train_batch_ignores_labels (c : config) (e : Z) (st : solver * locals)
    (i : nat) (images labels labels' : tensor) :
  train_batch c e st (i, (images, labels)) = train_batch c e st (i, (images, labels')).
Proof. reflexivity. Qed.

(** [model_step] itself takes the loss against the labels it is given. *)
Lemma model_step_loss (images labels : tensor) (s : solver) :
  fst (model_step images labels s)
  = criterion (forward true (weights s) images) (squeeze labels).
Proof. now rewrite model_step_eq. Qed.

End TrainingLoop.

(** C1 at a batch of one example labelled 1, the weight being 1: the code
    takes the loss of the output against the images (6), the documented
    step against the label (33), and the parameters part ways. *)
Theorem train_loss_against_images :
  snd (train_batch (Toy.named "vgg" "models") 0 (Toy.fresh 1, None) (0%nat, Toy.one_batch))
  = Some (0, 6)
  /\ snd (documented_train_batch (Toy.named "vgg" "models") 0 (Toy.fresh 1, None)
            (0%nat, Toy.one_batch))
     = Some (0, 33)
  /\ weights (fst (train_batch (Toy.named "vgg" "models") 0 (Toy.fresh 1, None)
                     (0%nat, Toy.one_batch)))
     <> weights (fst (documented_train_batch (Toy.named "vgg" "models") 0
                        (Toy.fresh 1, None) (0%nat, Toy.one_batch))).
Proof. split; [reflexivity|]. split; [reflexivity|]. vm_compute. discriminate. Qed.


(** C5 on a run of three epochs resumed at epoch 3. *)
Lemma no_epochs_no_steps_witness :
  start_epoch (Toy.setup 3 1 1 1 (Some "3_9_9")) = Ok 3
  /\ 3 = num_epochs (Toy.setup 3 1 1 1 (Some "3_9_9"))
  /\ exists s',
      train (Toy.setup 3 1 1 1 (Some "3_9_9")) (Toy.fresh 5) = Ok s'
      /\ calls s' = [] /\ weights s' = 5.
Proof.
  split; [reflexivity|]. split; [reflexivity|].
  destruct (no_epochs_no_steps (Toy.setup 3 1 1 1 (Some "3_9_9")) (Toy.fresh 5) 3
              eq_refl eq_refl) as (s' & Ht & Hc & Hw & _).
  exists s'. split; [exact Ht|]. split; [exact Hc | exact Hw].
Defined.

(** * Further properties of the solver *)

(** ** The evaluator: what it returns and how it fails *)

Section EvalMore.

Context `{F : Framework}.

Lemma eval_ok_counts (c : config) (loader : list (tensor * tensor))
    (s s' : solver) (top_1 top_5 n : Z) :
  Forall paired (map (seen c (weights s)) loader) ->
  eval c loader s = Ok (top_1, top_5, n, s') ->
  Forall good (map (seen c (weights s)) loader)
  /\ top_1 = sum_over (fun b => hits_1 (fst b) (snd b)) (map (seen c (weights s)) loader)
  /\ top_5 = sum_over (fun b => hits_5 (fst b) (snd b)) (map (seen c (weights s)) loader)
  /\ n = sum_over (fun b => Z.of_nat (length (snd b))) (map (seen c (weights s)) loader).
Proof.
  intros Hpaired H. rewrite eval_unfold in H.
  apply rbind_ok in H as ([[t1 t5] m] & Hout & Hret).
  injection Hret as -> -> -> <-.
  destruct loader as [|b loader]; [discriminate|].
  assert (Hgood : Forall good (map (seen c (weights s)) (b :: loader))).
  { unfold eval_outputs in Hout. apply rbind_ok in Hout as (t & Hloop & _).
    apply eval_loop_classes in Hloop.
    apply Forall_forall. intros x Hx. split.
    - rewrite Forall_forall in Hloop. now apply Hloop.
    - rewrite Forall_forall in Hpaired. now apply Hpaired. }
  split; [exact Hgood|].
  change (map (seen c (weights s)) (b :: loader))
    with (seen c (weights s) b :: map (seen c (weights s)) loader) in *.
  rewrite eval_outputs_counts in Hout by exact Hgood.
  injection Hout as <- <- <-. now repeat split.
Qed.

Lemma count_true_bounds (l : list bool) :
  0 <= Torch.count_true l <= Z.of_nat (length l).
Proof. induction l as [|[] l IH]; simpl length; simpl Torch.count_true; lia. Qed.

Lemma hits_5_le_labels (out : scores) (labels : list Z) :
  hits_5 out labels <= Z.of_nat (length labels).
Proof.
  unfold hits_5.
  pose proof (count_true_bounds
                (zip_with (fun label row => Torch.contains (top_5_indices out row) label)
                   labels (rows out))) as [_ H].
  rewrite length_zip_with in H. lia.
Qed.

Lemma hits_1_nonneg (out : scores) (labels : list Z) : 0 <= hits_1 out labels.
Proof. unfold hits_1. apply count_true_bounds. Qed.


(** X4: on an empty data source both callers of [eval] stop at
    [top_1_correct.item()] with an [AttributeError]: the division by the
    total, which is 0, is never reached. *)
Theorem evaluation_of_nothing (c : config) (e : Z) (s : solver) :
  data_loader c = [] ->
  test c s = Raise AttributeError
  /\ train_evaluate c e s = Raise AttributeError.
Proof. intros H. unfold test, train_evaluate. rewrite H. split; reflexivity. Qed.

End EvalMore.

(** ** The training loop: runs that stop early *)

Section TrainEdges.

Context `{F : Framework}.

Lemma range_cons (a b : Z) : a < b -> Py.range a b = a :: Py.range (a + 1) b.
Proof.
  intros H. unfold Py.range.
  replace (Z.to_nat (b - a)) with (S (Z.to_nat (b - (a + 1)))) by lia.
  cbn [seq map]. f_equal; [lia|].
  rewrite <- seq_shift, map_map. apply map_ext. intros k. lia.
Qed.

Lemma train_batches_empty (c : config) (e : Z) (st : solver * locals) :
  data_loader c = [] -> train_batches c e st = st.
Proof. intros H. unfold train_batches, enumerate. now rewrite H. Qed.

Lemma bind_raise {A B : Type} (m : result A) (k : A -> result B) (e : exn) :
  m = Raise e -> rbind m k = Raise e.
Proof. now intros ->. Qed.

(** An epoch that went through had three steps that are not zero. *)
Lemma train_epoch_steps (c : config) (t0 : Q) (k e : Z) (st r : solver * locals) :
  train_epoch c t0 k st e = Ok r ->
  loss_log_step c <> 0 /\ model_save_step c <> 0 /\ train_eval_step c <> 0.
Proof.
  unfold train_epoch. destruct (train_batches c e st) as [s0 v0]. intros H.
  apply rbind_ok in H as (s1 & H1 & H). apply rbind_ok in H as (s2 & H2 & H).
  apply rbind_ok in H as (s3 & H3 & _).
  unfold log_loss in H1. apply rbind_ok in H1 as (r1 & H1 & _).
  unfold checkpoint in H2. apply rbind_ok in H2 as (r2 & H2 & _).
  unfold evaluate_on_train in H3. apply rbind_ok in H3 as (r3 & H3 & _).
  apply mod_ok in H1 as [H1 _]. apply mod_ok in H2 as [H2 _].
  apply mod_ok in H3 as [H3 _]. now repeat split.
Qed.

(** An epoch over no batch, the locals being unbound, goes through only
    when none of the three blocks is due; it then changes nothing. *)
Lemma train_epoch_empty (c : config) (t0 : Q) (k e : Z) (s s' : solver)
    (v' : locals) :
  data_loader c = [] ->
  train_epoch c t0 k (s, None) e = Ok (s', v') ->
  s' = s /\ v' = None
  /\ (e + 1) mod loss_log_step c <> 0
  /\ (e + 1) mod model_save_step c <> 0
  /\ (e + 1) mod train_eval_step c <> 0.
Proof.
  intros Hempty H. unfold train_epoch in H.
  rewrite (train_batches_empty c e _ Hempty) in H.
  apply rbind_ok in H as (s1 & H1 & H). apply rbind_ok in H as (s2 & H2 & H).
  apply rbind_ok in H as (s3 & H3 & H). injection H as <- <-.
  unfold log_loss in H1. apply rbind_ok in H1 as (r1 & Hr1 & H1).
  apply mod_ok in Hr1 as [_ ->].
  destruct (Z.eqb_spec ((e + 1) mod loss_log_step c) 0) as [_|Hlog];
    [discriminate|].
  injection H1 as <-.
  unfold checkpoint in H2. apply rbind_ok in H2 as (r2 & Hr2 & H2).
  apply mod_ok in Hr2 as [_ ->].
  destruct (Z.eqb_spec ((e + 1) mod model_save_step c) 0) as [_|Hsave];
    [discriminate|].
  injection H2 as <-.
  unfold evaluate_on_train in H3. apply rbind_ok in H3 as (r3 & Hr3 & H3).
  apply mod_ok in Hr3 as [_ ->].
  destruct (Z.eqb_spec ((e + 1) mod train_eval_step c) 0) as [_|Heval].
  - unfold train_evaluate in H3. rewrite Hempty in H3. discriminate.
  - injection H3 as <-. now repeat split.
Qed.

Lemma train_epochs_empty (c : config) (t0 : Q) (k : Z) (es : list Z) :
  forall (s s' : solver) (v' : locals),
    data_loader c = [] ->
    for_each (train_epoch c t0 k) (s, None) es = Ok (s', v') ->
    s' = s
    /\ Forall (fun e => (e + 1) mod loss_log_step c <> 0
                        /\ (e + 1) mod model_save_step c <> 0
                        /\ (e + 1) mod train_eval_step c <> 0) es.
Proof.
  induction es as [|e es IH]; intros s s' v' Hempty H.
  - injection H as <- _. split; [reflexivity | constructor].
  - rewrite for_each_cons in H. apply rbind_ok in H as ([s1 v1] & H1 & H).
    apply (train_epoch_empty c t0 k e s s1 v1 Hempty) in H1
      as (-> & -> & Hmods).
    destruct (IH _ _ _ Hempty H) as [-> Hrest].
    split; [reflexivity | now constructor].
Qed.

(** X9: over an empty data loader the locals [i] and [loss] are never bound.
    A run returns only if no epoch of its range is due for the loss log, a
    checkpoint or an evaluation, and it has then made no call; a run whose
    first epoch is due for the loss log raises [UnboundLocalError]. *)
Theorem train_over_nothing (c : config) (s : solver) (n : Z) :
  data_loader c = [] -> start_epoch c = Ok n ->
  (forall s', train c s = Ok s' ->
     calls s' = []
     /\ forall e, n <= e < num_epochs c ->
          (e + 1) mod loss_log_step c <> 0
          /\ (e + 1) mod model_save_step c <> 0
          /\ (e + 1) mod train_eval_step c <> 0)
  /\ (n < num_epochs c -> loss_log_step c <> 0 ->
      (n + 1) mod loss_log_step c = 0 ->
      train c s = Raise UnboundLocalError).
Proof.
  intros Hempty Hstart. split.
  - intros s' H. rewrite train_unfold, Hstart in H. cbn [rbind] in H.
    apply rbind_ok in H as ([s1 v1] & H & Hret). injection Hret as <-.
    apply (train_epochs_empty c _ _ _ _ _ _ Hempty) in H as [-> Hall].
    split; [reflexivity|].
    intros e He. rewrite List.Forall_forall in Hall. apply Hall.
    now apply range_spec.
  - intros Hlt Hstep Hdue. rewrite train_unfold, Hstart. cbn [rbind]. cbv zeta.
    rewrite (range_cons n (num_epochs c) Hlt), for_each_cons.
    apply bind_raise. apply bind_raise.
    unfold train_epoch. rewrite (train_batches_empty c n _ Hempty).
    apply bind_raise. unfold log_loss. rewrite mod_nonzero by exact Hstep.
    cbn [rbind]. rewrite Hdue. reflexivity.
Qed.

(** X10: the three steps divide the epoch number: a run of at least one epoch
    returns only if none of them is zero, and with a loss step of zero it
    raises [ZeroDivisionError] at the end of its first epoch. *)
Theorem train_needs_nonzero_steps (c : config) (s : solver) (n : Z) :
  start_epoch c = Ok n -> n < num_epochs c ->
  (forall s', train c s = Ok s' ->
     loss_log_step c <> 0 /\ model_save_step c <> 0 /\ train_eval_step c <> 0)
  /\ (loss_log_step c = 0 -> train c s = Raise ZeroDivisionError).
Proof.
  intros Hstart Hlt. split.
  - intros s' H. rewrite train_unfold, Hstart in H. cbn [rbind] in H.
    apply rbind_ok in H as (r & H & _).
    rewrite (range_cons n (num_epochs c) Hlt), for_each_cons in H.
    apply rbind_ok in H as (r1 & H1 & _).
    eapply train_epoch_steps. exact H1.
  - intros Hzero. rewrite train_unfold, Hstart. cbn [rbind]. cbv zeta.
    rewrite (range_cons n (num_epochs c) Hlt), for_each_cons.
    apply bind_raise. apply bind_raise.
    unfold train_epoch. destruct (train_batches c n _) as [s0 v0].
    apply bind_raise. unfold log_loss, Py.mod_. rewrite Hzero. reflexivity.
Qed.

(** A pre-trained name whose first token is not an integer makes [train]
    raise [ValueError] before its first epoch. *)
Lemma train_bad_name (c : config) (s : solver) (e : exn) :
  start_epoch c = Raise e -> train c s = Raise e.
Proof. intros H. rewrite train_unfold, H. reflexivity. Qed.

End TrainEdges.

(** ** Numerals and tokens *)

Section Numerals.

Lemma append_cons (ch : ascii) (a b : string) :
  String ch a ++ b = String ch (a ++ b).
Proof. reflexivity. Qed.

Lemma append_inv_head (a b b' : string) : a ++ b = a ++ b' -> b = b'.
Proof.
  induction a as [|ch a IH]; intros H; [exact H|].
  rewrite !append_cons in H. injection H as H. now apply IH.
Qed.

Lemma all_chars_app (P : ascii -> Prop) (a b : string) :
  all_chars P a -> all_chars P b -> all_chars P (a ++ b).
Proof.
  induction a as [|ch a IH]; intros Ha Hb; [exact Hb|].
  rewrite append_cons. destruct Ha as [Hch Ha]. split; [exact Hch | now apply IH].
Qed.

Lemma all_chars_impl (P Q : ascii -> Prop) (s : string) :
  (forall ch, P ch -> Q ch) -> all_chars P s -> all_chars Q s.
Proof.
  intros HPQ. induction s as [|ch s IH]; [trivial|].
  intros [Hch Hs]. split; [now apply HPQ | now apply IH].
Qed.

Lemma pretty_N_char_digit (d : N) :
  (d < 10)%N ->
  Py.is_digit (pretty_N_char d) = true
  /\ Py.digit_value (pretty_N_char d) = Z.of_N d.
Proof.
  intros H.
  assert (Hd : (d = 0 \/ d = 1 \/ d = 2 \/ d = 3 \/ d = 4 \/ d = 5 \/ d = 6
                \/ d = 7 \/ d = 8 \/ d = 9)%N) by lia.
  destruct Hd as [->|[->|[->|[->|[->|[->|[->|[->|[->| ->]]]]]]]]];
    split; reflexivity.
Qed.

Lemma pretty_N_go_digits (x : N) :
  forall s, all_chars (fun ch => Py.is_digit ch = true) s ->
            all_chars (fun ch => Py.is_digit ch = true) (pretty_N_go x s).
Proof.
  induction (N.lt_wf_0 x) as [x _ IH]. intros s Hs.
  assert (x = 0 \/ 0 < x)%N as [->|Hx] by lia; [now rewrite pretty_N_go_0|].
  rewrite pretty_N_go_step by exact Hx.
  apply IH; [now apply N.div_lt|].
  split; [|exact Hs]. apply pretty_N_char_digit. now apply N.mod_lt.
Qed.

(** Reading the digits back gives the number. *)
Lemma pretty_N_go_value (x : N) :
  forall s,
    Py.digits 0 (list_ascii_of_string (pretty_N_go x s))
    = Py.digits (Z.of_N x) (list_ascii_of_string s).
Proof.
  induction (N.lt_wf_0 x) as [x _ IH]. intros s.
  assert (x = 0 \/ 0 < x)%N as [->|Hx] by lia; [now rewrite pretty_N_go_0|].
  rewrite pretty_N_go_step by exact Hx.
  rewrite IH by now apply N.div_lt.
  destruct (pretty_N_char_digit (x mod 10)) as [Hd Hv]; [now apply N.mod_lt|].
  cbn [list_ascii_of_string Py.digits]. rewrite Hd, Hv. f_equal.
  pose proof (N.div_mod x 10). lia.
Qed.

Lemma pretty_N_go_nonempty (x : N) :
  forall s, s <> "" -> pretty_N_go x s <> "".
Proof.
  induction (N.lt_wf_0 x) as [x _ IH]. intros s Hs.
  assert (x = 0 \/ 0 < x)%N as [->|Hx] by lia; [now rewrite pretty_N_go_0|].
  rewrite pretty_N_go_step by exact Hx.
  apply IH; [now apply N.div_lt | discriminate].
Qed.

Lemma pretty_pos_facts (p : positive) :
  all_chars (fun ch => Py.is_digit ch = true) (pretty (N.pos p))
  /\ pretty (N.pos p) <> ""
  /\ Py.digits 0 (list_ascii_of_string (pretty (N.pos p))) = Some (Z.pos p).
Proof.
  unfold pretty, pretty_N. destruct (decide (N.pos p = 0%N)) as [H|_]; [discriminate|].
  split; [|split].
  - now apply pretty_N_go_digits.
  - rewrite pretty_N_go_step by lia. apply pretty_N_go_nonempty. discriminate.
  - rewrite pretty_N_go_value. reflexivity.
Qed.

Lemma digit_not_space (ch : ascii) : Py.is_digit ch = true -> Py.is_space ch = false.
Proof.
  unfold Py.is_digit, Py.is_space. intros H.
  apply andb_true_iff in H as [H1 H2].
  apply Nat.leb_le in H1. apply Nat.leb_le in H2.
  apply orb_false_iff. split; apply andb_false_iff.
  - right. apply Nat.leb_gt. lia.
  - right. apply Nat.leb_gt. lia.
Qed.

Lemma lstrip_id (l : list ascii) :
  match l with [] => True | ch :: _ => Py.is_space ch = false end ->
  Py.lstrip l = l.
Proof. destruct l as [|ch l]; [reflexivity|]. simpl. now intros ->. Qed.

Lemma strip_id (l : list ascii) :
  match l with [] => True | ch :: _ => Py.is_space ch = false end ->
  match rev l with [] => True | ch :: _ => Py.is_space ch = false end ->
  Py.strip l = l.
Proof.
  intros Hhead Hlast. unfold Py.strip.
  rewrite (lstrip_id l Hhead), (lstrip_id (rev l) Hlast). apply rev_involutive.
Qed.

Lemma all_chars_list (P : ascii -> Prop) (s : string) :
  all_chars P s <-> List.Forall P (list_ascii_of_string s).
Proof.
  induction s as [|ch s IH]; simpl.
  - split; [constructor | trivial].
  - rewrite IH. split.
    + intros [H1 H2]. now constructor.
    + intros H. inversion H. now split.
Qed.

Lemma strip_unspaced (l : list ascii) :
  List.Forall (fun ch => Py.is_space ch = false) l -> Py.strip l = l.
Proof.
  intros H. apply strip_id.
  - destruct H; [trivial | assumption].
  - assert (Hr : List.Forall (fun ch => Py.is_space ch = false) (rev l)).
    { apply List.Forall_forall. intros ch Hin. apply in_rev in Hin.
      rewrite List.Forall_forall in H. now apply H. }
    destruct Hr; [trivial | assumption].
Qed.

(** [int] on a string of digits reads the digits. *)
Lemma int_digits (l : list ascii) :
  List.Forall (fun ch => Py.is_digit ch = true) l ->
  Py.int (string_of_list_ascii l) = Py.unsigned l.
Proof.
  intros H. unfold Py.int. rewrite list_ascii_of_string_of_list_ascii.
  rewrite strip_unspaced
    by (eapply List.Forall_impl; [|exact H]; intros ch; apply digit_not_space).
  destruct H as [|ch l Hch _]; [reflexivity|].
  destruct ch as [[] [] [] [] [] [] [] []]; try discriminate Hch; reflexivity.
Qed.

(** [int(str(n))] is [n]. *)
Lemma int_str (n : Z) : Py.int (Py.str n) = Ok n.
Proof.
  unfold Py.str, pretty, pretty_Z. destruct n as [|p|p].
  - reflexivity.
  - destruct (pretty_pos_facts p) as (Hd & Hne & Hv).
    change (pretty p) with (pretty (N.pos p)).
    rewrite <- (string_of_list_ascii_of_string (pretty (N.pos p))).
    rewrite int_digits by now apply all_chars_list.
    unfold Py.unsigned. rewrite Hv.
    destruct (list_ascii_of_string (pretty (N.pos p))) eqn:Hl; [|reflexivity].
    apply (f_equal string_of_list_ascii) in Hl.
    rewrite string_of_list_ascii_of_string in Hl. contradiction.
  - destruct (pretty_pos_facts p) as (Hd & Hne & Hv).
    change (pretty p) with (pretty (N.pos p)).
    unfold Py.int. change ("-" ++ pretty (N.pos p)) with (String "-" (pretty (N.pos p))).
    cbn [list_ascii_of_string].
    rewrite strip_unspaced.
    + unfold Py.unsigned. rewrite Hv.
      destruct (list_ascii_of_string (pretty (N.pos p))) eqn:Hl; [|reflexivity].
      apply (f_equal string_of_list_ascii) in Hl.
      rewrite string_of_list_ascii_of_string in Hl. contradiction.
    + constructor; [reflexivity|].
      apply all_chars_list in Hd.
      eapply List.Forall_impl; [|exact Hd]. intros ch; apply digit_not_space.
Qed.

Lemma str_numeric (n : Z) : all_chars numeric (Py.str n).
Proof.
  unfold Py.str, pretty, pretty_Z. destruct n as [|p|p].
  - split; [now left | exact I].
  - destruct (pretty_pos_facts p) as (Hd & _).
    eapply all_chars_impl; [|exact Hd]. intros ch H. now left.
  - destruct (pretty_pos_facts p) as (Hd & _).
    change ("-" ++ pretty p) with (String "-" (pretty (N.pos p))).
    split; [now right|].
    eapply all_chars_impl; [|exact Hd]. intros ch H. now left.
Qed.

(** The first token: cut at the first separator. *)
Lemma first_token_cons (sep ch : ascii) (s : string) :
  Ascii.eqb ch sep = false ->
  Py.first_token sep (String ch s) = String ch (Py.first_token sep s).
Proof.
  intros H. unfold Py.first_token. cbn [Py.split]. rewrite H.
  now destruct (Py.split sep s).
Qed.

Lemma first_token_sep (sep : ascii) (s : string) :
  Py.first_token sep (String sep s) = "".
Proof. unfold Py.first_token. cbn [Py.split]. now rewrite Ascii.eqb_refl. Qed.

Lemma first_token_app (sep : ascii) (a b : string) :
  Py.first_token sep (a ++ String sep b) = Py.first_token sep a.
Proof.
  induction a as [|ch a IH].
  - change ("" ++ String sep b) with (String sep b). now rewrite first_token_sep.
  - rewrite append_cons. destruct (Ascii.eqb ch sep) eqn:Hch.
    + apply Ascii.eqb_eq in Hch as ->. now rewrite !first_token_sep.
    + rewrite !first_token_cons by exact Hch. now rewrite IH.
Qed.

Lemma first_token_whole (sep : ascii) (s : string) :
  all_chars (fun ch => Ascii.eqb ch sep = false) s -> Py.first_token sep s = s.
Proof.
  induction s as [|ch s IH]; [reflexivity|].
  intros [Hch Hs]. rewrite first_token_cons by exact Hch. now rewrite IH.
Qed.

Lemma numeric_not (sep : ascii) (s : string) :
  sep = "_"%char \/ sep = "."%char ->
  all_chars numeric s -> all_chars (fun ch => Ascii.eqb ch sep = false) s.
Proof.
  intros Hsep. apply all_chars_impl. intros ch [Hd | ->].
  - destruct (Ascii.eqb ch sep) eqn:E; [|reflexivity].
    apply Ascii.eqb_eq in E. subst ch. destruct Hsep as [-> | ->]; discriminate.
  - destruct Hsep as [-> | ->]; reflexivity.
Qed.

End Numerals.

(** ** The checkpoint store: names, resuming, several saves *)

Section CheckpointsMore.

Context `{F : Framework}.

Lemma checkpoint_id_eq (c : config) (e i : Z) :
  checkpoint_id c e i
  = version c ++ String "_" (Py.str (e + 1) ++ String "_" (Py.str (i + 1))).
Proof. reflexivity. Qed.

Lemma checkpoint_id_truthy (c : config) (e i : Z) :
  Py.truthy (Some (checkpoint_id c e i)) = true.
Proof. rewrite checkpoint_id_eq. now destruct (version c). Qed.

Lemma format_loaded (name : string) :
  format "loaded trained model ver {}" [VStr name]
  = Ok ("loaded trained model ver " ++ name).
Proof.
  unfold format.
  cbv [pieces String.append Ascii.eqb Bool.eqb andb].
  cbv [fill render rbind String.eqb Ascii.eqb Bool.eqb andb].
  rewrite append_empty_r. reflexivity.
Qed.

Lemma resuming_start (c : config) (e i : Z) :
  start_epoch (resuming c e i) = Py.int (Py.first_token "_" (version c)).
Proof.
  unfold start_epoch. cbn [pretrained_model resuming].
  rewrite checkpoint_id_truthy, checkpoint_id_eq. now rewrite first_token_app.
Qed.

(** X15: a solver that resumes from a checkpoint it saved: [__init__] loads
    the saved parameters and says so, and [train] reads its first epoch
    from the version string, whatever epoch and iteration were saved. *)
Theorem resume_from_own_checkpoint (c : config) (e i : Z) (s : solver) :
  (exists s',
      init (resuming c e i) (save_model c e i s) = Ok s'
      /\ weights s' = weights s
      /\ stdout s'
         = (stdout s ++ [("loaded trained model ver " ++ checkpoint_id c e i)%string])%list)
  /\ start_epoch (resuming c e i) = Py.int (Py.first_token "_" (version c)).
Proof.
  split; [|apply resuming_start].
  unfold init. cbn [pretrained_model resuming].
  rewrite checkpoint_id_truthy. unfold load_pretrained_model.
  change (load_path (resuming c e i) (checkpoint_id c e i))
    with (load_path c (checkpoint_id c e i)).
  rewrite load_path_of_saved. unfold save_model. cbn [files set_files].
  rewrite lookup_insert_eq, format_loaded. cbn [rbind].
  eexists. split; [reflexivity|]. split; reflexivity.
Qed.

(** X16: when the version is the numeral of [k], resuming from any checkpoint
    of the run starts at epoch [k]: at the version, not at the epoch that
    was saved. *)
Theorem resume_starts_at_version (c : config) (e i k : Z) :
  version c = Py.str k -> start_epoch (resuming c e i) = Ok k.
Proof.
  intros Hv. rewrite resuming_start, Hv.
  rewrite first_token_whole by (apply (numeric_not "_"); [now left | apply str_numeric]).
  apply int_str.
Qed.

Lemma path_join_same_start (dir n1 n2 : string) :
  Py.starts_with_slash n1 = Py.starts_with_slash n2 ->
  Py.path_join dir n1 = Py.path_join dir n2 -> n1 = n2.
Proof.
  unfold Py.path_join. intros <-.
  destruct (Py.starts_with_slash n1); [trivial|].
  destruct dir as [|ch dir]; [trivial|].
  destruct (Py.ends_with_slash (String ch dir)); intros H.
  - now apply append_inv_head in H.
  - apply append_inv_head in H. now apply (append_inv_head "/") in H.
Qed.

Lemma documented_name_start (c : config) (e i e' i' : Z) :
  Py.starts_with_slash (documented_name c e i)
  = Py.starts_with_slash (documented_name c e' i').
Proof. unfold documented_name. now destruct (version c). Qed.

Lemma str_inj (a b : Z) : Py.str a = Py.str b -> a = b.
Proof. unfold Py.str. apply (inj pretty). Qed.

Lemma documented_name_inj (c : config) (e i e' i' : Z) :
  documented_name c e i = documented_name c e' i' -> e = e' /\ i = i'.
Proof.
  unfold documented_name. intros H.
  apply append_inv_head in H. apply (append_inv_head "_") in H.
  change (Py.str (e + 1) ++ String "_" (Py.str (i + 1) ++ ".pth")
          = Py.str (e' + 1) ++ String "_" (Py.str (i' + 1) ++ ".pth")) in H.
  assert (He : Py.str (e + 1) = Py.str (e' + 1)).
  { apply (f_equal (Py.first_token "_")) in H.
    rewrite !first_token_app in H.
    rewrite !first_token_whole in H
      by (apply (numeric_not "_"); [now left | apply str_numeric]).
    exact H. }
  rewrite He in H. apply append_inv_head in H. injection H as H.
  change (Py.str (i + 1) ++ String "." "pth" = Py.str (i' + 1) ++ String "." "pth") in H.
  apply (f_equal (Py.first_token ".")) in H.
  rewrite !first_token_app in H.
  rewrite !first_token_whole in H
    by (apply (numeric_not "."); [now right | apply str_numeric]).
  apply str_inj in He. apply str_inj in H. lia.
Qed.

Lemma checkpoint_files_name (c : config) (e i e' i' : Z) :
  save_path c e i = save_path c e' i' -> e = e' /\ i = i'.
Proof.
  unfold save_path. rewrite !checkpoint_name_eq. intros H.
  apply path_join_same_start in H; [|apply documented_name_start].
  now apply (documented_name_inj c).
Qed.

(** X13: two calls of [save_model] write the same file only for the same epoch
    and iteration: a run never overwrites one of its own checkpoints with
    another, whatever the version and the directory. *)
Theorem checkpoint_files_distinct (c : config) (e i e' i' : Z) :
  save_path c e i = save_path c e' i' <-> e = e' /\ i = i'.
Proof.
  split; [apply checkpoint_files_name | now intros [-> ->]].
Qed.

(** X14: a checkpoint survives later saves at other epochs or iterations, and
    is replaced by a later save at its own: loading the identifier of
    (e, i) after a second [save_model(e', i')] gives the parameters of the
    first save unless (e', i') is (e, i). *)
Theorem load_after_two_saves (c : config) (e i e' i' : Z) (s1 s2 : solver) :
  files s2 = files (save_model c e i s1) ->
  exists s',
    load_pretrained_model c (checkpoint_id c e i) (save_model c e' i' s2) = Ok s'
    /\ weights s' = if ((e =? e') && (i =? i'))%Z then weights s2 else weights s1.
Proof.
  intros Hfiles.
  destruct (load_reads_file c (checkpoint_id c e i) (save_model c e' i' s2)
              (if ((e =? e') && (i =? i'))%Z then weights s2 else weights s1))
    as (s' & Hload & Hw & _).
  - rewrite load_path_of_saved. unfold save_model at 1. cbn [files set_files].
    rewrite Hfiles. unfold save_model. cbn [files set_files].
    destruct (Z.eqb_spec e e') as [->|He]; cbn [andb].
    + destruct (Z.eqb_spec i i') as [->|Hi].
      * apply lookup_insert_eq.
      * rewrite lookup_insert_ne
          by (intros H; apply checkpoint_files_name in H; lia).
        apply lookup_insert_eq.
    + rewrite lookup_insert_ne
        by (intros H; apply checkpoint_files_name in H; lia).
      apply lookup_insert_eq.
  - exists s'. now split.
Qed.

End CheckpointsMore.

(** ** The training loop: what a whole run does *)

Section TrainWhole.

Context `{F : Framework}.

Lemma model_step_model (images labels : tensor) (s : solver) :
  model_of (snd (model_step images labels s))
  = step_model images labels (model_of s).
Proof.
  unfold model_step, step_model, model_of. simpl.
  now destruct (sgd_step _ _).
Qed.

Lemma model_step_rest (images labels : tensor) (s : solver) :
  let s' := snd (model_step images labels s) in
  top_1_acc s' = top_1_acc s /\ top_5_acc s' = top_5_acc s
  /\ stdout s' = stdout s /\ training s' = true.
Proof. unfold model_step. simpl. destruct (sgd_step _ _). now repeat split. Qed.

(** The inner loop, on the model and on what it leaves alone. *)
Lemma train_batches_model (c : config) (e : Z) (l : list (tensor * tensor)) :
  forall (k : nat) (s : solver) (v : locals),
    let r := fold_left (train_batch c e) (combine (seq k (length l)) l) (s, v) in
    model_of (fst r)
    = fold_left
        (fun m b =>
           let images := to_var (fst b) (use_gpu c) in
           step_model images (to_var images (use_gpu c)) m) l (model_of s)
    /\ top_1_acc (fst r) = top_1_acc s /\ top_5_acc (fst r) = top_5_acc s
    /\ stdout (fst r) = stdout s
    /\ saved (calls (fst r)) = saved (calls s)
    /\ evaluated (calls (fst r)) = evaluated (calls s)
    /\ training (fst r) = match l with [] => training s | _ => true end.
Proof.
  induction l as [|[images labels] l IH]; intros k s v r.
  - subst r. simpl. now repeat split.
  - subst r. cbn [length seq combine fold_left].
    rewrite train_batch_eq. cbv zeta. change (fst (s, v)) with s.
    set (x := to_var images (use_gpu c)).
    set (m := model_step x (to_var x (use_gpu c)) s).
    destruct (IH (S k) (record (ModelStep e (Z.of_nat k) (fst m)) (snd m))
                (Some (Z.of_nat k, fst m)))
      as (Hm & H1 & H5 & Hout & Hsaved & Hev & Hmode).
    destruct (model_step_rest x (to_var x (use_gpu c)) s) as (M1 & M5 & Mout & Mmode).
    destruct (model_step_books x (to_var x (use_gpu c)) s) as (Mc & _ & _).
    fold m in M1, M5, Mout, Mmode, Mc.
    split; [|split; [|split; [|split; [|split; [|split]]]]].
    + etransitivity; [exact Hm|]. cbn [fold_left fst].
      f_equal. unfold model_of at 1. cbn [weights gradients momentum record].
      fold (model_of (snd m)). subst m. apply model_step_model.
    + etransitivity; [exact H1 | exact M1].
    + etransitivity; [exact H5 | exact M5].
    + etransitivity; [exact Hout | exact Mout].
    + etransitivity; [exact Hsaved|]. cbn [calls record]. rewrite Mc.
      unfold saved. rewrite flat_map_app. simpl. now rewrite app_nil_r.
    + etransitivity; [exact Hev|]. cbn [calls record]. rewrite Mc.
      unfold evaluated. rewrite flat_map_app. simpl. now rewrite app_nil_r.
    + destruct l; [etransitivity; [exact Hmode | exact Mmode] | exact Hmode].
Qed.

Lemma train_evaluate_state (c : config) (e : Z) (s s1 : solver) (a1 a5 : Q) :
  train_evaluate c e s = Ok (a1, a5, s1) ->
  exists line, s1 = print line (set_mode false s).
Proof.
  unfold train_evaluate. intros H.
  apply rbind_ok in H as ([[[t1 t5] n] s0] & He & H).
  apply rbind_ok in H as (x1 & _ & H). apply rbind_ok in H as (x5 & _ & H).
  apply rbind_ok in H as (line & _ & H). injection H as _ _ <-.
  rewrite eval_unfold in He. apply rbind_ok in He as (r & _ & He).
  injection He as _ <-. now exists line.
Qed.

Lemma print_loss_log_state (c : config) (t0 : Q) (n e i : Z) (l : loss)
    (s s' : solver) :
  print_loss_log c t0 n e i l s = Ok s' ->
  exists line, s' = print line (snd (time s)).
Proof.
  unfold print_loss_log. unfold time at 1. intros H.
  apply rbind_ok in H as (line & _ & H). injection H as <-. now exists line.
Qed.

Lemma saved_app (a b : list call) : saved (a ++ b)%list = (saved a ++ saved b)%list.
Proof. unfold saved. now rewrite flat_map_app. Qed.

Lemma evaluated_app (a b : list call) :
  evaluated (a ++ b)%list = (evaluated a ++ evaluated b)%list.
Proof. unfold evaluated. now rewrite flat_map_app. Qed.

(** The loss block touches neither the model, the files nor the
    accuracies. *)
Lemma log_loss_keeps (c : config) (t0 : Q) (n e : Z) (v : locals) (s s' : solver) :
  log_loss c t0 n e v s = Ok s' ->
  model_of s' = model_of s
  /\ top_1_acc s' = top_1_acc s /\ top_5_acc s' = top_5_acc s
  /\ files s' = files s /\ training s' = training s
  /\ saved (calls s') = saved (calls s)
  /\ evaluated (calls s') = evaluated (calls s).
Proof.
  unfold log_loss. intros H. apply rbind_ok in H as (r & _ & H).
  destruct (r =? 0)%Z.
  - apply rbind_ok in H as ([i l] & _ & H). apply rbind_ok in H as (s1 & Hp & H).
    injection H as <-. apply print_loss_log_state in Hp as (line & ->).
    simpl. rewrite saved_app, evaluated_app. simpl. rewrite !app_nil_r.
    now repeat split.
  - injection H as <-. now repeat split.
Qed.

(** The checkpoint block writes one file, the parameters of the moment,
    when it is due, and nothing otherwise. *)
Lemma checkpoint_keeps (c : config) (e : Z) (v : locals) (s s' : solver) :
  checkpoint c e v s = Ok s' ->
  model_of s' = model_of s
  /\ top_1_acc s' = top_1_acc s /\ top_5_acc s' = top_5_acc s
  /\ training s' = training s
  /\ evaluated (calls s') = evaluated (calls s)
  /\ model_save_step c <> 0
  /\ if ((e + 1) mod model_save_step c =? 0)%Z
     then exists i l,
         v = Some (i, l)
         /\ saved (calls s') = (saved (calls s) ++ [(e, i)])%list
         /\ files s' = <[save_path c e i := weights s]> (files s)
     else saved (calls s') = saved (calls s) /\ files s' = files s.
Proof.
  unfold checkpoint. intros H. apply rbind_ok in H as (r & Hr & H).
  apply mod_ok in Hr as [Hstep ->].
  destruct ((e + 1) mod model_save_step c =? 0)%Z.
  - apply rbind_ok in H as ([i l] & Hv & H). injection H as <-.
    destruct v as [[i' l']|]; [|discriminate]. injection Hv as -> ->.
    simpl. rewrite saved_app, evaluated_app. simpl. rewrite !app_nil_r.
    repeat split; try assumption. exists i, l. now repeat split.
  - injection H as <-. now repeat split.
Qed.

(** The evaluation block appends one accuracy to each list when it is due
    and leaves the model in inference mode; otherwise it does nothing. *)
Lemma evaluate_on_train_keeps (c : config) (e : Z) (s s' : solver) :
  evaluate_on_train c e s = Ok s' ->
  model_of s' = model_of s /\ files s' = files s
  /\ saved (calls s') = saved (calls s)
  /\ train_eval_step c <> 0
  /\ if ((e + 1) mod train_eval_step c =? 0)%Z
     then evaluated (calls s') = (evaluated (calls s) ++ [e])%list
          /\ training s' = false
          /\ exists a1 a5 s1,
              train_evaluate c e s = Ok (a1, a5, s1)
              /\ top_1_acc s' = (top_1_acc s ++ [(e, a1)])%list
              /\ top_5_acc s' = (top_5_acc s ++ [(e, a5)])%list
     else s' = s.
Proof.
  unfold evaluate_on_train. intros H. apply rbind_ok in H as (r & Hr & H).
  apply mod_ok in Hr as [Hstep ->].
  destruct ((e + 1) mod train_eval_step c =? 0)%Z.
  - apply rbind_ok in H as ([[a1 a5] s1] & He & H). injection H as <-.
    destruct (train_evaluate_state _ _ _ _ _ _ He) as (line & ->).
    simpl. rewrite saved_app, evaluated_app. simpl. rewrite !app_nil_r.
    repeat split; try assumption.
    exists a1, a5, (print line (set_mode false s)). now repeat split.
  - injection H as <-. now repeat split.
Qed.

Lemma model_of_weights (s s' : solver) :
  model_of s' = model_of s -> weights s' = weights s.
Proof. unfold model_of. now intros [= -> _ _]. Qed.

(** One epoch that went through, on the model, the files and the two
    accuracy lists. *)
Lemma train_epoch_more (c : config) (t0 : Q) (k e : Z) (s s' : solver)
    (v v' : locals) :
  train_epoch c t0 k (s, v) e = Ok (s', v') ->
  model_of s' = pure_epoch c (model_of s)
  /\ (if ((e + 1) mod model_save_step c =? 0)%Z
      then exists i l,
          v' = Some (i, l)
          /\ saved (calls s') = (saved (calls s) ++ [(e, i)])%list
          /\ files s' = <[save_path c e i := weights s']> (files s)
      else saved (calls s') = saved (calls s) /\ files s' = files s)
  /\ (if ((e + 1) mod train_eval_step c =? 0)%Z
      then evaluated (calls s') = (evaluated (calls s) ++ [e])%list
           /\ training s' = false
           /\ exists a1 a5,
               top_1_acc s' = (top_1_acc s ++ [(e, a1)])%list
               /\ top_5_acc s' = (top_5_acc s ++ [(e, a5)])%list
      else evaluated (calls s') = evaluated (calls s)
           /\ top_1_acc s' = top_1_acc s /\ top_5_acc s' = top_5_acc s).
Proof.
  unfold train_epoch. intros H.
  destruct (train_batches_model c e (data_loader c) 0 s v)
    as (Hm0 & A1 & A5 & _ & Hs0 & He0 & _).
  destruct (train_batches_effects c e s v) as (? & _ & _ & _ & _ & Hf0 & _).
  fold (enumerate (data_loader c)) in Hm0, A1, A5, Hs0, He0.
  fold (train_batches c e (s, v)) in Hm0, A1, A5, Hs0, He0.
  destruct (train_batches c e (s, v)) as [s0 v0]. cbn [fst] in *.
  apply rbind_ok in H as (s1 & H1 & H). apply rbind_ok in H as (s2 & H2 & H).
  apply rbind_ok in H as (s3 & H3 & H). injection H as <- <-.
  apply log_loss_keeps in H1 as (Hm1 & B1 & B5 & Hf1 & _ & Hs1 & He1).
  apply checkpoint_keeps in H2 as (Hm2 & C1 & C5 & _ & He2 & _ & Hsave).
  apply evaluate_on_train_keeps in H3 as (Hm3 & Hf3 & Hs3 & _ & Heval).
  split; [|split].
  - rewrite Hm3, Hm2, Hm1. exact Hm0.
  - destruct ((e + 1) mod model_save_step c =? 0)%Z.
    + destruct Hsave as (i & l & Hv & Hsv & Hfl). exists i, l.
      split; [exact Hv|]. split.
      * now rewrite Hs3, Hsv, Hs1, Hs0.
      * rewrite Hf3, Hfl, Hf1, Hf0.
        now rewrite (model_of_weights _ _ Hm3), (model_of_weights _ _ Hm2).
    + destruct Hsave as (Hsv & Hfl). split.
      * now rewrite Hs3, Hsv, Hs1, Hs0.
      * now rewrite Hf3, Hfl, Hf1, Hf0.
  - destruct ((e + 1) mod train_eval_step c =? 0)%Z.
    + destruct Heval as (Hev & Hmode & a1 & a5 & s4 & _ & T1 & T5).
      split; [now rewrite Hev, He2, He1, He0|]. split; [exact Hmode|].
      exists a1, a5. split.
      * now rewrite T1, C1, B1, A1.
      * now rewrite T5, C5, B5, A5.
    + subst s3. split; [now rewrite He2, He1, He0|]. split.
      * now rewrite C1, B1, A1.
      * now rewrite C5, B5, A5.
Qed.

(** The loop over the epochs [es]. *)
Lemma train_epochs_more (c : config) (t0 : Q) (k : Z) (es : list Z) :
  forall (s s' : solver) (v v' : locals),
    for_each (train_epoch c t0 k) (s, v) es = Ok (s', v') ->
    model_of s' = Nat.iter (length es) (pure_epoch c) (model_of s)
    /\ map fst (saved (calls s')) = (map fst (saved (calls s)) ++ save_epochs c es)%list
    /\ evaluated (calls s') = (evaluated (calls s) ++ eval_epochs c es)%list
    /\ map fst (top_1_acc s') = (map fst (top_1_acc s) ++ eval_epochs c es)%list
    /\ map fst (top_5_acc s') = (map fst (top_5_acc s) ++ eval_epochs c es)%list
    /\ (forall p, (forall e i, p <> save_path c e i) -> files s' !! p = files s !! p).
Proof.
  induction es as [|e es IH]; intros s s' v v' H.
  - injection H as <- <-. simpl. rewrite !app_nil_r. now repeat split.
  - rewrite for_each_cons in H. apply rbind_ok in H as ([s1 v1] & H1 & H).
    apply train_epoch_more in H1 as (Hm & Hsave & Heval).
    destruct (IH _ _ _ _ H) as (IHm & IHs & IHe & IH1 & IH5 & IHf).
    split; [|split; [|split; [|split; [|split]]]].
    + rewrite IHm, Hm. simpl length. now rewrite Nat.iter_succ_r.
    + rewrite IHs. unfold save_epochs. simpl List.filter.
      destruct ((e + 1) mod model_save_step c =? 0)%Z.
      * destruct Hsave as (i & l & _ & -> & _).
        rewrite map_app. simpl. now rewrite <- app_assoc.
      * destruct Hsave as (-> & _). reflexivity.
    + rewrite IHe. unfold eval_epochs. simpl List.filter.
      destruct ((e + 1) mod train_eval_step c =? 0)%Z.
      * destruct Heval as (-> & _). now rewrite <- app_assoc.
      * destruct Heval as (-> & _). reflexivity.
    + rewrite IH1. unfold eval_epochs. simpl List.filter.
      destruct ((e + 1) mod train_eval_step c =? 0)%Z.
      * destruct Heval as (_ & _ & a1 & a5 & -> & _).
        rewrite map_app. simpl. now rewrite <- app_assoc.
      * destruct Heval as (_ & -> & _). reflexivity.
    + rewrite IH5. unfold eval_epochs. simpl List.filter.
      destruct ((e + 1) mod train_eval_step c =? 0)%Z.
      * destruct Heval as (_ & _ & a1 & a5 & _ & ->).
        rewrite map_app. simpl. now rewrite <- app_assoc.
      * destruct Heval as (_ & _ & ->). reflexivity.
    + intros p Hp. rewrite (IHf p Hp).
      destruct ((e + 1) mod model_save_step c =? 0)%Z.
      * destruct Hsave as (i & l & _ & _ & ->).
        apply lookup_insert_ne. intros Heq. now apply (Hp e i).
      * destruct Hsave as (_ & ->). reflexivity.
Qed.

Lemma range_length (a b : Z) : length (Py.range a b) = Z.to_nat (b - a).
Proof. unfold Py.range. now rewrite length_map, length_seq. Qed.

(** X6: what [train] computes: the final parameters, gradients and optimizer
    state are those of stepping on every batch, epoch after epoch; the
    loss log, the checkpoints and the evaluations have no part in them. *)
Theorem train_is_its_steps (c : config) (s s' : solver) (n : Z) :
  start_epoch c = Ok n -> train c s = Ok s' ->
  model_of s' = Nat.iter (Z.to_nat (num_epochs c - n)) (pure_epoch c) (model_of s).
Proof.
  intros Hstart H. rewrite train_unfold, Hstart in H. cbn [rbind] in H.
  apply rbind_ok in H as ([s1 v1] & H & Hret). injection Hret as <-.
  apply train_epochs_more in H as (Hm & _).
  rewrite Hm, range_length. reflexivity.
Qed.

(** X7: when each periodic block runs, for any three steps: a run that
    returns has one entry in [losses] per epoch due for the loss log, has
    saved at the epochs due for a checkpoint, and has evaluated at the
    epochs due for it, with one entry in each accuracy list per
    evaluation; entries of an earlier run are gone. *)
Theorem train_schedule (c : config) (s s' : solver) (n : Z) :
  start_epoch c = Ok n -> train c s = Ok s' ->
  map fst (losses s') = log_epochs c (Py.range n (num_epochs c))
  /\ map fst (saved (calls s')) = save_epochs c (Py.range n (num_epochs c))
  /\ evaluated (calls s') = eval_epochs c (Py.range n (num_epochs c))
  /\ map fst (top_1_acc s') = eval_epochs c (Py.range n (num_epochs c))
  /\ map fst (top_5_acc s') = eval_epochs c (Py.range n (num_epochs c)).
Proof.
  intros Hstart H.
  destruct (train_effects c s s' n Hstart H) as (_ & Hlog & Hlosses & _).
  split.
  - rewrite Hlosses, map_map. exact Hlog.
  - rewrite train_unfold, Hstart in H. cbn [rbind] in H.
    apply rbind_ok in H as ([s1 v1] & H & Hret). injection Hret as <-.
    apply train_epochs_more in H as (_ & Hs & He & H1 & H5 & _).
    now repeat split.
Qed.


End TrainWhole.

(** ** The last epoch, the accuracies, the network summary *)

Section Last.

Context `{F : Framework}.

Lemma for_each_snoc {A S : Type} (body : S -> A -> result S) (l : list A) (x : A) :
  forall s : S,
    for_each body s (l ++ [x])%list
    = rbind (for_each body s l) (fun s' => body s' x).
Proof.
  induction l as [|y l IH]; intros s; simpl.
  - now destruct (body s x).
  - destruct (body s y) as [s'|e]; simpl; [apply IH | reflexivity].
Qed.

Lemma range_snoc (a b : Z) : a < b -> Py.range a b = (Py.range a (b - 1) ++ [b - 1])%list.
Proof.
  intros H. unfold Py.range.
  replace (Z.to_nat (b - a)) with (S (Z.to_nat (b - 1 - a))) by lia.
  rewrite seq_S, map_app. simpl. do 2 f_equal. lia.
Qed.

(** X12: when the last epoch is due for a checkpoint, the file written for it
    holds the parameters the run ends with: the evaluation that may follow
    the save does not change them. *)
Theorem final_checkpoint (c : config) (s s' : solver) (n : Z) :
  start_epoch c = Ok n -> n < num_epochs c -> data_loader c <> [] ->
  num_epochs c mod model_save_step c = 0 ->
  train c s = Ok s' ->
  files s' !! save_path c (num_epochs c - 1) (Z.of_nat (length (data_loader c) - 1))
  = Some (weights s').
Proof.
  intros Hstart Hlt Hne Hdue H. rewrite train_unfold, Hstart in H.
  cbn [rbind] in H. apply rbind_ok in H as ([s2 v2] & H & Hret).
  injection Hret as <-.
  rewrite (range_snoc n (num_epochs c) Hlt), for_each_snoc in H.
  apply rbind_ok in H as ([s1 v1] & _ & H).
  pose proof (train_epoch_effects _ _ _ _ _ _ _ _ H) as (_ & _ & new & _ & _ & Hlast & _).
  destruct (Hlast Hne) as (lo & Hv & _).
  apply train_epoch_more in H as (_ & Hsave & _).
  replace (num_epochs c - 1 + 1) with (num_epochs c) in Hsave by lia.
  rewrite Hdue in Hsave. cbn in Hsave.
  destruct Hsave as (i & l & Hv' & _ & ->).
  rewrite Hv in Hv'. injection Hv' as <- _.
  apply lookup_insert_eq.
Qed.

(** X5: [eval], [test] and [train_evaluate] never change the model: whatever
    they return, the parameters, the gradients, the optimizer state and
    the files are those they were given, and the model is left in
    inference mode. *)
Theorem evaluation_keeps_the_model (c : config) (e : Z)
    (loader : list (tensor * tensor)) (s : solver) :
  match eval c loader s with
  | Ok (_, s') => model_of s' = model_of s /\ files s' = files s /\ training s' = false
  | Raise _ => True
  end
  /\ match test c s with
     | Ok s' => model_of s' = model_of s /\ files s' = files s /\ training s' = false
                /\ losses s' = losses s
     | Raise _ => True
     end
  /\ match train_evaluate c e s with
     | Ok (_, s') => model_of s' = model_of s /\ files s' = files s
                     /\ training s' = false
     | Raise _ => True
     end.
Proof.
  split; [|split].
  - rewrite eval_unfold. destruct (eval_outputs _) as [r|]; [|exact I].
    cbn [rbind]. now repeat split.
  - unfold test. rewrite eval_unfold.
    destruct (eval_outputs _) as [[[t1 t5] n]|]; [|exact I]. cbn [rbind].
    destruct (Py.truediv t1 n) as [x1|]; [|exact I]. cbn [rbind].
    destruct (Py.truediv t5 n) as [x5|]; [|exact I]. cbn [rbind].
    rewrite format_test. cbn [rbind]. now repeat split.
  - destruct (train_evaluate c e s) as [[[a1 a5] s']|] eqn:H; [|exact I].
    apply train_evaluate_state in H as (line & ->). now repeat split.
Qed.

Lemma format_count (n : Z) :
  format "The number of parameters: {}" [VInt n]
  = Ok ("The number of parameters: " ++ Py.str n).
Proof.
  unfold format.
  cbv [pieces String.append Ascii.eqb Bool.eqb andb].
  cbv [fill render rbind String.eqb Ascii.eqb Bool.eqb andb].
  rewrite append_empty_r. reflexivity.
Qed.

Lemma running_length (numels : list Z) :
  forall total, length (running total numels) = length numels.
Proof. induction numels as [|p l IH]; intros total; simpl; [|rewrite IH]; reflexivity. Qed.

Lemma running_last (numels : list Z) :
  forall total d, numels <> [] ->
    List.last (running total numels) d = total + fold_right Z.add 0 numels.
Proof.
  induction numels as [|p l IH]; intros total d Hne; [congruence|].
  destruct l as [|q l].
  - simpl. lia.
  - change (running total (p :: q :: l))
      with ((total + p) :: running (total + p) (q :: l)).
    change (List.last ((total + p) :: running (total + p) (q :: l)) d)
      with (List.last (running (total + p) (q :: l)) d).
    rewrite IH by discriminate. simpl. lia.
Qed.

Lemma print_parameters (model_repr name : string) (numels : list Z) :
  forall (total : Z) (s : solver),
    exists s',
      for_each (print_parameter model_repr name) (total, s) numels
      = Ok (total + fold_right Z.add 0 numels, s')
      /\ stdout s'
         = (stdout s
            ++ flat_map
                 (fun t => [name; model_repr;
                            ("The number of parameters: " ++ Py.str t)%string])
                 (running total numels))%list
      /\ model_of s' = model_of s /\ files s' = files s.
Proof.
  induction numels as [|p numels IH]; intros total s.
  - exists s. simpl. rewrite app_nil_r, Z.add_0_r. now repeat split.
  - rewrite for_each_cons. unfold print_parameter at 1. cbn [fst snd].
    rewrite format_count. cbn [rbind].
    destruct (IH (total + p)
                (print ("The number of parameters: " ++ Py.str (total + p))
                   (print model_repr (print name s))))
      as (s' & Hrun & Hout & Hm & Hf).
    exists s'. split; [|split; [|split]].
    + rewrite Hrun. simpl. do 2 f_equal. lia.
    + rewrite Hout. cbn [stdout print running flat_map].
      now rewrite <- !app_assoc.
    + exact Hm.
    + exact Hf.
Qed.

(** X19: [print_network] prints inside its loop: for each parameter tensor,
    the name, the model and the count so far, three prints per tensor and
    none for a model without parameters; the last count printed is the
    total.  It changes nothing but the console. *)
Theorem print_network_prints (numels : list Z) (model_repr name : string)
    (s : solver) :
  exists s',
    print_network numels model_repr name s = Ok s'
    /\ stdout s'
       = (stdout s
          ++ flat_map
               (fun t => [name; model_repr;
                          ("The number of parameters: " ++ Py.str t)%string])
               (running 0 numels))%list
    /\ length (stdout s') = (length (stdout s) + 3 * length numels)%nat
    /\ (numels <> [] ->
        List.last (running 0 numels) 0 = fold_right Z.add 0 numels)
    /\ model_of s' = model_of s /\ files s' = files s.
Proof.
  destruct (print_parameters model_repr name numels 0 s)
    as (s' & Hrun & Hout & Hm & Hf).
  exists s'. unfold print_network. rewrite Hrun. cbn [rbind snd].
  split; [reflexivity|]. split; [exact Hout|].
  split; [|split; [|split]]; try assumption.
  - rewrite Hout, length_app. f_equal.
    rewrite <- (running_length numels 0).
    generalize (running 0 numels). intros l.
    induction l as [|t l IH]; [reflexivity|].
    cbn [flat_map app length]. lia.
  - intros Hne. now rewrite running_last.
Qed.

End Last.

(** ** The further properties on small runs *)

Lemma toy_evaluable (c : config) :
  data_loader c = Toy.loader -> evaluable c.
Proof.
  intros H. unfold evaluable. rewrite H. split.
  - intros w. repeat constructor; simpl; lia.
  - constructor. simpl. discriminate.
Qed.

Lemma toy_runs (c : config) (s : solver) :
  data_loader c = Toy.loader -> pretrained_model c = None ->
  loss_log_step c <> 0 -> model_save_step c <> 0 -> train_eval_step c <> 0 ->
  exists s', train c s = Ok s'.
Proof.
  intros Hl Hp H1 H2 H3. apply (train_total c s 0).
  - repeat split; try assumption; now apply toy_evaluable.
  - now apply start_epoch_fresh.
  - lia.
Qed.


(** X4 on a small run. *)
Lemma evaluation_of_nothing_witness :
  data_loader (Toy.unloaded 3 1 1 1) = []
  /\ test (Toy.unloaded 3 1 1 1) (Toy.fresh 0) = Raise AttributeError.
Proof.
  split; [reflexivity|].
  exact (proj1 (evaluation_of_nothing (Toy.unloaded 3 1 1 1) 0 (Toy.fresh 0) eq_refl)).
Defined.

(** X9 on a small run. *)
Lemma train_over_nothing_witness :
  data_loader (Toy.unloaded 3 1 1 1) = []
  /\ start_epoch (Toy.unloaded 3 1 1 1) = Ok 0
  /\ train (Toy.unloaded 3 1 1 1) (Toy.fresh 0) = Raise UnboundLocalError.
Proof.
  split; [reflexivity|]. split; [reflexivity|].
  apply (proj2 (train_over_nothing (Toy.unloaded 3 1 1 1) (Toy.fresh 0) 0
                  eq_refl eq_refl)); [reflexivity | discriminate | reflexivity].
Defined.

(** X10 on a small run. *)
Lemma train_needs_nonzero_steps_witness :
  start_epoch (Toy.setup 3 0 1 1 None) = Ok 0
  /\ 0 < num_epochs (Toy.setup 3 0 1 1 None)
  /\ train (Toy.setup 3 0 1 1 None) (Toy.fresh 0) = Raise ZeroDivisionError.
Proof.
  split; [reflexivity|]. split; [reflexivity|].
  apply (proj2 (train_needs_nonzero_steps (Toy.setup 3 0 1 1 None) (Toy.fresh 0) 0
                  eq_refl eq_refl)).
  reflexivity.
Defined.

(** X16 on a small run. *)
Lemma resume_starts_at_version_witness :
  version (Toy.named "7" "models") = Py.str 7
  /\ start_epoch (resuming (Toy.named "7" "models") 119 39) = Ok 7.
Proof.
  split; [reflexivity|].
  exact (resume_starts_at_version (Toy.named "7" "models") 119 39 7 eq_refl).
Defined.

(** X14 on a small run. *)
Lemma load_after_two_saves_witness :
  files (save_model (Toy.named "vgg" "models") 0 1 (Toy.fresh 5))
  = files (save_model (Toy.named "vgg" "models") 0 1 (Toy.fresh 5))
  /\ exists s',
      load_pretrained_model (Toy.named "vgg" "models")
        (checkpoint_id (Toy.named "vgg" "models") 0 1)
        (save_model (Toy.named "vgg" "models") 1 1
           (save_model (Toy.named "vgg" "models") 0 1 (Toy.fresh 5)))
      = Ok s'
      /\ weights s' = 5.
Proof.
  split; [reflexivity|].
  destruct (load_after_two_saves (Toy.named "vgg" "models") 0 1 1 1 (Toy.fresh 5)
              (save_model (Toy.named "vgg" "models") 0 1 (Toy.fresh 5)) eq_refl)
    as (s' & Hload & Hw).
  exists s'. split; [exact Hload | exact Hw].
Defined.

(** X6 on a small run. *)
Lemma train_is_its_steps_witness :
  start_epoch (Toy.setup 2 1 1 1 None) = Ok 0
  /\ exists s',
      train (Toy.setup 2 1 1 1 None) (Toy.fresh 1) = Ok s'
      /\ model_of s'
         = Nat.iter 2 (pure_epoch (Toy.setup 2 1 1 1 None)) (model_of (Toy.fresh 1)).
Proof.
  split; [reflexivity|].
  destruct (toy_runs (Toy.setup 2 1 1 1 None) (Toy.fresh 1) eq_refl eq_refl) as [s' H];
    [discriminate | discriminate | discriminate |].
  exists s'. split; [exact H|].
  exact (train_is_its_steps (Toy.setup 2 1 1 1 None) (Toy.fresh 1) s' 0 eq_refl H).
Defined.

(** X7 on a small run. *)
Lemma train_schedule_witness :
  start_epoch (Toy.setup 6 2 3 4 None) = Ok 0
  /\ exists s',
      train (Toy.setup 6 2 3 4 None) (Toy.fresh 0) = Ok s'
      /\ map fst (losses s') = [1; 3; 5]
      /\ map fst (saved (calls s')) = [2; 5]
      /\ map fst (top_1_acc s') = [3].
Proof.
  split; [reflexivity|].
  destruct (toy_runs (Toy.setup 6 2 3 4 None) (Toy.fresh 0) eq_refl eq_refl) as [s' H];
    [discriminate | discriminate | discriminate |].
  exists s'. split; [exact H|].
  destruct (train_schedule (Toy.setup 6 2 3 4 None) (Toy.fresh 0) s' 0 eq_refl H)
    as (Hl & Hs & _ & H1 & _).
  rewrite Hl, Hs, H1. repeat split.
Defined.


(** X12 on a small run. *)
Lemma final_checkpoint_witness :
  start_epoch (Toy.setup 4 1 2 1 None) = Ok 0
  /\ 0 < num_epochs (Toy.setup 4 1 2 1 None)
  /\ data_loader (Toy.setup 4 1 2 1 None) <> []
  /\ num_epochs (Toy.setup 4 1 2 1 None) mod model_save_step (Toy.setup 4 1 2 1 None) = 0
  /\ exists s',
      train (Toy.setup 4 1 2 1 None) (Toy.fresh 1) = Ok s'
      /\ files s' !! "models/vgg_4_2.pth" = Some (weights s').
Proof.
  assert (Hne : data_loader (Toy.setup 4 1 2 1 None) <> []) by discriminate.
  split; [reflexivity|]. split; [reflexivity|]. split; [exact Hne|].
  split; [reflexivity|].
  destruct (toy_runs (Toy.setup 4 1 2 1 None) (Toy.fresh 1) eq_refl eq_refl) as [s' H];
    [discriminate | discriminate | discriminate |].
  exists s'. split; [exact H|].
  exact (final_checkpoint (Toy.setup 4 1 2 1 None) (Toy.fresh 1) s' 0
           eq_refl eq_refl Hne eq_refl H).
Defined.

(** ** Resuming what cannot be resumed; what the loss log holds *)

Section ResumeMore.

Context `{F : Framework}.

(** X17: a run whose version does not start with an integer cannot be resumed
    from its own checkpoints: [train] raises [ValueError] at once,
    whichever checkpoint is named. *)
Theorem resume_needs_numeric_version (c : config) (e i : Z) (s : solver) :
  Py.int (Py.first_token "_" (version c)) = Raise ValueError ->
  train (resuming c e i) s = Raise ValueError.
Proof.
  intros H. apply train_bad_name. now rewrite resuming_start.
Qed.

(** X18: naming a checkpoint that was never written fails at construction with
    [FileNotFoundError], even when another checkpoint of the same run is
    there. *)
Theorem init_without_the_file (c : config) (e i e' i' : Z) (s : solver) :
  files s = ∅ -> (e, i) <> (e', i') ->
  init (resuming c e i) (save_model c e' i' s) = Raise FileNotFoundError.
Proof.
  intros Hempty Hne. unfold init. cbn [pretrained_model resuming].
  rewrite checkpoint_id_truthy. apply load_missing_file.
  change (load_path (resuming c e i) (checkpoint_id c e i))
    with (load_path c (checkpoint_id c e i)).
  rewrite load_path_of_saved. unfold save_model. cbn [files set_files].
  rewrite Hempty, lookup_insert_ne; [apply lookup_empty|].
  intros H. apply checkpoint_files_name in H as [-> ->]. now apply Hne.
Qed.

(** X8: for any configuration, each pair in [losses] after a run carries the
    loss that [model_step] returned on the last batch of its epoch: the
    losses of the other batches are not kept. *)
Theorem losses_are_final_batch_losses (c : config) (s s' : solver) (e : Z)
    (l : loss) :
  train c s = Ok s' -> In (e, l) (losses s') ->
  data_loader c <> []
  /\ In (ModelStep e (Z.of_nat (length (data_loader c) - 1)) l) (calls s').
Proof.
  intros H Hin.
  destruct (start_epoch c) as [n|err] eqn:Hstart;
    [|rewrite (train_bad_name c s err Hstart) in H; discriminate].
  destruct (train_effects c s s' n Hstart H) as (_ & _ & Hlosses & Hfinal).
  rewrite Hlosses in Hin. apply in_map_iff in Hin as ([[e0 i0] l0] & Heq & Hin).
  cbn [fst snd] in Heq. injection Heq as -> ->.
  rewrite List.Forall_forall in Hfinal.
  destruct (Hfinal _ Hin) as (Hne & Hi & Hstep). cbn [fst snd] in Hi, Hstep.
  split; [exact Hne|]. now rewrite <- Hi.
Qed.

End ResumeMore.

(** X17 on a small run. *)
Lemma resume_needs_numeric_version_witness :
  Py.int (Py.first_token "_" (version (Toy.named "vgg" "models"))) = Raise ValueError
  /\ train (resuming (Toy.named "vgg" "models") 2 1) (Toy.fresh 0) = Raise ValueError.
Proof.
  split; [reflexivity|].
  exact (resume_needs_numeric_version (Toy.named "vgg" "models") 2 1 (Toy.fresh 0)
           eq_refl).
Defined.

(** X18 on a small run. *)
Lemma init_without_the_file_witness :
  files (Toy.fresh 0) = ∅
  /\ (2, 1) <> (5, 1)
  /\ init (resuming (Toy.named "vgg" "models") 2 1)
       (save_model (Toy.named "vgg" "models") 5 1 (Toy.fresh 0))
     = Raise FileNotFoundError.
Proof.
  assert (Hne : (2, 1) <> (5, 1)) by discriminate.
  split; [reflexivity|]. split; [exact Hne|].
  exact (init_without_the_file (Toy.named "vgg" "models") 2 1 5 1 (Toy.fresh 0)
           eq_refl Hne).
Defined.

(** X8 on a small run. *)
Lemma losses_are_final_batch_losses_witness :
  exists s' l,
    train (Toy.setup 2 1 1 1 None) (Toy.fresh 1) = Ok s'
    /\ In (0, l) (losses s')
    /\ In (ModelStep 0 1 l) (calls s').
Proof.
  destruct (toy_runs (Toy.setup 2 1 1 1 None) (Toy.fresh 1) eq_refl eq_refl)
    as [s' H]; [discriminate | discriminate | discriminate |].
  assert (Hin : exists l, In (0, l) (losses s')).
  { destruct (train_effects (Toy.setup 2 1 1 1 None) (Toy.fresh 1) s' 0 eq_refl H)
      as (_ & Hlog & Hl & _).
    assert (Hep : log_epochs (Toy.setup 2 1 1 1 None)
                    (Py.range 0 (num_epochs (Toy.setup 2 1 1 1 None))) = [0; 1])
      by reflexivity.
    rewrite Hep in Hlog. rewrite Hl.
    destruct (logged (calls s')) as [|[[e i] l] rest]; [discriminate Hlog|].
    injection Hlog as -> _. exists l. now left. }
  destruct Hin as [l Hin].
  exists s', l. split; [exact H|]. split; [exact Hin|].
  exact (proj2 (losses_are_final_batch_losses (Toy.setup 2 1 1 1 None) (Toy.fresh 1)
                  s' 0 l H Hin)).
Defined.

(** * The evaluator, whatever [torch.topk] does with equal scores *)

(** ** Selection *)

Section Selection.

(** [argmax_from] returns one of its candidates, and none scores more. *)
Lemma argmax_from_spec (row : list Z) (cands : list nat) :
  forall best : nat,
    In (Torch.argmax_from row best cands) (best :: cands)
    /\ forall j, In j (best :: cands) ->
         Torch.entry row j <= Torch.entry row (Torch.argmax_from row best cands).
Proof.
  induction cands as [|c cs IH]; intros best.
  - simpl. split; [now left|]. intros j [<-|[]]. lia.
  - cbn [Torch.argmax_from].
    destruct (Z.ltb_spec (Torch.entry row best) (Torch.entry row c)) as [Hlt|Hge].
    + destruct (IH c) as [Hin Hmax]. split.
      * now right.
      * intros j [<-|Hj]; [|now apply Hmax].
        specialize (Hmax c (or_introl eq_refl)). lia.
    + destruct (IH best) as [Hin Hmax]. split.
      * destruct Hin as [<-|Hin]; [now left | now right; right].
      * intros j [<-|[<-|Hj]].
        -- apply Hmax. now left.
        -- specialize (Hmax best (or_introl eq_refl)). lia.
        -- apply Hmax. now right.
Qed.

(** The best class of a row is a class, and no class scores more. *)
Lemma top_1_index_max (out : scores) (row : list Z) :
  (0 < ncols out)%nat ->
  (top_1_index out row < ncols out)%nat
  /\ forall j, (j < ncols out)%nat ->
       Torch.entry row j <= Torch.entry row (top_1_index out row).
Proof.
  intros Hc. unfold top_1_index.
  destruct (argmax_from_spec row (seq 1 (ncols out - 1)) 0%nat) as [Hin Hmax].
  split.
  - destruct Hin as [<-|Hin]; [exact Hc|]. apply in_seq in Hin. lia.
  - intros j Hj. apply Hmax. destruct j as [|j]; [now left|].
    right. apply in_seq. lia.
Qed.

Lemma in_remove_iff (b x : nat) (l : list nat) :
  In x (remove Nat.eq_dec b l) <-> In x l /\ x <> b.
Proof.
  split; [apply in_remove | intros [H1 H2]; now apply in_in_remove].
Qed.

Lemma NoDup_remove_nat (b : nat) (l : list nat) :
  List.NoDup l -> List.NoDup (remove Nat.eq_dec b l).
Proof.
  induction 1 as [|x l Hx Hl IH]; simpl; [constructor|].
  destruct (Nat.eq_dec b x); [exact IH|].
  constructor; [|exact IH]. rewrite in_remove_iff. tauto.
Qed.

Lemma length_remove_nat (b : nat) (l : list nat) :
  List.NoDup l -> In b l -> S (length (remove Nat.eq_dec b l)) = length l.
Proof.
  induction 1 as [|x l Hx Hl IH]; simpl; [tauto|].
  intros Hin. destruct (Nat.eq_dec b x) as [->|Hne].
  - rewrite notin_remove by exact Hx. reflexivity.
  - destruct Hin as [->|Hin]; [congruence|]. simpl. now rewrite IH.
Qed.

(** Selection returns [k] distinct candidates, none of which scores less
    than a candidate left out, in whatever order the candidates come. *)
Lemma select_spec (row : list Z) (k : nat) :
  forall cands : list nat,
    List.NoDup cands -> (k <= length cands)%nat ->
    length (Torch.select row k cands) = k
    /\ List.NoDup (Torch.select row k cands)
    /\ (forall j, In j (Torch.select row k cands) -> In j cands)
    /\ (forall j j', In j (Torch.select row k cands) -> In j' cands ->
          ~ In j' (Torch.select row k cands) ->
          Torch.entry row j' <= Torch.entry row j).
Proof.
  induction k as [|k IH]; intros cands Hnd Hlen.
  - simpl. repeat split; [constructor | tauto | tauto].
  - destruct cands as [|c cs]; [simpl in Hlen; lia|].
    cbn [Torch.select].
    destruct (argmax_from_spec row cs c) as [Hin Hmax].
    set (b := Torch.argmax_from row c cs) in *.
    assert (Hnd' : List.NoDup (remove Nat.eq_dec b (c :: cs)))
      by now apply NoDup_remove_nat.
    assert (Hlen' : (k <= length (remove Nat.eq_dec b (c :: cs)))%nat).
    { pose proof (length_remove_nat b (c :: cs) Hnd Hin). simpl in *. lia. }
    destruct (IH _ Hnd' Hlen') as (Hl & Hn & Hsub & Hbest).
    split; [|split; [|split]].
    + cbn [length]. f_equal. exact Hl.
    + constructor; [|exact Hn].
      intros Hb. apply Hsub in Hb. apply in_remove_iff in Hb. tauto.
    + intros j [<-|Hj]; [exact Hin|].
      apply Hsub in Hj. apply in_remove_iff in Hj. tauto.
    + intros j j' [<-|Hj] Hj' Hout.
      * now apply Hmax.
      * apply Hbest; [exact Hj| |].
        -- apply in_remove_iff. split; [exact Hj'|].
           intros ->. apply Hout. now left.
        -- intros H. apply Hout. now right.
Qed.

(** Both orders of taking equal scores are within the documentation. *)
Lemma select_is_topk (out : scores) (k : nat) (row : list Z) (cands : list nat) :
  List.NoDup cands -> (forall j, In j cands <-> (j < ncols out)%nat) ->
  (k <= ncols out)%nat -> length cands = ncols out ->
  is_topk out k row (Torch.select row k cands).
Proof.
  intros Hnd Hall Hk Hlen.
  destruct (select_spec row k cands Hnd) as (Hl & Hn & Hsub & Hbest); [lia|].
  split; [exact Hl|]. split; [exact Hn|]. split.
  - intros j Hj. apply Hall. now apply Hsub.
  - intros j j' Hj Hj' Hout. apply Hbest; [exact Hj | now apply Hall | exact Hout].
Qed.

Lemma topk_dim1_contract : topk_contract Torch.topk_dim1.
Proof.
  intros out k idxs H. unfold Torch.topk_dim1 in H.
  destruct (Nat.ltb_spec (ncols out) k) as [|Hk]; [discriminate|].
  injection H as <-.
  induction (rows out) as [|row rs IH]; simpl; constructor; [|exact IH].
  apply select_is_topk; [apply seq_NoDup | | exact Hk | apply length_seq].
  intros j. rewrite in_seq. lia.
Qed.

Lemma topk_rightmost_contract : topk_contract topk_rightmost.
Proof.
  intros out k idxs H. unfold topk_rightmost in H.
  destruct (Nat.ltb_spec (ncols out) k) as [|Hk]; [discriminate|].
  injection H as <-.
  induction (rows out) as [|row rs IH]; simpl; constructor; [|exact IH].
  apply select_is_topk; [ | | exact Hk | ].
  - apply NoDup_rev, seq_NoDup.
  - intros j. rewrite <- in_rev, in_seq. lia.
  - now rewrite length_rev, length_seq.
Qed.

(** Unless six scores of the row are equal to its maximum, any five
    columns that [torch.topk] may return hold the best class. *)
Lemma top_1_in_any_top_5 (out : scores) (row : list Z) (idx : list nat) :
  (0 < ncols out)%nat -> is_topk out 5 row idx ->
  (length (maximal_columns out row) <= 5)%nat ->
  In (top_1_index out row) idx.
Proof.
  intros Hc (Hlen & Hnd & Hcols & Hbest) Hties.
  destruct (top_1_index_max out row Hc) as [Hlt Hmax].
  destruct (in_dec Nat.eq_dec (top_1_index out row) idx) as [Hin|Hout];
    [exact Hin | exfalso].
  assert (Hincl : incl (top_1_index out row :: idx) (maximal_columns out row)).
  { intros j Hj. unfold maximal_columns. apply filter_In. split.
    - apply in_seq. destruct Hj as [<-|Hj]; [lia | specialize (Hcols j Hj); lia].
    - apply Z.eqb_eq. destruct Hj as [<-|Hj]; [reflexivity|].
      specialize (Hbest j _ Hj Hlt Hout). specialize (Hmax j (Hcols j Hj)). lia. }
  assert (Hnd' : List.NoDup (top_1_index out row :: idx)) by now constructor.
  pose proof (NoDup_incl_length Hnd' Hincl) as Hle. simpl in Hle. lia.
Qed.

End Selection.

(** ** The loop of [eval] over any [torch.topk] *)

Section EvaluatorAnyOrder.

Lemma eval_batch_with_topk_dim1 (t : tally) (out : scores) (labels : list Z) :
  eval_batch_with Torch.topk_dim1 t out labels = eval_batch t out labels.
Proof. reflexivity. Qed.

Lemma eval_outputs_with_topk_dim1 (batches : list (scores * list Z)) :
  eval_outputs_with Torch.topk_dim1 batches = eval_outputs batches.
Proof. reflexivity. Qed.

(** A batch that went through: the four steps of the loop body. *)
Lemma eval_batch_with_inv (topk : topk_function) (t t' : tally) (out : scores)
    (labels : list Z) :
  eval_batch_with topk t out labels = Ok t' ->
  (0 < ncols out)%nat
  /\ exists hits idxs top_5',
      Torch.sum_eq labels (map (top_1_index out) (rows out)) = Ok hits
      /\ topk out 5%nat = Ok idxs
      /\ top_5_loop idxs 0 labels (top_5_correct t) = Ok top_5'
      /\ t' = {| top_1_correct := counter_add (top_1_correct t) hits;
                 top_5_correct := top_5';
                 total := total t + Z.of_nat (length labels) |}.
Proof.
  unfold eval_batch_with. intros H.
  apply rbind_ok in H as (top_1 & Hmax & H).
  apply rbind_ok in H as (hits & Hsum & H).
  apply rbind_ok in H as (idxs & Htop & H).
  apply rbind_ok in H as (t5 & Hloop & H). injection H as <-.
  assert (Hc : (0 < ncols out)%nat).
  { destruct (ncols out) eqn:E; [|lia].
    unfold Torch.max_dim1 in Hmax. rewrite E in Hmax. discriminate. }
  rewrite max_dim1_ok in Hmax by exact Hc. injection Hmax as <-.
  split; [exact Hc|]. exists hits, idxs, t5. now repeat split.
Qed.

(** The loop over the labels adds at most one per label, whatever rows
    of indices it reads. *)
Lemma top_5_loop_bounds (labels : list Z) :
  forall (top_5 : list (list nat)) (i : nat) (acc acc' : Z),
    top_5_loop top_5 i labels acc = Ok acc' ->
    acc <= acc' <= acc + Z.of_nat (length labels).
Proof.
  induction labels as [|label labels IH]; intros top_5 i acc acc' H.
  - injection H as <-. simpl. lia.
  - simpl in H. destruct (top_5 !! i) as [row|]; [|discriminate].
    apply IH in H. cbn [length]. destruct (Torch.contains row label); lia.
Qed.

Lemma count_true_nonneg (l : list bool) : 0 <= Torch.count_true l.
Proof. apply count_true_bounds. Qed.

Lemma ok_inj {A : Type} (a b : A) : Ok a = Ok b -> a = b.
Proof. now intros [= ->]. Qed.

Lemma sum_eq_nonneg (labels : list Z) (top_1 : list nat) (hits : Z) :
  Torch.sum_eq labels top_1 = Ok hits -> 0 <= hits.
Proof.
  unfold Torch.sum_eq. intros H.
  destruct (length labels =? length top_1)%nat.
  - apply ok_inj in H as <-. apply count_true_nonneg.
  - destruct labels as [|? [|? ?]], top_1 as [|? [|? ?]];
      try discriminate; apply ok_inj in H as <-; apply count_true_nonneg.
Qed.

Lemma hits_1_le_labels (out : scores) (labels : list Z) :
  hits_1 out labels <= Z.of_nat (length labels).
Proof.
  unfold hits_1.
  pose proof (count_true_bounds
                (zip_with (fun label row => Torch.same_class label (top_1_index out row))
                   labels (rows out))) as [_ H].
  rewrite length_zip_with in H. lia.
Qed.

Lemma counter_value_add (c : counter) (n : Z) :
  counter_value (counter_add c n) = counter_value c + n.
Proof. now destruct c. Qed.

Lemma item_value (c : counter) (n : Z) : item c = Ok n -> counter_value c = n.
Proof. destruct c; simpl; [discriminate | now intros [= ->]]. Qed.

(** Two counts over the same labels, the second over rows related to
    those of the first. *)
Lemma count_true_related {A B C : Type} (f : A -> B -> bool) (g : A -> C -> bool)
    (P : B -> Prop) (R : B -> C -> Prop) :
  (forall a b c, P b -> R b c -> f a b = true -> g a c = true) ->
  forall lb lc, Forall2 R lb lc -> Forall P lb ->
    forall la, Torch.count_true (zip_with f la lb) <= Torch.count_true (zip_with g la lc).
Proof.
  intros H lb lc HR.
  induction HR as [|b c lb lc Hbc HR IH]; intros HP la.
  - destruct la; simpl; lia.
  - inversion HP as [|? ? Hb Hlb]; subst.
    destruct la as [|a la]; [simpl; lia|].
    simpl. specialize (IH Hlb la). specialize (H a b c Hb Hbc).
    destruct (f a b), (g a c); try lia; specialize (H eq_refl); discriminate.
Qed.

(** A label that is the best class of its row is among any five columns
    that [torch.topk] may return for it. *)
Lemma best_class_found (out : scores) (label : Z) (row : list Z) (idx : list nat) :
  (0 < ncols out)%nat ->
  (length (maximal_columns out row) <= 5)%nat -> is_topk out 5 row idx ->
  Torch.same_class label (top_1_index out row) = true ->
  Torch.contains idx label = true.
Proof.
  intros Hc Hties Htop Hsame. unfold Torch.contains.
  apply existsb_exists. exists (top_1_index out row).
  split; [|exact Hsame]. now apply top_1_in_any_top_5.
Qed.

(** One batch with a label per row and few ties: what it adds to the
    top-1 count, it adds to the top-5 count. *)
Lemma eval_batch_with_order (topk : topk_function) (t t' : tally) (out : scores)
    (labels : list Z) :
  topk_contract topk -> paired (out, labels) -> few_ties (out, labels) ->
  eval_batch_with topk t out labels = Ok t' ->
  counter_value (top_1_correct t') - counter_value (top_1_correct t)
  <= top_5_correct t' - top_5_correct t.
Proof.
  intros Hk Hp Hties H. unfold paired, few_ties in *. cbn [fst snd] in *.
  apply eval_batch_with_inv in H as (Hc & hits & idxs & t5 & Hsum & Htop & Hloop & ->).
  rewrite sum_eq_paired in Hsum by exact Hp. injection Hsum as <-.
  apply Hk in Htop.
  pose proof (Forall2_length _ _ _ Htop) as Hlen.
  pose proof (top_5_loop_exact labels [] idxs (top_5_correct t)) as E.
  cbn [app length] in E. rewrite E in Hloop by lia. injection Hloop as <-.
  cbn [top_1_correct top_5_correct]. rewrite counter_value_add.
  assert (Hle : hits_1 out labels
                <= Torch.count_true
                     (zip_with (fun label row => Torch.contains row label) labels idxs)).
  { unfold hits_1.
    apply (count_true_related
             (fun label row => Torch.same_class label (top_1_index out row))
             (fun label idx => Torch.contains idx label)
             (fun row => (length (maximal_columns out row) <= 5)%nat)
             (is_topk out 5)); [|exact Htop | exact Hties].
    intros label row idx Hrow Hidx. now apply best_class_found. }
  lia.
Qed.

Lemma eval_loop_with_order (topk : topk_function) (batches : list (scores * list Z)) :
  topk_contract topk -> Forall paired batches -> Forall few_ties batches ->
  forall t t' : tally,
    eval_loop_with topk t batches = Ok t' ->
    counter_value (top_1_correct t') - counter_value (top_1_correct t)
    <= top_5_correct t' - top_5_correct t.
Proof.
  intros Hk Hp. induction Hp as [|[out labels] bs Hb Hbs IH]; intros Hties t t' H.
  - injection H as <-. lia.
  - inversion Hties as [|? ? Hb' Hbs']; subst.
    unfold eval_loop_with in *. rewrite for_each_cons in H.
    apply rbind_ok in H as (t1 & H1 & H2). cbn [fst snd] in H1.
    pose proof (eval_batch_with_order topk t t1 out labels Hk Hb Hb' H1).
    specialize (IH Hbs' t1 t' H2). lia.
Qed.

(** Any batch that went through: the counts grow, by no more than the
    number of labels. *)
Lemma eval_batch_with_bounds (topk : topk_function) (t t' : tally) (out : scores)
    (labels : list Z) :
  eval_batch_with topk t out labels = Ok t' ->
  counter_value (top_1_correct t) <= counter_value (top_1_correct t')
  /\ top_5_correct t <= top_5_correct t'
  /\ top_5_correct t' - top_5_correct t <= total t' - total t
  /\ (paired (out, labels) ->
      counter_value (top_1_correct t') - counter_value (top_1_correct t)
      <= total t' - total t).
Proof.
  intros H.
  apply eval_batch_with_inv in H as (Hc & hits & idxs & t5 & Hsum & Htop & Hloop & ->).
  cbn [top_1_correct top_5_correct total]. rewrite counter_value_add.
  pose proof (sum_eq_nonneg _ _ _ Hsum) as Hpos.
  pose proof (top_5_loop_bounds _ _ _ _ _ Hloop) as Hb.
  repeat split; try lia.
  intros Hp. unfold paired in Hp. cbn [fst snd] in Hp.
  rewrite sum_eq_paired in Hsum by exact Hp. injection Hsum as <-.
  pose proof (hits_1_le_labels out labels). lia.
Qed.

Lemma eval_loop_with_bounds (topk : topk_function) (batches : list (scores * list Z)) :
  forall t t' : tally,
    eval_loop_with topk t batches = Ok t' ->
    counter_value (top_1_correct t) <= counter_value (top_1_correct t')
    /\ top_5_correct t <= top_5_correct t'
    /\ top_5_correct t' - top_5_correct t <= total t' - total t
    /\ (Forall paired batches ->
        counter_value (top_1_correct t') - counter_value (top_1_correct t)
        <= total t' - total t).
Proof.
  induction batches as [|[out labels] bs IH]; intros t t' H.
  - injection H as <-. repeat split; lia.
  - unfold eval_loop_with in *. rewrite for_each_cons in H.
    apply rbind_ok in H as (t1 & H1 & H2). cbn [fst snd] in H1.
    apply eval_batch_with_bounds in H1 as (A1 & A2 & A3 & A4).
    apply IH in H2 as (B1 & B2 & B3 & B4).
    repeat split; try lia.
    intros Hp. inversion Hp as [|? ? Hb Hbs]; subst.
    specialize (A4 Hb). specialize (B4 Hbs). lia.
Qed.

End EvaluatorAnyOrder.

Section EvalAnyOrder.

Context `{F : Framework}.

Lemma eval_with_unfold (topk : topk_function) (c : config)
    (loader : list (tensor * tensor)) (s : solver) :
  eval_with topk c loader s
  = rbind (eval_outputs_with topk (map (seen c (weights s)) loader))
          (fun r => Ok (r, set_mode false s)).
Proof. reflexivity. Qed.

(** [eval] and [train_evaluate] are the instances at [Torch.topk_dim1]. *)
Lemma eval_with_topk_dim1 (c : config) (loader : list (tensor * tensor)) (s : solver) :
  eval_with Torch.topk_dim1 c loader s = eval c loader s.
Proof. reflexivity. Qed.

Lemma train_evaluate_with_topk_dim1 (c : config) (e : Z) (s : solver) :
  train_evaluate_with Torch.topk_dim1 c e s = train_evaluate c e s.
Proof. reflexivity. Qed.

(** What [eval] returns is what its loop counted. *)
Lemma eval_with_inv (topk : topk_function) (c : config)
    (loader : list (tensor * tensor)) (s s' : solver) (top_1 top_5 n : Z) :
  eval_with topk c loader s = Ok (top_1, top_5, n, s') ->
  exists t,
    eval_loop_with topk {| top_1_correct := PyInt 0; top_5_correct := 0; total := 0 |}
      (map (seen c (weights s)) loader) = Ok t
    /\ counter_value (top_1_correct t) = top_1
    /\ top_5_correct t = top_5 /\ total t = n.
Proof.
  intros H. rewrite eval_with_unfold in H.
  apply rbind_ok in H as ([[t1 t5] m] & Hout & Hret).
  injection Hret as -> -> -> <-.
  unfold eval_outputs_with in Hout.
  apply rbind_ok in Hout as (t & Hloop & Hret).
  apply rbind_ok in Hret as (k & Hitem & Hret). injection Hret as <- <- <-.
  exists t. split; [exact Hloop|]. split; [now apply item_value | now split].
Qed.

(** The order of the two counts, for any [torch.topk] within its
    documentation. *)
Lemma eval_with_order (topk : topk_function) (c : config)
    (loader : list (tensor * tensor)) (s s' : solver) (top_1 top_5 n : Z) :
  topk_contract topk ->
  Forall paired (map (seen c (weights s)) loader) ->
  Forall few_ties (map (seen c (weights s)) loader) ->
  eval_with topk c loader s = Ok (top_1, top_5, n, s') ->
  top_1 <= top_5.
Proof.
  intros Hk Hp Hties H.
  apply eval_with_inv in H as (t & Hloop & <- & <- & _).
  pose proof (eval_loop_with_order topk _ Hk Hp Hties _ _ Hloop) as Hle.
  cbn [top_1_correct top_5_correct counter_value] in Hle. lia.
Qed.

(** In particular for [eval] as it is modelled above, equal scores being
    taken left to right. *)
Corollary eval_order (c : config) (loader : list (tensor * tensor))
    (s s' : solver) (top_1 top_5 n : Z) :
  Forall paired (map (seen c (weights s)) loader) ->
  Forall few_ties (map (seen c (weights s)) loader) ->
  eval c loader s = Ok (top_1, top_5, n, s') ->
  top_1 <= top_5.
Proof. apply (eval_with_order Torch.topk_dim1), topk_dim1_contract. Qed.

(** C2, as the code has it: whatever [torch.topk] does with equal scores
    within its documentation, whenever [eval] returns its counts over
    batches that have one label per output row and no row with more than
    five scores equal to its maximum, the top-5 count is at least the
    top-1 count. *)
Theorem top_5_at_least_top_1 (topk : topk_function) (c : config)
    (loader : list (tensor * tensor)) (s s' : solver) (top_1 top_5 n : Z) :
  topk_contract topk ->
  Forall paired (map (seen c (weights s)) loader) ->
  Forall few_ties (map (seen c (weights s)) loader) ->
  eval_with topk c loader s = Ok (top_1, top_5, n, s') ->
  top_1 <= top_5.
Proof. apply eval_with_order. Qed.

(** X2: whatever [torch.topk] returns, the counts of [eval] are not
    negative and the top-5 count is at most the total; over batches with
    one label per row the top-1 count is at most the total, too. *)
Theorem eval_counts_bounded (topk : topk_function) (c : config)
    (loader : list (tensor * tensor)) (s s' : solver) (top_1 top_5 n : Z) :
  eval_with topk c loader s = Ok (top_1, top_5, n, s') ->
  0 <= top_1 /\ 0 <= top_5 <= n
  /\ (Forall paired (map (seen c (weights s)) loader) -> top_1 <= n).
Proof.
  intros H.
  apply eval_with_inv in H as (t & Hloop & <- & <- & <-).
  apply eval_loop_with_bounds in Hloop as (H1 & H5 & H5n & H1n).
  cbn [top_1_correct top_5_correct total counter_value] in *.
  repeat split; try lia. intros Hp. specialize (H1n Hp). lia.
Qed.

Lemma truediv_fraction (x n : Z) (q : Q) :
  0 <= x <= n -> Py.truediv x n = Ok q ->
  Qle (inject_Z 0) q /\ Qle q (inject_Z 1).
Proof.
  intros Hx H. unfold Py.truediv in H.
  destruct (Z.eqb_spec n 0) as [|Hn]; [discriminate|]. injection H as <-.
  unfold Qle. cbn [Qnum Qden inject_Z].
  replace (Z.sgn n) with 1 by lia.
  rewrite !Z2Pos.id by lia. replace (Z.abs n) with n by lia.
  split; nia.
Qed.

(** X3: whatever [torch.topk] returns, the two accuracies that
    [train_evaluate] returns over batches with one label per row are
    fractions between 0 and 1. *)
Theorem accuracies_are_fractions (topk : topk_function) (c : config) (e : Z)
    (s s' : solver) (a1 a5 : Q) :
  Forall paired (map (seen c (weights s)) (data_loader c)) ->
  train_evaluate_with topk c e s = Ok (a1, a5, s') ->
  (Qle (inject_Z 0) a1 /\ Qle a1 (inject_Z 1))
  /\ (Qle (inject_Z 0) a5 /\ Qle a5 (inject_Z 1)).
Proof.
  intros Hp H. unfold train_evaluate_with in H.
  apply rbind_ok in H as ([[[t1 t5] n] s0] & He & H).
  apply rbind_ok in H as (x1 & H1 & H). apply rbind_ok in H as (x5 & H5 & H).
  apply rbind_ok in H as (line & _ & H). injection H as <- <- _.
  apply eval_with_inv in He as (t & Hloop & <- & <- & <-).
  apply eval_loop_with_bounds in Hloop as (B1 & B5 & B5n & B1n).
  specialize (B1n Hp).
  cbn [top_1_correct top_5_correct total counter_value] in *.
  split; eapply truediv_fraction; try eassumption; lia.
Qed.

End EvalAnyOrder.

(** C2 as stated fails twice over.  A batch of three rows with a single
    label: the label is compared with the best class of every row, the
    top-5 loop runs once, and [eval] returns 3 and 1.  And a batch of one
    row of six equal scores, labelled 0, under a [torch.topk] that takes
    equal scores right to left: the best class is column 0, the five
    columns returned are 5 to 1, and [eval] returns 1 and 0. *)
Lemma top_1_above_top_5 :
  (eval (Toy.setup 1 1 1 1 None)
     [([[1; 9; 3; 4; 5; 6]; [0; 7; 1; 1; 1; 1]; [0; 8; 2; 3; 4; 5]], [[1]])]
     (Toy.fresh 0)
   = Ok (3, 1, 1, set_mode false (Toy.fresh 0))
   /\ ~ 3 <= 1)
  /\ (topk_contract topk_rightmost
      /\ Forall paired
           (map (seen (Toy.setup 1 1 1 1 None) 0) [([[0; 0; 0; 0; 0; 0]], [[0]])])
      /\ eval_with topk_rightmost (Toy.setup 1 1 1 1 None)
           [([[0; 0; 0; 0; 0; 0]], [[0]])] (Toy.fresh 0)
         = Ok (1, 0, 1, set_mode false (Toy.fresh 0))
      /\ ~ 1 <= 0).
Proof.
  split; [split; [reflexivity | lia]|].
  split; [exact topk_rightmost_contract|].
  split; [repeat constructor|]. split; [reflexivity | lia].
Qed.

(** C2 on two batches of two examples, one row with two scores equal to
    its maximum: three labels are the best class, all four are among the
    five best. *)
Lemma top_5_at_least_top_1_witness :
  topk_contract Torch.topk_dim1
  /\ Forall paired (map (seen (Toy.setup 1 1 1 1 None) 0) Toy.loader)
  /\ Forall few_ties (map (seen (Toy.setup 1 1 1 1 None) 0) Toy.loader)
  /\ eval (Toy.setup 1 1 1 1 None) Toy.loader (Toy.fresh 0)
     = Ok (3, 4, 4, set_mode false (Toy.fresh 0))
  /\ 3 <= 4.
Proof.
  assert (Hp : Forall paired (map (seen (Toy.setup 1 1 1 1 None) 0) Toy.loader))
    by (repeat constructor).
  assert (Ht : Forall few_ties (map (seen (Toy.setup 1 1 1 1 None) 0) Toy.loader))
    by (repeat (constructor; [unfold few_ties; repeat (constructor; [vm_compute; lia|]);
                              constructor|]); constructor).
  assert (He : eval_with Torch.topk_dim1 (Toy.setup 1 1 1 1 None) Toy.loader (Toy.fresh 0)
               = Ok (3, 4, 4, set_mode false (Toy.fresh 0)))
    by (vm_compute; reflexivity).
  split; [exact topk_dim1_contract|]. split; [exact Hp|]. split; [exact Ht|].
  split; [exact He|].
  exact (top_5_at_least_top_1 Torch.topk_dim1 (Toy.setup 1 1 1 1 None) Toy.loader
           (Toy.fresh 0) (set_mode false (Toy.fresh 0)) 3 4 4
           topk_dim1_contract Hp Ht He).
Defined.

(** X2 on a small run, equal scores being taken right to left. *)
Lemma eval_counts_bounded_witness :
  eval_with topk_rightmost (Toy.setup 1 1 1 1 None) Toy.loader (Toy.fresh 0)
  = Ok (3, 4, 4, set_mode false (Toy.fresh 0))
  /\ (0 <= 3 /\ 0 <= 4 <= 4).
Proof.
  assert (He : eval_with topk_rightmost (Toy.setup 1 1 1 1 None) Toy.loader (Toy.fresh 0)
               = Ok (3, 4, 4, set_mode false (Toy.fresh 0)))
    by (vm_compute; reflexivity).
  split; [exact He|].
  destruct (eval_counts_bounded topk_rightmost (Toy.setup 1 1 1 1 None) Toy.loader
              (Toy.fresh 0) (set_mode false (Toy.fresh 0)) 3 4 4 He) as (H1 & H5 & _).
  split; [exact H1 | exact H5].
Defined.

(** X3 on a small run. *)
Lemma accuracies_are_fractions_witness :
  Forall paired (map (seen (Toy.setup 1 1 1 1 None) 0) Toy.loader)
  /\ exists a1 a5 s',
      train_evaluate (Toy.setup 1 1 1 1 None) 0 (Toy.fresh 0) = Ok (a1, a5, s')
      /\ Qle a1 (inject_Z 1) /\ Qle a5 (inject_Z 1).
Proof.
  assert (Hp : Forall paired (map (seen (Toy.setup 1 1 1 1 None) 0) Toy.loader))
    by (repeat constructor).
  split; [exact Hp|].
  destruct (train_evaluate_total (Toy.setup 1 1 1 1 None) 0 (Toy.fresh 0)
              (toy_evaluable (Toy.setup 1 1 1 1 None) eq_refl)) as ([[a1 a5] s'] & H).
  exists a1, a5, s'. split; [exact H|].
  destruct (accuracies_are_fractions Torch.topk_dim1 (Toy.setup 1 1 1 1 None) 0
              (Toy.fresh 0) s' a1 a5 Hp H) as ((_ & H1) & (_ & H5)).
  split; assumption.
Defined.

(** * What a run prints *)

Section Console.

Context `{F : Framework}.

Lemma is_loss_line_printed (elapsed epoch_time total_time : string)
    (e n i k : Z) (l : loss) :
  is_loss_line (printed_loss_line elapsed epoch_time total_time e n i k l) = true.
Proof. reflexivity. Qed.

Lemma is_loss_line_eval (rest : string) : is_loss_line ("Epoch [" ++ rest) = false.
Proof. reflexivity. Qed.

Lemma loss_lines_app (a b : list string) :
  loss_lines (a ++ b)%list = (loss_lines a ++ loss_lines b)%list.
Proof. unfold loss_lines. apply List.filter_app. Qed.

Lemma loss_log_grows_same (c : config) (s s' : solver) :
  logged (calls s') = logged (calls s) ->
  loss_lines (stdout s') = loss_lines (stdout s) ->
  loss_log_grows c s s'.
Proof.
  intros Hc Ho. exists [], []. rewrite !app_nil_r. split; [exact Hc|].
  split; [exact Ho | constructor].
Qed.

Lemma loss_log_grows_trans (c : config) (s s1 s2 : solver) :
  loss_log_grows c s s1 -> loss_log_grows c s1 s2 -> loss_log_grows c s s2.
Proof.
  intros (X1 & Y1 & Hc1 & Ho1 & H1) (X2 & Y2 & Hc2 & Ho2 & H2).
  exists (X1 ++ X2)%list, (Y1 ++ Y2)%list.
  split; [|split].
  - rewrite Hc2, Hc1. now rewrite <- app_assoc.
  - rewrite Ho2, Ho1. now rewrite <- app_assoc.
  - now apply Forall2_app.
Qed.

(** [print_loss_log] prints one line, the loss line of its arguments. *)
Lemma print_loss_log_prints (c : config) (t0 : Q) (n e i : Z) (l : loss)
    (s s' : solver) :
  print_loss_log c t0 n e i l s = Ok s' ->
  calls s' = calls s
  /\ exists elapsed epoch_time total_time,
      stdout s'
      = (stdout s ++ [printed_loss_line elapsed epoch_time total_time
                        (e + 1) (num_epochs c) (i + 1) n l])%list.
Proof.
  unfold print_loss_log, time. intros H.
  apply rbind_ok in H as (line & Hline & H). injection H as <-.
  split; [reflexivity|].
  unfold loss_log_line in Hline.
  destruct (e * n + i + 1 =? 0)%Z; [discriminate|].
  rewrite format_loss_log in Hline. injection Hline as <-.
  eexists _, _, _. reflexivity.
Qed.

(** [train_evaluate] prints one line, which is no loss line. *)
Lemma train_evaluate_prints (c : config) (e : Z) (s s' : solver) (a1 a5 : Q) :
  train_evaluate c e s = Ok (a1, a5, s') ->
  exists line, stdout s' = (stdout s ++ [line])%list /\ is_loss_line line = false.
Proof.
  unfold train_evaluate. intros H.
  apply rbind_ok in H as ([[[t1 t5] n] s1] & He & H).
  apply rbind_ok in H as (x1 & _ & H). apply rbind_ok in H as (x5 & _ & H).
  apply rbind_ok in H as (line & Hline & H). injection H as _ _ <-.
  rewrite eval_unfold in He. apply rbind_ok in He as (r & _ & He).
  injection He as _ <-.
  rewrite format_train_evaluate in Hline. injection Hline as <-.
  eexists. split; [reflexivity | apply is_loss_line_eval].
Qed.

(** The loss block: when it is due it logs one entry and prints its
    line. *)
Lemma log_loss_grows (c : config) (t0 : Q) (e : Z) (v : locals) (s s' : solver) :
  log_loss c t0 (Z.of_nat (length (data_loader c))) e v s = Ok s' ->
  loss_log_grows c s s'.
Proof.
  unfold log_loss. intros H. apply rbind_ok in H as (r & _ & H).
  destruct (r =? 0)%Z.
  - apply rbind_ok in H as ([i l] & _ & H). apply rbind_ok in H as (s1 & Hp & H).
    injection H as <-.
    apply print_loss_log_prints in Hp as (Hc & el & ep & tt & Ho).
    exists [(e, i, l)],
           [printed_loss_line el ep tt (e + 1) (num_epochs c) (i + 1)
              (Z.of_nat (length (data_loader c))) l].
    cbn [calls stdout set_metrics record]. rewrite Hc, Ho.
    rewrite logged_app, loss_lines_app.
    split; [reflexivity|]. split.
    + unfold loss_lines at 2. cbn [List.filter].
      now rewrite is_loss_line_printed.
    + constructor; [|constructor]. now exists el, ep, tt.
  - injection H as <-. now apply loss_log_grows_same.
Qed.

Lemma checkpoint_grows (c : config) (e : Z) (v : locals) (s s' : solver) :
  checkpoint c e v s = Ok s' -> loss_log_grows c s s'.
Proof.
  unfold checkpoint. intros H. apply rbind_ok in H as (r & _ & H).
  destruct (r =? 0)%Z.
  - apply rbind_ok in H as ([i l] & _ & H). injection H as <-.
    apply loss_log_grows_same; [|reflexivity].
    cbn [calls record save_model set_files]. rewrite logged_app. simpl.
    now rewrite app_nil_r.
  - injection H as <-. now apply loss_log_grows_same.
Qed.

Lemma evaluate_on_train_grows (c : config) (e : Z) (s s' : solver) :
  evaluate_on_train c e s = Ok s' -> loss_log_grows c s s'.
Proof.
  unfold evaluate_on_train. intros H. apply rbind_ok in H as (r & _ & H).
  destruct (r =? 0)%Z.
  - apply rbind_ok in H as ([[a1 a5] s1] & He & H). injection H as <-.
    destruct (train_evaluate_books _ _ _ _ _ _ He) as (Hc & _ & _).
    apply train_evaluate_prints in He as (line & Ho & Hline).
    apply loss_log_grows_same.
    + cbn [calls record set_metrics]. rewrite Hc, logged_app. simpl.
      now rewrite app_nil_r.
    + cbn [stdout record set_metrics]. rewrite Ho, loss_lines_app.
      unfold loss_lines at 2. cbn [List.filter]. rewrite Hline.
      now rewrite app_nil_r.
  - injection H as <-. now apply loss_log_grows_same.
Qed.

(** The optimization steps of an epoch print nothing and log nothing. *)
Lemma train_batches_grows (c : config) (e : Z) (s : solver) (v : locals) :
  loss_log_grows c s (fst (train_batches c e (s, v))).
Proof.
  destruct (train_batches_effects c e s v) as (new & Hc & _ & Hlog & _).
  destruct (train_batches_model c e (data_loader c) 0 s v) as (_ & _ & _ & Ho & _).
  fold (enumerate (data_loader c)) in Ho. fold (train_batches c e (s, v)) in Ho.
  apply loss_log_grows_same.
  - rewrite Hc, logged_app, Hlog. now rewrite app_nil_r.
  - now rewrite Ho.
Qed.

Lemma train_epoch_grows (c : config) (t0 : Q) (e : Z) (s s' : solver)
    (v v' : locals) :
  train_epoch c t0 (Z.of_nat (length (data_loader c))) (s, v) e = Ok (s', v') ->
  loss_log_grows c s s'.
Proof.
  unfold train_epoch. intros H.
  pose proof (train_batches_grows c e s v) as H0.
  destruct (train_batches c e (s, v)) as [s0 v0]. cbn [fst] in H0.
  apply rbind_ok in H as (s1 & H1 & H). apply rbind_ok in H as (s2 & H2 & H).
  apply rbind_ok in H as (s3 & H3 & H). injection H as <- <-.
  apply log_loss_grows in H1. apply checkpoint_grows in H2.
  apply evaluate_on_train_grows in H3.
  eauto using loss_log_grows_trans.
Qed.

Lemma train_epochs_grows (c : config) (t0 : Q) (es : list Z) :
  forall (s s' : solver) (v v' : locals),
    for_each (train_epoch c t0 (Z.of_nat (length (data_loader c)))) (s, v) es
    = Ok (s', v') ->
    loss_log_grows c s s'.
Proof.
  induction es as [|e es IH]; intros s s' v v' H.
  - injection H as <- <-. now apply loss_log_grows_same.
  - rewrite for_each_cons in H. apply rbind_ok in H as ([s1 v1] & H1 & H).
    apply train_epoch_grows in H1. apply IH in H.
    eauto using loss_log_grows_trans.
Qed.

(** A run that went through: the loss lines it printed are those of the
    entries it logged, one for one and in order. *)
Lemma train_prints (c : config) (s s' : solver) :
  train c s = Ok s' ->
  exists lines,
    loss_lines (stdout s') = (loss_lines (stdout s) ++ lines)%list
    /\ Forall2 (loss_line_of c) (logged (calls s')) lines.
Proof.
  intros H. rewrite train_unfold in H.
  apply rbind_ok in H as (start & _ & H). cbv zeta in H.
  apply rbind_ok in H as ([s1 v1] & H & Hret). injection Hret as <-.
  apply train_epochs_grows in H as (X & Y & Hc & Ho & HXY).
  cbn [fst snd time no_calls set_metrics calls stdout logged flat_map app] in Hc, Ho.
  exists Y. split; [exact Ho|]. now rewrite Hc.
Qed.

(** C8: with ten epochs, a loss step of two and a first epoch of 0, a run
    that goes through prints the loss line at the 1-indexed epochs 2, 4, 6,
    8 and 10 and at no other: the loss lines that the run adds to the
    console are five, one for each logged entry and in their order, each
    showing the epoch of its entry counted from 1, out of 10, and the loss
    of the entry.  [losses] holds one pair per printed line, and each
    carries the loss that [model_step] returned on the last batch of its
    epoch.  The run does go through when the other two steps are not zero
    and the loader can be evaluated. *)
Theorem loss_log_every_second_epoch (c : config) (s : solver) :
  num_epochs c = 10 -> loss_log_step c = 2 -> start_epoch c = Ok 0 ->
  (forall s', train c s = Ok s' ->
     map (fun x => fst (fst x) + 1) (logged (calls s')) = [2; 4; 6; 8; 10]
     /\ losses s' = map (fun x => (fst (fst x), snd x)) (logged (calls s'))
     /\ Forall (final_batch_loss c (calls s')) (logged (calls s'))
     /\ exists lines,
         loss_lines (stdout s') = (loss_lines (stdout s) ++ lines)%list
         /\ Forall2 (loss_line_of c) (logged (calls s')) lines
         /\ length lines = 5%nat)
  /\ (model_save_step c <> 0 -> train_eval_step c <> 0 -> evaluable c ->
      exists s', train c s = Ok s').
Proof.
  intros Hn Hstep Hstart. split.
  - intros s' Ht.
    destruct (train_effects c s s' 0 Hstart Ht) as (_ & Hlog & Hlosses & Hfinal).
    assert (Hepochs : map (fun x => fst (fst x) + 1) (logged (calls s'))
                      = [2; 4; 6; 8; 10]).
    { rewrite (map_succ_epochs _ _ Hlog). unfold log_epochs.
      rewrite Hn, Hstep. reflexivity. }
    split; [exact Hepochs|]. split; [exact Hlosses|]. split; [exact Hfinal|].
    destruct (train_prints c s s' Ht) as (lines & Hout & Hlines).
    exists lines. split; [exact Hout|]. split; [exact Hlines|].
    rewrite <- (Forall2_length _ _ _ Hlines).
    rewrite <- (length_map (fun x => fst (fst x) + 1)), Hepochs. reflexivity.
  - intros Hsave Heval Hev.
    apply (train_total c s 0); [|exact Hstart | lia].
    repeat split; try assumption; try apply Hev. rewrite Hstep. lia.
Qed.

End Console.

(** C8 on a run of ten epochs over two batches, from an empty console. *)
Lemma loss_log_every_second_epoch_witness :
  num_epochs (Toy.setup 10 2 3 4 None) = 10
  /\ loss_log_step (Toy.setup 10 2 3 4 None) = 2
  /\ start_epoch (Toy.setup 10 2 3 4 None) = Ok 0
  /\ exists s',
      train (Toy.setup 10 2 3 4 None) (Toy.fresh 0) = Ok s'
      /\ map (fun x => fst (fst x) + 1) (logged (calls s')) = [2; 4; 6; 8; 10]
      /\ map fst (losses s') = [1; 3; 5; 7; 9]
      /\ length (loss_lines (stdout s')) = 5%nat.
Proof.
  split; [reflexivity|]. split; [reflexivity|]. split; [reflexivity|].
  destruct (loss_log_every_second_epoch (Toy.setup 10 2 3 4 None) (Toy.fresh 0)
              eq_refl eq_refl eq_refl) as [Hlog Hruns].
  destruct Hruns as (s' & Ht).
  - simpl. lia.
  - simpl. lia.
  - split.
    + intros w. repeat constructor; simpl; lia.
    + constructor. simpl. discriminate.
  - exists s'. split; [exact Ht|].
    destruct (Hlog s' Ht) as (Hepochs & Hlosses & _ & lines & Hout & _ & Hlen).
    split; [exact Hepochs|]. split.
    + rewrite Hlosses, map_map. simpl.
      transitivity (map (fun e => e - 1)
                      (map (fun x => fst (fst x) + 1) (logged (calls s')))).
      * rewrite map_map. apply map_ext. intros [[e i] l]. simpl. lia.
      * rewrite Hepochs. reflexivity.
    + rewrite Hout. exact Hlen.
Defined.
